(** * Apartment listing: filter / pagination / cache state machine

    A shallow embedding of the client-side core of the apartment listing
    application (Pinia stores and composables written in TypeScript):

    - [useApiCache.ts]      response cache ([generateCacheKey], [getFromCache],
                            [setCache], [cachedFetch]);
    - [types/constants.ts]  [validateFilterParams];
    - [stores/filterStore.ts]   the filter store and its validators;
    - [useUrlFilters]       query-string synchronisation;
    - [apartmentStore]      the paginated list store.

    Conventions of the embedding.  A JavaScript [number] is an integer [Z]
    of any size (the code only compares, prints and increments numbers, so
    fractions, rounding and exponent notation play no part); [NaN] appears
    only as the result of [Number] on a string and is the [None] of
    [option Z].  Two modules lift these limits where a property depends on
    them: [NumberStore] gives the setters of the filter store over numbers
    with [NaN] among them, and [UrlNumbers] reads the query with any
    conversion of strings to any ordered type of numbers.  A JavaScript
    string is a [string] of Latin-1 code units,
    the domain on which [btoa] is defined.  [Map]s and plain objects used as
    dictionaries are [gmap]s.  [Date.now()] is an explicit argument.
    Promises are modelled by their settlement ([Resolved] / [Rejected]); the
    network is an explicit argument giving the settlement of the request. *)

From Stdlib Require Import ZArith Ascii String List Bool Lia.
From Stdlib Require Import DecimalString DecimalZ DecimalPos.
From stdpp Require Import gmap strings list sorting.

Local Open Scope string_scope.
Local Open Scope Z_scope.

(** ** JavaScript values *)

(** JSON-representable values: what travels through [JSON.stringify],
    [localStorage] and the cache. Object properties are listed in the
    object's own enumeration order. *)
#[local] Unset Elimination Schemes.
Inductive json : Type :=
| JNull
| JBool (b : bool)
| JNum (n : Z)
| JStr (s : string)
| JArr (items : list json)
| JObj (props : list (string * json)).
#[local] Set Elimination Schemes.

(** [if (v)]: the falsy values are [null], [false], [0] and the empty
    string; arrays and objects are always truthy. *)
Definition truthy (v : json) : bool :=
  match v with
  | JNull => false
  | JBool b => b
  | JNum n => negb (n =? 0)%Z
  | JStr s => negb (String.eqb s "")
  | JArr _ => true
  | JObj _ => true
  end.

(** [typeof v === "number"], giving the number. *)
Definition typeof_number (v : json) : option Z :=
  match v with JNum n => Some n | _ => None end.

(** [n.toString()] on an integer. *)
Definition toString (n : Z) : string := NilZero.string_of_int (Z.to_int n).

(** [Number(s)] on a string: [None] is [NaN]. The empty string converts to
    0; otherwise a decimal integer literal with an optional sign is read. *)
Definition Number (s : string) : option Z :=
  match s with
  | EmptyString => Some 0
  | String "+" s' => option_map Z.of_uint (NilZero.uint_of_string s')
  | _ => option_map Z.of_int (NilZero.int_of_string s)
  end.

(** The settlement of an awaited promise. *)
Inductive settled (E A : Type) : Type :=
| Resolved (a : A)
| Rejected (e : E).
Arguments Resolved {E A} a.
Arguments Rejected {E A} e.

(** A thrown value: an [Error] object with its message, or anything else. *)
Inductive thrown : Type :=
| ErrorObject (message : string)
| OtherValue (v : json).

(** ** [JSON.stringify] and [btoa] *)

Definition dquote : ascii := "034"%char.
Definition backslash : ascii := "092"%char.

Definition hex_digit (n : N) : ascii :=
  match String.get (N.to_nat n) "0123456789abcdef" with
  | Some c => c
  | None => "0"%char
  end.

(** Escaping of one code unit inside a JSON string literal. *)
Definition escape_char (c : ascii) : string :=
  let n := N_of_ascii c in
  if (n =? 34)%N then String backslash (String dquote "")
  else if (n =? 92)%N then String backslash (String backslash "")
  else if (n =? 8)%N then String backslash "b"
  else if (n =? 9)%N then String backslash "t"
  else if (n =? 10)%N then String backslash "n"
  else if (n =? 12)%N then String backslash "f"
  else if (n =? 13)%N then String backslash "r"
  else if (n <? 32)%N then
    String backslash
      ("u00" +:+ String (hex_digit (n / 16)) (String (hex_digit (n mod 16)) ""))
  else String c "".

Fixpoint escape (s : string) : string :=
  match s with
  | EmptyString => ""
  | String c s' => escape_char c +:+ escape s'
  end.

Definition quote (s : string) : string :=
  String dquote (escape s +:+ String dquote "").

(** [JSON.stringify(v)]: properties are emitted in enumeration order. *)
Fixpoint stringify (v : json) : string :=
  match v with
  | JNull => "null"
  | JBool true => "true"
  | JBool false => "false"
  | JNum n => toString n
  | JStr s => quote s
  | JArr items => "[" +:+ String.concat "," (map stringify items) +:+ "]"
  | JObj props =>
      "{" +:+
      String.concat ","
        (map (fun kv => match kv with
                        | (k, x) => quote k +:+ ":" +:+ stringify x
                        end) props)
      +:+ "}"
  end.

Definition b64_alphabet : string :=
  "ABCDEFGHIJKLMNOPQRSTUVWXYZabcdefghijklmnopqrstuvwxyz0123456789+/".

Definition bit (b : bool) : nat := if b then 1%nat else 0%nat.

(** The base64 digit of a six-bit group, most significant bit first. *)
Definition b64_digit (s5 s4 s3 s2 s1 s0 : bool) : ascii :=
  let i := (32 * bit s5 + 16 * bit s4 + 8 * bit s3
            + 4 * bit s2 + 2 * bit s1 + bit s0)%nat in
  match String.get i b64_alphabet with
  | Some c => c
  | None => "="%char
  end.

(** [btoa(s)]: three bytes become four digits; a final group of one or two
    bytes is zero-extended and padded with [=]. ([Ascii] lists the bits of
    a byte least significant first.) *)
Fixpoint btoa (s : string) : string :=
  match s with
  | EmptyString => ""
  | String (Ascii a0 a1 a2 a3 a4 a5 a6 a7) EmptyString =>
      String (b64_digit a7 a6 a5 a4 a3 a2)
        (String (b64_digit a1 a0 false false false false) "==")
  | String (Ascii a0 a1 a2 a3 a4 a5 a6 a7)
      (String (Ascii b0 b1 b2 b3 b4 b5 b6 b7) EmptyString) =>
      String (b64_digit a7 a6 a5 a4 a3 a2)
        (String (b64_digit a1 a0 b7 b6 b5 b4)
           (String (b64_digit b3 b2 b1 b0 false false) "="))
  | String (Ascii a0 a1 a2 a3 a4 a5 a6 a7)
      (String (Ascii b0 b1 b2 b3 b4 b5 b6 b7)
         (String (Ascii c0 c1 c2 c3 c4 c5 c6 c7) rest)) =>
      String (b64_digit a7 a6 a5 a4 a3 a2)
        (String (b64_digit a1 a0 b7 b6 b5 b4)
           (String (b64_digit b3 b2 b1 b0 c7 c6)
              (String (b64_digit c5 c4 c3 c2 c1 c0) (btoa rest))))
  end.

(** [array.includes(x)] and [array.indexOf(x)] on numbers ([None] is -1). *)
Definition includes (l : list Z) (x : Z) : bool := existsb (Z.eqb x) l.

Fixpoint indexOf (l : list Z) (x : Z) : option nat :=
  match l with
  | [] => None
  | y :: l' => if (y =? x)%Z then Some 0%nat else option_map S (indexOf l' x)
  end.

(** [array.splice(index, 1)] *)
Definition splice1 (l : list Z) (index : nat) : list Z :=
  (take index l ++ drop (S index) l)%list.

(** [array.sort((a, b) => a - b)] *)
Definition sort_ascending (l : list Z) : list Z := merge_sort Z.le l.

(** [array.join(sep)] on numbers. *)
Definition join (sep : string) (l : list Z) : string :=
  String.concat sep (map toString l).

(** ** Domain types ([types/index.ts]) *)

Record FilterParams : Type := {
  priceRange : Z * Z;
  areaRange : Z * Z;
  rooms : list Z;
  floors : Z * Z
}.

Record FilterMetadata : Type := {
  meta_priceRange : Z * Z;
  meta_areaRange : Z * Z;
  roomsAvailable : list Z;
  floorsRange : Z * Z
}.

Record PaginationParams : Type := {
  page : Z;
  limit : Z;
  total : Z
}.

Record Apartment : Type := {
  id : string;
  title : string;
  price : Z;
  area : Z;
  apartment_rooms : Z;
  floor : Z;
  totalFloors : Z;
  address : string;
  images : list string;
  description : option string;
  features : list string
}.

(** [{ apartments, meta: { total, filters } }]; [meta.filters] is tested for
    presence by the store, so it is optional here. *)
Record ApartmentListResponse : Type := {
  response_apartments : list Apartment;
  meta_total : Z;
  meta_filters : option FilterMetadata
}.

Record ValidationError : Type := {
  field : string;
  message : string;
  code : string
}.

Record ValidationResult : Type := {
  isValid : bool;
  errors : list ValidationError
}.

Record RangeRule : Type := { rule_min : Z; rule_max : Z }.

Record FilterValidationRules : Type := {
  rules_priceRange : RangeRule;
  rules_areaRange : RangeRule;
  rules_rooms_available : list Z;
  rules_floors : RangeRule
}.

(** ** Validation against rules ([types/constants.ts]) *)

Module Constants.

(** [if (cond) errors.push(e)] *)
Definition push_if (cond : bool) (e : ValidationError)
    (errors : list ValidationError) : list ValidationError :=
  if cond then (errors ++ [e])%list else errors.

(** The three checks made on one range, in the order of the source. The
    message texts are kept in the source's language, UTF-8 encoded. *)
Definition validateFilterParams
    (filters : FilterParams) (rules : FilterValidationRules)
    : ValidationResult :=
  let errors := [] in
  (* price range *)
  let errors :=
    push_if (fst (priceRange filters) <? rule_min (rules_priceRange rules))
      {| field := "priceRange";
         message := "Минимальная цена не может быть меньше "
                    +:+ toString (rule_min (rules_priceRange rules));
         code := "PRICE_MIN_INVALID" |} errors in
  let errors :=
    push_if (snd (priceRange filters) >? rule_max (rules_priceRange rules))
      {| field := "priceRange";
         message := "Максимальная цена не может быть больше "
                    +:+ toString (rule_max (rules_priceRange rules));
         code := "PRICE_MAX_INVALID" |} errors in
  let errors :=
    push_if (fst (priceRange filters) >? snd (priceRange filters))
      {| field := "priceRange";
         message := "Минимальная цена не может быть больше максимальной";
         code := "PRICE_RANGE_INVALID" |} errors in
  (* area range *)
  let errors :=
    push_if (fst (areaRange filters) <? rule_min (rules_areaRange rules))
      {| field := "areaRange";
         message := "Минимальная площадь не может быть меньше "
                    +:+ toString (rule_min (rules_areaRange rules));
         code := "AREA_MIN_INVALID" |} errors in
  let errors :=
    push_if (snd (areaRange filters) >? rule_max (rules_areaRange rules))
      {| field := "areaRange";
         message := "Максимальная площадь не может быть больше "
                    +:+ toString (rule_max (rules_areaRange rules));
         code := "AREA_MAX_INVALID" |} errors in
  let errors :=
    push_if (fst (areaRange filters) >? snd (areaRange filters))
      {| field := "areaRange";
         message := "Минимальная площадь не может быть больше максимальной";
         code := "AREA_RANGE_INVALID" |} errors in
  (* rooms *)
  let invalidRooms :=
    List.filter (fun room => negb (includes (rules_rooms_available rules) room))
      (rooms filters) in
  let errors :=
    push_if (0 <? length invalidRooms)%nat
      {| field := "rooms";
         message := "Недопустимое количество комнат: " +:+ join ", " invalidRooms;
         code := "ROOMS_INVALID" |} errors in
  (* floors *)
  let errors :=
    push_if (fst (floors filters) <? rule_min (rules_floors rules))
      {| field := "floors";
         message := "Минимальный этаж не может быть меньше "
                    +:+ toString (rule_min (rules_floors rules));
         code := "FLOOR_MIN_INVALID" |} errors in
  let errors :=
    push_if (snd (floors filters) >? rule_max (rules_floors rules))
      {| field := "floors";
         message := "Максимальный этаж не может быть больше "
                    +:+ toString (rule_max (rules_floors rules));
         code := "FLOOR_MAX_INVALID" |} errors in
  let errors :=
    push_if (fst (floors filters) >? snd (floors filters))
      {| field := "floors";
         message := "Минимальный этаж не может быть больше максимального";
         code := "FLOOR_RANGE_INVALID" |} errors in
  {| isValid := (length errors =? 0)%nat; errors := errors |}.

(** The codes reported by a validation, in order. *)
Definition codes (r : ValidationResult) : list string := map code (errors r).

(** *** Specification vocabulary *)

(** The three conditions checked on a range. *)
Definition below_minimum (range : Z * Z) (rule : RangeRule) : Prop :=
  fst range < rule_min rule.

Definition above_maximum (range : Z * Z) (rule : RangeRule) : Prop :=
  snd range > rule_max rule.

Definition inverted (range : Z * Z) : Prop := fst range > snd range.

(** A range meets none of the three conditions. *)
Definition passes (range : Z * Z) (rule : RangeRule) : Prop :=
  ~ below_minimum range rule /\ ~ above_maximum range rule /\ ~ inverted range.

Definition rooms_allowed (rooms available : list Z) : Prop :=
  Forall (fun room => In room available) rooms.

Definition price_codes : list string :=
  ["PRICE_MIN_INVALID"; "PRICE_MAX_INVALID"; "PRICE_RANGE_INVALID"].

Definition area_codes : list string :=
  ["AREA_MIN_INVALID"; "AREA_MAX_INVALID"; "AREA_RANGE_INVALID"].

Definition floor_codes : list string :=
  ["FLOOR_MIN_INVALID"; "FLOOR_MAX_INVALID"; "FLOOR_RANGE_INVALID"].

(** The rules of the spec's scenario and a filter set that satisfies them. *)
Definition scenario_rules : FilterValidationRules :=
  {| rules_priceRange := {| rule_min := 0; rule_max := 100000000 |};
     rules_areaRange := {| rule_min := 1; rule_max := 1000 |};
     rules_rooms_available := [1; 2; 3; 4];
     rules_floors := {| rule_min := 1; rule_max := 50 |} |}.

Definition scenario_filters : FilterParams :=
  {| priceRange := (5000000, 10000000); areaRange := (30, 80);
     rooms := [2; 3]; floors := (2, 9) |}.

Definition inverted_price : FilterParams :=
  {| priceRange := (10000000, 5000000); areaRange := (30, 80);
     rooms := [2; 3]; floors := (2, 9) |}.

(** *** Defaults, sanitising and pagination *)

Definition DEFAULT_VALIDATION_RULES : FilterValidationRules :=
  {| rules_priceRange := {| rule_min := 0; rule_max := 100000000 |};
     rules_areaRange := {| rule_min := 1; rule_max := 1000 |};
     rules_rooms_available := [1; 2; 3; 4];
     rules_floors := {| rule_min := 1; rule_max := 50 |} |}.

(** [Partial<FilterParams>] and [Partial<PaginationParams>] as their types
    describe them: each field present or not. *)
Record PartialFilterParams : Type := {
  partial_priceRange : option (Z * Z);
  partial_areaRange : option (Z * Z);
  partial_rooms : option (list Z);
  partial_floors : option (Z * Z)
}.

Record PartialPaginationParams : Type := {
  partial_page : option Z;
  partial_limit : option Z;
  partial_total : option Z
}.

(** [range?.[0] ?? fallback] and [range?.[1] ?? fallback] *)
Definition lower_or (range : option (Z * Z)) (fallback : Z) : Z :=
  match range with Some r => fst r | None => fallback end.

Definition upper_or (range : option (Z * Z)) (fallback : Z) : Z :=
  match range with Some r => snd r | None => fallback end.

(** [sanitizeFilterParams(filters)] *)
Definition sanitizeFilterParams (filters : PartialFilterParams) : FilterParams :=
  {| priceRange :=
       (Z.max 0 (lower_or (partial_priceRange filters) 0),
        Z.min 100000000 (upper_or (partial_priceRange filters) 100000000));
     areaRange :=
       (Z.max 1 (lower_or (partial_areaRange filters) 1),
        Z.min 1000 (upper_or (partial_areaRange filters) 1000));
     rooms :=
       List.filter
         (fun room => includes (rules_rooms_available DEFAULT_VALIDATION_RULES) room)
         (default [] (partial_rooms filters));
     floors :=
       (Z.max 1 (lower_or (partial_floors filters) 1),
        Z.min 50 (upper_or (partial_floors filters) 50)) |}.

(** [sanitizePaginationParams(pagination)] *)
Definition sanitizePaginationParams (pagination : PartialPaginationParams)
    : PaginationParams :=
  {| page := Z.max 1 (default 1 (partial_page pagination));
     limit := Z.min 100 (Z.max 1 (default 20 (partial_limit pagination)));
     total := Z.max 0 (default 0 (partial_total pagination)) |}.

(** [validatePaginationParams(pagination)] on a typed record, whose fields
    are numbers. *)
Definition validatePaginationParams (pagination : PaginationParams)
    : ValidationResult :=
  let errors := [] in
  let errors :=
    push_if (page pagination <? 1)
      {| field := "page";
         message := "Номер страницы должен быть положительным числом";
         code := "PAGE_INVALID" |} errors in
  let errors :=
    push_if ((limit pagination <? 1) || (limit pagination >? 100))
      {| field := "limit";
         message := "Лимит должен быть числом от 1 до 100";
         code := "LIMIT_INVALID" |} errors in
  let errors :=
    push_if (total pagination <? 0)
      {| field := "total";
         message := "Общее количество должно быть неотрицательным числом";
         code := "TOTAL_INVALID" |} errors in
  {| isValid := (length errors =? 0)%nat; errors := errors |}.

(** A total record seen as a partial one. *)
Definition all_present (f : FilterParams) : PartialFilterParams :=
  {| partial_priceRange := Some (priceRange f);
     partial_areaRange := Some (areaRange f);
     partial_rooms := Some (rooms f);
     partial_floors := Some (floors f) |}.

Definition pagination_present (p : PaginationParams) : PartialPaginationParams :=
  {| partial_page := Some (page p); partial_limit := Some (limit p);
     partial_total := Some (total p) |}.

End Constants.

(** ** The filter store ([stores/filterStore.ts]) *)

Module FilterStore.

Record FilterState : Type := {
  filters : FilterParams;
  metadata : option FilterMetadata;
  loading : bool;
  error : option string;
  isActive : bool
}.

(** The store together with what [useFilterPersistence] sees of the
    browser: [saved] is the item under the key ['apartment-filters'], as the
    object handed to [JSON.stringify]. *)
Record World : Type := {
  state : FilterState;
  client : bool;          (* import.meta.client *)
  storageFull : bool;     (* localStorage.setItem throws *)
  saved : option json
}.

Definition set_state (w : World) (s : FilterState) : World :=
  {| state := s; client := client w; storageFull := storageFull w;
     saved := saved w |}.

Definition set_filters (s : FilterState) (f : FilterParams) : FilterState :=
  {| filters := f; metadata := metadata s; loading := loading s;
     error := error s; isActive := isActive s |}.

Definition set_error (s : FilterState) (e : option string) : FilterState :=
  {| filters := filters s; metadata := metadata s; loading := loading s;
     error := e; isActive := isActive s |}.

Definition set_isActive (s : FilterState) (b : bool) : FilterState :=
  {| filters := filters s; metadata := metadata s; loading := loading s;
     error := error s; isActive := b |}.

Definition set_priceRange (f : FilterParams) (r : Z * Z) : FilterParams :=
  {| priceRange := r; areaRange := areaRange f; rooms := rooms f;
     floors := floors f |}.

Definition set_areaRange (f : FilterParams) (r : Z * Z) : FilterParams :=
  {| priceRange := priceRange f; areaRange := r; rooms := rooms f;
     floors := floors f |}.

Definition set_rooms (f : FilterParams) (r : list Z) : FilterParams :=
  {| priceRange := priceRange f; areaRange := areaRange f; rooms := r;
     floors := floors f |}.

Definition set_floors (f : FilterParams) (r : Z * Z) : FilterParams :=
  {| priceRange := priceRange f; areaRange := areaRange f; rooms := rooms f;
     floors := r |}.

(** [a !== b] on the two ends of a range. *)
Definition range_differs (a b : Z * Z) : bool :=
  negb (fst a =? fst b) || negb (snd a =? snd b).

(** Getter [hasActiveFilters]. *)
Definition hasActiveFilters (s : FilterState) : bool :=
  match metadata s with
  | None => false
  | Some metadata =>
      let priceChanged := range_differs (priceRange (filters s)) (meta_priceRange metadata) in
      let areaChanged := range_differs (areaRange (filters s)) (meta_areaRange metadata) in
      let roomsSelected := (0 <? length (rooms (filters s)))%nat in
      let floorsChanged := range_differs (floors (filters s)) (floorsRange metadata) in
      priceChanged || areaChanged || roomsSelected || floorsChanged
  end.

(** [n.toLocaleString()]; the locale's digit grouping is not modelled. *)
Definition toLocaleString (n : Z) : string := toString n.

(** [saveFiltersToStorage()], i.e. [useFilterPersistence().saveFilters]. *)
Definition saveFiltersToStorage (w : World) (now : Z) : World :=
  if negb (client w) then w
  else if storageFull w then w   (* caught, warned *)
  else
    let f := filters (state w) in
    let pair r := JArr [JNum (fst r); JNum (snd r)] in
    let filtersToSave :=
      JObj [("priceRange", pair (priceRange f));
            ("areaRange", pair (areaRange f));
            ("rooms", JArr (map JNum (rooms f)));
            ("floors", pair (floors f));
            ("timestamp", JNum now)] in
    {| state := state w; client := client w; storageFull := storageFull w;
       saved := Some filtersToSave |}.

(** [min < metaMin || max > metaMax || min > max] *)
Definition out_of_range (range meta : Z * Z) : bool :=
  (fst range <? fst meta) || (snd range >? snd meta) || (fst range >? snd range).

(** The validators return their verdict and the store, whose [error] they
    may have set. *)
Definition validatePriceRange (s : FilterState) (range : Z * Z)
    : bool * FilterState :=
  match metadata s with
  | None => (false, s)
  | Some metadata =>
      let '(metaMin, metaMax) := meta_priceRange metadata in
      if out_of_range range (metaMin, metaMax) then
        (false,
         set_error s
           (Some ("Цена должна быть от " +:+ toLocaleString metaMin
                  +:+ " до " +:+ toLocaleString metaMax +:+ " руб.")))
      else (true, s)
  end.

Definition validateAreaRange (s : FilterState) (range : Z * Z)
    : bool * FilterState :=
  match metadata s with
  | None => (false, s)
  | Some metadata =>
      let '(metaMin, metaMax) := meta_areaRange metadata in
      if out_of_range range (metaMin, metaMax) then
        (false,
         set_error s
           (Some ("Площадь должна быть от " +:+ toString metaMin
                  +:+ " до " +:+ toString metaMax +:+ " м²")))
      else (true, s)
  end.

Definition validateRooms (s : FilterState) (rooms : list Z)
    : bool * FilterState :=
  match metadata s with
  | None => (false, s)
  | Some metadata =>
      let invalidRooms :=
        List.filter (fun room => negb (includes (roomsAvailable metadata) room))
          rooms in
      if (0 <? length invalidRooms)%nat then
        (false,
         set_error s
           (Some ("Недоступные варианты комнат: " +:+ join ", " invalidRooms)))
      else (true, s)
  end.

Definition validateFloorsRange (s : FilterState) (range : Z * Z)
    : bool * FilterState :=
  match metadata s with
  | None => (false, s)
  | Some metadata =>
      let '(metaMin, metaMax) := floorsRange metadata in
      if out_of_range range (metaMin, metaMax) then
        (false,
         set_error s
           (Some ("Этаж должен быть от " +:+ toString metaMin
                  +:+ " до " +:+ toString metaMax)))
      else (true, s)
  end.

(** The common tail of the four setters, after the field is replaced:
    [isActive = hasActiveFilters; error = null; saveFiltersToStorage()]. *)
Definition commit (w : World) (s : FilterState) (now : Z) : World :=
  let s := set_isActive s (hasActiveFilters s) in
  let s := set_error s None in
  saveFiltersToStorage (set_state w s) now.

Definition updatePriceRange (w : World) (now : Z) (range : Z * Z) : World :=
  let '(ok, s) := validatePriceRange (state w) range in
  if ok then commit w (set_filters s (set_priceRange (filters s) range)) now
  else set_state w s.

Definition updateAreaRange (w : World) (now : Z) (range : Z * Z) : World :=
  let '(ok, s) := validateAreaRange (state w) range in
  if ok then commit w (set_filters s (set_areaRange (filters s) range)) now
  else set_state w s.

Definition updateRooms (w : World) (now : Z) (rooms : list Z) : World :=
  let '(ok, s) := validateRooms (state w) rooms in
  if ok then commit w (set_filters s (set_rooms (filters s) rooms)) now
  else set_state w s.

Definition updateFloorsRange (w : World) (now : Z) (range : Z * Z) : World :=
  let '(ok, s) := validateFloorsRange (state w) range in
  if ok then commit w (set_filters s (set_floors (filters s) range)) now
  else set_state w s.

(** [toggleRoom(roomCount)]: no validator is called and [error] is left as
    it is. *)
Definition toggleRoom (w : World) (now : Z) (roomCount : Z) : World :=
  let s := state w in
  let rooms0 := rooms (filters s) in
  let rooms1 :=
    match indexOf rooms0 roomCount with
    | Some index => splice1 rooms0 index
    | None => (rooms0 ++ [roomCount])%list
    end in
  let rooms2 := sort_ascending rooms1 in
  let s := set_filters s (set_rooms (filters s) rooms2) in
  let s := set_isActive s (hasActiveFilters s) in
  saveFiltersToStorage (set_state w s) now.

(** [this.error || fallback] *)
Definition error_or (e : option string) (fallback : string) : string :=
  match e with
  | Some text => if String.eqb text "" then fallback else text
  | None => fallback
  end.

(** [validateAllFilters()]: one code per dimension; the message is the text
    the validator has just left in [error]. *)
Definition validateAllFilters (s : FilterState) : ValidationResult * FilterState :=
  let errors := [] in
  let '(ok, s) := validatePriceRange s (priceRange (filters s)) in
  let errors :=
    Constants.push_if (negb ok)
      {| field := "priceRange";
         message := error_or (error s) "Invalid price range";
         code := "INVALID_PRICE_RANGE" |} errors in
  let '(ok, s) := validateAreaRange s (areaRange (filters s)) in
  let errors :=
    Constants.push_if (negb ok)
      {| field := "areaRange";
         message := error_or (error s) "Invalid area range";
         code := "INVALID_AREA_RANGE" |} errors in
  let '(ok, s) := validateRooms s (rooms (filters s)) in
  let errors :=
    Constants.push_if (negb ok)
      {| field := "rooms";
         message := error_or (error s) "Invalid rooms selection";
         code := "INVALID_ROOMS" |} errors in
  let '(ok, s) := validateFloorsRange s (floors (filters s)) in
  let errors :=
    Constants.push_if (negb ok)
      {| field := "floors";
         message := error_or (error s) "Invalid floors range";
         code := "INVALID_FLOORS_RANGE" |} errors in
  ({| isValid := (length errors =? 0)%nat; errors := errors |}, s).

(** A [Partial<FilterParams>] as it arrives from [localStorage] or the URL:
    each field absent or any JSON value, checked at run time. *)
Record PartialFilters : Type := {
  saved_priceRange : option json;
  saved_areaRange : option json;
  saved_rooms : option json;
  saved_floors : option json
}.

(** One range of [validateSavedFilters]: the saved pair is adopted only when
    it is a two-element array of numbers lying within the metadata range and
    in order; otherwise the metadata range stays. *)
Definition validateSavedRange (saved : option json) (meta : Z * Z) : Z * Z :=
  match saved with
  | Some (JArr [JNum min; JNum max]) =>
      if (min >=? fst meta) && (max <=? snd meta) && (min <=? max)
      then (min, max)
      else meta
  | _ => meta
  end.

(** [savedFilters.rooms.filter(room => typeof room === "number" &&
    metadata.roomsAvailable.includes(room))] *)
Fixpoint validRooms (available : list Z) (saved : list json) : list Z :=
  match saved with
  | [] => []
  | JNum room :: rest =>
      if includes available room then room :: validRooms available rest
      else validRooms available rest
  | _ :: rest => validRooms available rest
  end.

Definition validateSavedFilters (savedFilters : PartialFilters)
    (metadata : FilterMetadata) : FilterParams :=
  {| priceRange :=
       validateSavedRange (saved_priceRange savedFilters) (meta_priceRange metadata);
     areaRange :=
       validateSavedRange (saved_areaRange savedFilters) (meta_areaRange metadata);
     rooms :=
       match saved_rooms savedFilters with
       | Some (JArr items) => validRooms (roomsAvailable metadata) items
       | _ => []
       end;
     floors :=
       validateSavedRange (saved_floors savedFilters) (floorsRange metadata) |}.

(** [applyUrlFilters(urlFilters)] *)
Definition applyUrlFilters (w : World) (urlFilters : PartialFilters) : World :=
  match metadata (state w) with
  | None => w
  | Some metadata =>
      let s := set_filters (state w) (validateSavedFilters urlFilters metadata) in
      let s := set_isActive s (hasActiveFilters s) in
      set_state w (set_error s None)
  end.

(** The metadata of the spec's scenario, a store initialised with it (the
    filters at their defaults), and a store that has not received metadata
    yet. *)
Definition catalogue : FilterMetadata :=
  {| meta_priceRange := (0, 100000000);
     meta_areaRange := (1, 1000);
     roomsAvailable := [1; 2; 3; 4];
     floorsRange := (1, 50) |}.

Definition defaults_of (m : FilterMetadata) : FilterParams :=
  {| priceRange := meta_priceRange m; areaRange := meta_areaRange m;
     rooms := []; floors := floorsRange m |}.

Definition initialised : World :=
  {| state := {| filters := defaults_of catalogue;
                 metadata := Some catalogue;
                 loading := false; error := None; isActive := false |};
     client := true; storageFull := false; saved := None |}.

Definition uninitialised : World :=
  {| state := {| filters := defaults_of catalogue;
                 metadata := None;
                 loading := false; error := None; isActive := false |};
     client := true; storageFull := false; saved := None |}.

(** The initialised store with another price range in its filters. *)
Definition with_price (range : Z * Z) : FilterState :=
  set_filters (state initialised) (set_priceRange (defaults_of catalogue) range).

(** The codes that [validateAllFilters] has for the three ranges. *)
Definition range_codes : list string :=
  ["INVALID_PRICE_RANGE"; "INVALID_AREA_RANGE"; "INVALID_FLOORS_RANGE"].

(** *** Specification vocabulary *)

(** A range lies within the metadata range and is in order. *)
Definition within (range meta : Z * Z) : Prop :=
  fst meta <= fst range /\ fst range <= snd range /\ snd range <= snd meta.

(** How a sanitised range relates to the saved value: a well-formed pair
    within the metadata range is adopted as it is; anything else gives the
    whole metadata range. *)
Definition adopted_or_reset (saved : option json) (meta result : Z * Z) : Prop :=
  (forall min max : Z,
      saved = Some (JArr [JNum min; JNum max]) -> within (min, max) meta ->
      result = (min, max))
  /\ ((forall min max : Z,
          saved = Some (JArr [JNum min; JNum max]) -> ~ within (min, max) meta)
      -> result = meta).

(** Following the spec's words (clamping): each bound that is out of range
    is moved to the nearest metadata bound, a bound in range is kept. *)
Definition clamp (x lo hi : Z) : Z := Z.min (Z.max x lo) hi.

Definition clampedRange (range meta : Z * Z) : Z * Z :=
  (clamp (fst range) (fst meta) (snd meta),
   clamp (snd range) (fst meta) (snd meta)).

(** The numbers among the items of a saved array. *)
Definition numbers (items : list json) : list Z := omap typeof_number items.

(** *** The other getters and actions of the store *)

(** Getter [activeFiltersCount]. *)
Definition activeFiltersCount (s : FilterState) : nat :=
  match metadata s with
  | None => 0%nat
  | Some metadata =>
      let count := 0%nat in
      let count :=
        if range_differs (priceRange (filters s)) (meta_priceRange metadata)
        then S count else count in
      let count :=
        if range_differs (areaRange (filters s)) (meta_areaRange metadata)
        then S count else count in
      let count :=
        if (0 <? length (rooms (filters s)))%nat then S count else count in
      let count :=
        if range_differs (floors (filters s)) (floorsRange metadata)
        then S count else count in
      count
  end.

(** Getter [validationRules]. *)
Definition validationRules (s : FilterState) : option FilterValidationRules :=
  match metadata s with
  | None => None
  | Some metadata =>
      Some {| rules_priceRange :=
                {| rule_min := fst (meta_priceRange metadata);
                   rule_max := snd (meta_priceRange metadata) |};
              rules_areaRange :=
                {| rule_min := fst (meta_areaRange metadata);
                   rule_max := snd (meta_areaRange metadata) |};
              rules_rooms_available := roomsAvailable metadata;
              rules_floors :=
                {| rule_min := fst (floorsRange metadata);
                   rule_max := snd (floorsRange metadata) |} |}
  end.

(** [useFilterPersistence().clearFilters()] *)
Definition clearFilters (w : World) : World :=
  if negb (client w) then w
  else {| state := state w; client := client w;
          storageFull := storageFull w; saved := None |}.

(** [resetFilters()] *)
Definition resetFilters (w : World) : World :=
  match metadata (state w) with
  | None => w
  | Some metadata =>
      let s := set_filters (state w) (defaults_of metadata) in
      let s := set_isActive s false in
      let s := set_error s None in
      clearFilters (set_state w s)
  end.

(** [String(v)], as used when a value is converted to a number. *)
Fixpoint js_String (v : json) : string :=
  match v with
  | JNull => "null"
  | JBool true => "true"
  | JBool false => "false"
  | JNum n => toString n
  | JStr s => s
  | JArr items =>
      String.concat ","
        (map (fun x => match x with JNull => "" | _ => js_String x end) items)
  | JObj _ => "[object Object]"
  end.

(** The number that a value stands for in [Date.now() - v]; [None] is
    [NaN]. *)
Definition toNumber (v : json) : option Z :=
  match v with
  | JNull => Some 0
  | JBool b => Some (if b then 1 else 0)
  | JNum n => Some n
  | JStr s => Number s
  | JArr _ => Number (js_String v)
  | JObj _ => None
  end.

(** [parsed.key] on a value that is not [null]: the property of an object,
    [undefined] on anything else. *)
Fixpoint lookup_prop (props : list (string * json)) (key : string)
    : option json :=
  match props with
  | [] => None
  | (k, v) :: rest => if String.eqb k key then Some v else lookup_prop rest key
  end.

Definition get_prop (parsed : json) (key : string) : option json :=
  match parsed with
  | JObj props => lookup_prop props key
  | _ => None
  end.

(** [x || fallback] on a property that may be [undefined]. *)
Definition prop_or (x : option json) (fallback : json) : json :=
  match x with
  | Some v => if truthy v then v else fallback
  | None => fallback
  end.

(** The literals that [loadFilters] substitutes for a missing field. In the
    source they are [3200000, 25000000], [25.5, 150.0], [] and [1, 20];
    they are an argument here because 25.5 is not an integer. *)
Record Fallbacks : Type := {
  fallback_priceRange : json;
  fallback_areaRange : json;
  fallback_rooms : json;
  fallback_floors : json
}.

(** Seven days in milliseconds. *)
Definition maxAge : Z := 7 * 24 * 60 * 60 * 1000.

(** [parsed.timestamp && Date.now() - parsed.timestamp > maxAge] *)
Definition tooOld (parsed : json) (now : Z) : bool :=
  match get_prop parsed "timestamp" with
  | Some t =>
      truthy t &&
      match toNumber t with
      | Some n => now - n >? maxAge
      | None => false
      end
  | None => false
  end.

(** [useFilterPersistence().loadFilters()]: the saved filters or [null],
    and the browser, from which an item that is too old is removed. *)
Definition loadFilters (fallbacks : Fallbacks) (w : World) (now : Z)
    : option PartialFilters * World :=
  if negb (client w) then (None, w)
  else
    match saved w with
    | None => (None, w)
    | Some JNull => (None, w)   (* reading a property throws; caught *)
    | Some parsed =>
        if tooOld parsed now then
          (None,
           {| state := state w; client := client w;
              storageFull := storageFull w; saved := None |})
        else
          (Some
             {| saved_priceRange :=
                  Some (prop_or (get_prop parsed "priceRange")
                          (fallback_priceRange fallbacks));
                saved_areaRange :=
                  Some (prop_or (get_prop parsed "areaRange")
                          (fallback_areaRange fallbacks));
                saved_rooms :=
                  Some (prop_or (get_prop parsed "rooms")
                          (fallback_rooms fallbacks));
                saved_floors :=
                  Some (prop_or (get_prop parsed "floors")
                          (fallback_floors fallbacks)) |},
           w)
    end.

Definition set_metadata (s : FilterState) (m : option FilterMetadata)
    : FilterState :=
  {| filters := filters s; metadata := m; loading := loading s;
     error := error s; isActive := isActive s |}.

(** [initializeFilters(metadata)] *)
Definition initializeFilters (fallbacks : Fallbacks) (w : World) (now : Z)
    (metadata : FilterMetadata) : World :=
  let s := set_metadata (state w) (Some metadata) in
  let '(savedFilters, w1) := loadFilters fallbacks (set_state w s) now in
  let s := state w1 in
  let s :=
    match savedFilters with
    | Some savedFilters =>
        set_filters s (validateSavedFilters savedFilters metadata)
    | None => set_filters s (defaults_of metadata)
    end in
  let s := set_isActive s (hasActiveFilters s) in
  let s := set_error s None in
  set_state w1 s.

(** *** Specification vocabulary *)

(** The filters of a store are acceptable to its metadata. *)
Definition acceptable (f : FilterParams) (m : FilterMetadata) : Prop :=
  within (priceRange f) (meta_priceRange m)
  /\ within (areaRange f) (meta_areaRange m)
  /\ within (floors f) (floorsRange m)
  /\ Constants.rooms_allowed (rooms f) (roomsAvailable m).

(** A store that has its metadata, acceptable filters, and an [isActive]
    flag that agrees with the getter. *)
Definition coherent (s : FilterState) : Prop :=
  exists m : FilterMetadata,
    metadata s = Some m
    /\ acceptable (filters s) m
    /\ isActive s = hasActiveFilters s.

(** Metadata whose three ranges are in order. *)
Definition well_formed (m : FilterMetadata) : Prop :=
  fst (meta_priceRange m) <= snd (meta_priceRange m)
  /\ fst (meta_areaRange m) <= snd (meta_areaRange m)
  /\ fst (floorsRange m) <= snd (floorsRange m).

(** Each validator either accepts, leaving the store as it is, or refuses
    and leaves a message in [error]. *)
Definition verdict (result : bool * FilterState) (s : FilterState)
    (ok : Prop) : Prop :=
  (result = (true, s) /\ ok)
  \/ (exists e : string, result = (false, set_error s (Some e)) /\ ~ ok).

(** For the examples: a store whose price range has been narrowed, and a
    later session that finds what it saved. *)
Definition narrowed_store : World :=
  updatePriceRange initialised 1000 (5000000, 10000000).

Definition next_session : World :=
  {| state := state uninitialised; client := true; storageFull := false;
     saved := saved (saveFiltersToStorage narrowed_store 2000) |}.


(** Fallbacks for the examples. *)
Definition example_fallbacks : Fallbacks :=
  {| fallback_priceRange := JArr [JNum 3200000; JNum 25000000];
     fallback_areaRange := JArr [JNum 25; JNum 150];
     fallback_rooms := JArr [];
     fallback_floors := JArr [JNum 1; JNum 20] |}.

End FilterStore.

(** ** The setters on every number, [NaN] included ([filterStore.ts])

    The setters take [number]s, and [NaN] is one: every comparison with it
    is false and [!==] is true; the infinities are two more. Here the
    filters of the store hold such numbers; the metadata, which arrives as
    JSON, holds integers. On integers the setters run as in
    [FilterStore]. *)

Module NumberStore.

(** A JavaScript number: [NaN], one of the two infinities, or an integer. *)
Inductive number : Type :=
| NaN
| Infinity (negative : bool)
| Finite (z : Z).


(** [a < b] *)
Definition lt (a b : number) : bool :=
  match a, b with
  | NaN, _ => false
  | _, NaN => false
  | Infinity na, Infinity nb => na && negb nb
  | Infinity na, Finite _ => na
  | Finite _, Infinity nb => negb nb
  | Finite x, Finite y => x <? y
  end.

(** [a > b] *)
Definition gt (a b : number) : bool :=
  match a, b with
  | NaN, _ => false
  | _, NaN => false
  | Infinity na, Infinity nb => negb na && nb
  | Infinity na, Finite _ => negb na
  | Finite _, Infinity nb => nb
  | Finite x, Finite y => x >? y
  end.

(** [a !== b] *)
Definition differs (a b : number) : bool :=
  match a, b with
  | NaN, _ => true
  | _, NaN => true
  | Infinity na, Infinity nb => negb (Bool.eqb na nb)
  | Infinity _, Finite _ => true
  | Finite _, Infinity _ => true
  | Finite x, Finite y => negb (x =? y)
  end.

(** [available.includes(room)] on an array of integers. *)
Definition includes_number (available : list Z) (room : number) : bool :=
  match room with
  | Finite r => includes available r
  | _ => false
  end.

(** A number in a template string or in [join]. *)
Definition number_toString (n : number) : string :=
  match n with
  | NaN => "NaN"
  | Infinity true => "-Infinity"
  | Infinity false => "Infinity"
  | Finite z => toString z
  end.

(** A number as [JSON.stringify] writes it: [null] unless it is finite. *)
Definition number_json (n : number) : json :=
  match n with
  | Finite z => JNum z
  | _ => JNull
  end.

Record NumberParams : Type := {
  priceRange : number * number;
  areaRange : number * number;
  rooms : list number;
  floors : number * number
}.

Record FilterState : Type := {
  filters : NumberParams;
  metadata : option FilterMetadata;
  loading : bool;
  error : option string;
  isActive : bool
}.

Record World : Type := {
  state : FilterState;
  client : bool;          (* import.meta.client *)
  storageFull : bool;     (* localStorage.setItem throws *)
  saved : option json
}.

Definition set_state (w : World) (s : FilterState) : World :=
  {| state := s; client := client w; storageFull := storageFull w;
     saved := saved w |}.

Definition set_filters (s : FilterState) (f : NumberParams) : FilterState :=
  {| filters := f; metadata := metadata s; loading := loading s;
     error := error s; isActive := isActive s |}.

Definition set_error (s : FilterState) (e : option string) : FilterState :=
  {| filters := filters s; metadata := metadata s; loading := loading s;
     error := e; isActive := isActive s |}.

Definition set_isActive (s : FilterState) (b : bool) : FilterState :=
  {| filters := filters s; metadata := metadata s; loading := loading s;
     error := error s; isActive := b |}.

Definition set_priceRange (f : NumberParams) (r : number * number)
    : NumberParams :=
  {| priceRange := r; areaRange := areaRange f; rooms := rooms f;
     floors := floors f |}.

Definition set_areaRange (f : NumberParams) (r : number * number)
    : NumberParams :=
  {| priceRange := priceRange f; areaRange := r; rooms := rooms f;
     floors := floors f |}.

Definition set_rooms (f : NumberParams) (r : list number) : NumberParams :=
  {| priceRange := priceRange f; areaRange := areaRange f; rooms := r;
     floors := floors f |}.

Definition set_floors (f : NumberParams) (r : number * number)
    : NumberParams :=
  {| priceRange := priceRange f; areaRange := areaRange f; rooms := rooms f;
     floors := r |}.

(** [a !== b] on the two ends of a range and of the metadata range. *)
Definition range_differs (a : number * number) (b : Z * Z) : bool :=
  differs (fst a) (Finite (fst b)) || differs (snd a) (Finite (snd b)).

(** Getter [hasActiveFilters]. *)
Definition hasActiveFilters (s : FilterState) : bool :=
  match metadata s with
  | None => false
  | Some metadata =>
      let priceChanged :=
        range_differs (priceRange (filters s)) (meta_priceRange metadata) in
      let areaChanged :=
        range_differs (areaRange (filters s)) (meta_areaRange metadata) in
      let roomsSelected := (0 <? length (rooms (filters s)))%nat in
      let floorsChanged :=
        range_differs (floors (filters s)) (floorsRange metadata) in
      priceChanged || areaChanged || roomsSelected || floorsChanged
  end.

(** [saveFiltersToStorage()], i.e. [useFilterPersistence().saveFilters]. *)
Definition saveFiltersToStorage (w : World) (now : Z) : World :=
  if negb (client w) then w
  else if storageFull w then w   (* caught, warned *)
  else
    let f := filters (state w) in
    let pair r := JArr [number_json (fst r); number_json (snd r)] in
    let filtersToSave :=
      JObj [("priceRange", pair (priceRange f));
            ("areaRange", pair (areaRange f));
            ("rooms", JArr (map number_json (rooms f)));
            ("floors", pair (floors f));
            ("timestamp", JNum now)] in
    {| state := state w; client := client w; storageFull := storageFull w;
       saved := Some filtersToSave |}.

(** [min < metaMin || max > metaMax || min > max] *)
Definition out_of_range (range : number * number) (meta : Z * Z) : bool :=
  lt (fst range) (Finite (fst meta)) || gt (snd range) (Finite (snd meta))
  || gt (fst range) (snd range).

Definition validatePriceRange (s : FilterState) (range : number * number)
    : bool * FilterState :=
  match metadata s with
  | None => (false, s)
  | Some metadata =>
      let '(metaMin, metaMax) := meta_priceRange metadata in
      if out_of_range range (metaMin, metaMax) then
        (false,
         set_error s
           (Some ("Цена должна быть от " +:+ FilterStore.toLocaleString metaMin
                  +:+ " до " +:+ FilterStore.toLocaleString metaMax
                  +:+ " руб.")))
      else (true, s)
  end.

Definition validateAreaRange (s : FilterState) (range : number * number)
    : bool * FilterState :=
  match metadata s with
  | None => (false, s)
  | Some metadata =>
      let '(metaMin, metaMax) := meta_areaRange metadata in
      if out_of_range range (metaMin, metaMax) then
        (false,
         set_error s
           (Some ("Площадь должна быть от " +:+ toString metaMin
                  +:+ " до " +:+ toString metaMax +:+ " м²")))
      else (true, s)
  end.

Definition validateRooms (s : FilterState) (rooms : list number)
    : bool * FilterState :=
  match metadata s with
  | None => (false, s)
  | Some metadata =>
      let invalidRooms :=
        List.filter
          (fun room => negb (includes_number (roomsAvailable metadata) room))
          rooms in
      if (0 <? length invalidRooms)%nat then
        (false,
         set_error s
           (Some ("Недоступные варианты комнат: "
                  +:+ String.concat ", " (map number_toString invalidRooms))))
      else (true, s)
  end.

Definition validateFloorsRange (s : FilterState) (range : number * number)
    : bool * FilterState :=
  match metadata s with
  | None => (false, s)
  | Some metadata =>
      let '(metaMin, metaMax) := floorsRange metadata in
      if out_of_range range (metaMin, metaMax) then
        (false,
         set_error s
           (Some ("Этаж должен быть от " +:+ toString metaMin
                  +:+ " до " +:+ toString metaMax)))
      else (true, s)
  end.

(** The common tail of the four setters, after the field is replaced:
    [isActive = hasActiveFilters; error = null; saveFiltersToStorage()]. *)
Definition commit (w : World) (s : FilterState) (now : Z) : World :=
  let s := set_isActive s (hasActiveFilters s) in
  let s := set_error s None in
  saveFiltersToStorage (set_state w s) now.

Definition updatePriceRange (w : World) (now : Z) (range : number * number)
    : World :=
  let '(ok, s) := validatePriceRange (state w) range in
  if ok then commit w (set_filters s (set_priceRange (filters s) range)) now
  else set_state w s.

Definition updateAreaRange (w : World) (now : Z) (range : number * number)
    : World :=
  let '(ok, s) := validateAreaRange (state w) range in
  if ok then commit w (set_filters s (set_areaRange (filters s) range)) now
  else set_state w s.

Definition updateRooms (w : World) (now : Z) (rooms : list number) : World :=
  let '(ok, s) := validateRooms (state w) rooms in
  if ok then commit w (set_filters s (set_rooms (filters s) rooms)) now
  else set_state w s.

Definition updateFloorsRange (w : World) (now : Z) (range : number * number)
    : World :=
  let '(ok, s) := validateFloorsRange (state w) range in
  if ok then commit w (set_filters s (set_floors (filters s) range)) now
  else set_state w s.

(** Filters of integers. *)
Definition numbers (f : FilterParams) : NumberParams :=
  match f with
  | Build_FilterParams price area selected floor =>
      {| priceRange := (Finite (fst price), Finite (snd price));
         areaRange := (Finite (fst area), Finite (snd area));
         rooms := map Finite selected;
         floors := (Finite (fst floor), Finite (snd floor)) |}
  end.

(** [useFilterPersistence().clearFilters()] *)
Definition clearFilters (w : World) : World :=
  if negb (client w) then w
  else {| state := state w; client := client w;
          storageFull := storageFull w; saved := None |}.

(** [resetFilters()] *)
Definition resetFilters (w : World) : World :=
  match metadata (state w) with
  | None => w
  | Some metadata =>
      let s := set_filters (state w)
                 (numbers (FilterStore.defaults_of metadata)) in
      let s := set_isActive s false in
      let s := set_error s None in
      clearFilters (set_state w s)
  end.

(** *** Specification vocabulary *)

(** A store of [FilterStore] as a store over every number. *)
Definition of_state (s : FilterStore.FilterState) : FilterState :=
  {| filters := numbers (FilterStore.filters s);
     metadata := FilterStore.metadata s;
     loading := FilterStore.loading s;
     error := FilterStore.error s;
     isActive := FilterStore.isActive s |}.

Definition of_world (w : FilterStore.World) : World :=
  {| state := of_state (FilterStore.state w);
     client := FilterStore.client w;
     storageFull := FilterStore.storageFull w;
     saved := FilterStore.saved w |}.

(** A store that has its metadata, filters of integers that the metadata
    accepts, and an [isActive] flag that agrees with the getter. *)
Definition coherent (s : FilterState) : Prop :=
  exists (m : FilterMetadata) (f : FilterParams),
    metadata s = Some m
    /\ filters s = numbers f
    /\ FilterStore.acceptable f m
    /\ isActive s = hasActiveFilters s.

(** The initialised store of [FilterStore]. *)
Definition initialised : World := of_world FilterStore.initialised.

End NumberStore.

(** ** URL synchronisation ([useUrlFilters]) *)

Module UrlFilters.

(** A value of [route.query]: a string, [null], or an array of those. *)
Inductive qvalue : Type :=
| QString (s : string)
| QNull
| QArray (items : list (option string)).

(** [if (v)] on a query value that is present. *)
Definition q_truthy (v : qvalue) : bool :=
  match v with
  | QString s => negb (String.eqb s "")
  | QNull => false
  | QArray _ => true
  end.

(** [Number(x)] on an element of a query array ([null] converts to 0). *)
Definition Number_item (x : option string) : option Z :=
  match x with
  | Some s => Number s
  | None => Some 0
  end.

(** [Number(v)] on a query value; an array is first joined with commas. *)
Definition Number_q (v : qvalue) : option Z :=
  match v with
  | QString s => Number s
  | QNull => Some 0
  | QArray items => Number (String.concat "," (map (default "") items))
  end.

(** What [parseFiltersFromUrl] returns when it is not [null]. *)
Record UrlFilterParams : Type := {
  url_priceRange : option (Z * Z);
  url_areaRange : option (Z * Z);
  url_rooms : option (list Z);
  url_floors : option (Z * Z)
}.

(** One pair of bounds: both keys present and truthy, both numbers, in
    order. *)
Definition parseRange (query : gmap string qvalue) (kmin kmax : string)
    : option (Z * Z) :=
  match query !! kmin, query !! kmax with
  | Some vmin, Some vmax =>
      if q_truthy vmin && q_truthy vmax then
        match Number_q vmin, Number_q vmax with
        | Some min, Some max => if min <=? max then Some (min, max) else None
        | _, _ => None
        end
      else None
  | _, _ => None
  end.

(** [.map(r => Number(r)).filter(r => !isNaN(r) && r > 0)] *)
Fixpoint positiveNumbers (items : list (option string)) : list Z :=
  match items with
  | [] => []
  | x :: rest =>
      match Number_item x with
      | Some r => if r >? 0 then r :: positiveNumbers rest
                  else positiveNumbers rest
      | None => positiveNumbers rest
      end
  end.

Definition parseRooms (query : gmap string qvalue) : option (list Z) :=
  match query !! "rooms" with
  | Some v =>
      if q_truthy v then
        let roomsParam :=
          match v with
          | QArray items => items
          | QString s => [Some s]
          | QNull => [None]
          end in
        let rooms := sort_ascending (positiveNumbers roomsParam) in
        if (0 <? length rooms)%nat then Some rooms else None
      else None
  | None => None
  end.

(** [parseFiltersFromUrl()] on the current [route.query]. *)
Definition parseFiltersFromUrl (query : gmap string qvalue)
    : option UrlFilterParams :=
  if bool_decide (query = ∅) then None
  else
    let filters :=
      {| url_priceRange := parseRange query "priceMin" "priceMax";
         url_areaRange := parseRange query "areaMin" "areaMax";
         url_rooms := parseRooms query;
         url_floors := parseRange query "floorMin" "floorMax" |} in
    match filters with
    | {| url_priceRange := None; url_areaRange := None;
         url_rooms := None; url_floors := None |} => None
    | _ => Some filters
    end.

(** The query object that [updateUrlWithFilters(filters, defaultFilters)]
    hands to [router.replace] in place of the whole current query; the
    empty map stands for [undefined]. *)
Definition updateUrlWithFilters (filters defaultFilters : FilterParams)
    : gmap string qvalue :=
  let query : gmap string qvalue := ∅ in
  let query :=
    if FilterStore.range_differs (priceRange filters) (priceRange defaultFilters)
    then <["priceMax" := QString (toString (snd (priceRange filters)))]>
           (<["priceMin" := QString (toString (fst (priceRange filters)))]> query)
    else query in
  let query :=
    if FilterStore.range_differs (areaRange filters) (areaRange defaultFilters)
    then <["areaMax" := QString (toString (snd (areaRange filters)))]>
           (<["areaMin" := QString (toString (fst (areaRange filters)))]> query)
    else query in
  let query :=
    if (0 <? length (rooms filters))%nat
    then <["rooms" := QArray (map (fun r => Some (toString r)) (rooms filters))]> query
    else query in
  let query :=
    if FilterStore.range_differs (floors filters) (floors defaultFilters)
    then <["floorMax" := QString (toString (snd (floors filters)))]>
           (<["floorMin" := QString (toString (fst (floors filters)))]> query)
    else query in
  query.

(** *** Specification vocabulary *)

(** A range is written to the URL, and read back, when it differs from
    the default. *)
Definition changed (range default : Z * Z) : option (Z * Z) :=
  if FilterStore.range_differs range default then Some range else None.

(** The rooms that come back from the URL: the positive ones, ascending. *)
Definition positive_ascending (rooms : list Z) : option (list Z) :=
  let kept := sort_ascending (List.filter (fun r => r >? 0) rooms) in
  if (0 <? length kept)%nat then Some kept else None.

Definition recovered (filters defaultFilters : FilterParams) : UrlFilterParams :=
  {| url_priceRange := changed (priceRange filters) (priceRange defaultFilters);
     url_areaRange := changed (areaRange filters) (areaRange defaultFilters);
     url_rooms := positive_ascending (rooms filters);
     url_floors := changed (floors filters) (floors defaultFilters) |}.

Definition nothing (p : UrlFilterParams) : bool :=
  match p with
  | {| url_priceRange := None; url_areaRange := None;
       url_rooms := None; url_floors := None |} => true
  | _ => false
  end.

Definition ordered (range : Z * Z) : Prop := fst range <= snd range.

(** Filters with the rooms selected in the order 3, 1, and the defaults
    they are compared with. *)
Definition catalogue_defaults : FilterParams :=
  {| priceRange := (0, 100000000); areaRange := (1, 1000);
     rooms := []; floors := (1, 50) |}.

Definition rooms_3_1 : FilterParams :=
  {| priceRange := (0, 100000000); areaRange := (1, 1000);
     rooms := [3; 1]; floors := (1, 50) |}.

Definition narrowed : FilterParams :=
  {| priceRange := (5000000, 10000000); areaRange := (1, 1000);
     rooms := [2; 3]; floors := (2, 9) |}.

(** *** The other operations on the URL *)

Definition filterParams : list string :=
  ["priceMin"; "priceMax"; "areaMin"; "areaMax"; "rooms"; "floorMin";
   "floorMax"].

(** [hasUrlFilters()]: some known parameter is present in the query. *)
Definition hasUrlFilters (query : gmap string qvalue) : bool :=
  existsb (fun param => bool_decide (is_Some (query !! param))) filterParams.

(** The query that [clearUrlFilters()] hands to [router.replace]. *)
Definition clearUrlFilters : gmap string qvalue := ∅.

(** What [parseFiltersFromUrl] returns, as the run-time value that the page
    passes on to [applyUrlFilters]. *)
Definition as_saved (p : UrlFilterParams) : FilterStore.PartialFilters :=
  let pair (r : Z * Z) := JArr [JNum (fst r); JNum (snd r)] in
  {| FilterStore.saved_priceRange := pair <$> url_priceRange p;
     FilterStore.saved_areaRange := pair <$> url_areaRange p;
     FilterStore.saved_rooms := (fun rs => JArr (map JNum rs)) <$> url_rooms p;
     FilterStore.saved_floors := pair <$> url_floors p |}.

End UrlFilters.

(** ** Reading the query over every number ([useUrlFilters])

    [parseFiltersFromUrl] with nothing fixed about the numbers: [Number]
    stands for the conversion of the engine on any string (exponents,
    fractions, hexadecimal digits, blanks, [Infinity]), [num] for the
    numbers it produces other than [NaN], [None] for [NaN]. Taken at the
    integers, with the [Number] of the header, these are the definitions
    of [UrlFilters]. *)

Module UrlNumbers.

Import UrlFilters.

Section Numbers.

Variable num : Type.
Variable Number : string -> option num.
Variable zero : num.                 (* what [null] converts to *)
Variable leb : num -> num -> bool.   (* [a <= b] *)
Variable ltb : num -> num -> bool.   (* [a < b] *)

(** [Number(x)] on an element of a query array. *)
Definition Number_item (x : option string) : option num :=
  match x with
  | Some s => Number s
  | None => Some zero
  end.

(** [Number(v)] on a query value; an array is first joined with commas. *)
Definition Number_q (v : qvalue) : option num :=
  match v with
  | QString s => Number s
  | QNull => Some zero
  | QArray items => Number (String.concat "," (map (default "") items))
  end.

(** What [parseFiltersFromUrl] returns when it is not [null]. *)
Record UrlFilterParams : Type := {
  url_priceRange : option (num * num);
  url_areaRange : option (num * num);
  url_rooms : option (list num);
  url_floors : option (num * num)
}.

(** One pair of bounds: both keys present and truthy, both numbers, in
    order. *)
Definition parseRange (query : gmap string qvalue) (kmin kmax : string)
    : option (num * num) :=
  match query !! kmin, query !! kmax with
  | Some vmin, Some vmax =>
      if q_truthy vmin && q_truthy vmax then
        match Number_q vmin, Number_q vmax with
        | Some min, Some max => if leb min max then Some (min, max) else None
        | _, _ => None
        end
      else None
  | _, _ => None
  end.

(** [.map(r => Number(r)).filter(r => !isNaN(r) && r > 0)] *)
Fixpoint positiveNumbers (items : list (option string)) : list num :=
  match items with
  | [] => []
  | x :: rest =>
      match Number_item x with
      | Some r => if ltb zero r then r :: positiveNumbers rest
                  else positiveNumbers rest
      | None => positiveNumbers rest
      end
  end.

(** [.sort((a, b) => a - b)]: ascending by [<=]. *)
Definition sort_ascending (l : list num) : list num :=
  @merge_sort num (fun a b => leb a b = true)
    (fun a b => decide (leb a b = true)) l.

Definition parseRooms (query : gmap string qvalue) : option (list num) :=
  match query !! "rooms" with
  | Some v =>
      if q_truthy v then
        let roomsParam :=
          match v with
          | QArray items => items
          | QString s => [Some s]
          | QNull => [None]
          end in
        let rooms := sort_ascending (positiveNumbers roomsParam) in
        if (0 <? length rooms)%nat then Some rooms else None
      else None
  | None => None
  end.

(** [parseFiltersFromUrl()] on the current [route.query]. *)
Definition parseFiltersFromUrl (query : gmap string qvalue)
    : option UrlFilterParams :=
  if bool_decide (query = ∅) then None
  else
    let filters :=
      {| url_priceRange := parseRange query "priceMin" "priceMax";
         url_areaRange := parseRange query "areaMin" "areaMax";
         url_rooms := parseRooms query;
         url_floors := parseRange query "floorMin" "floorMax" |} in
    match filters with
    | {| url_priceRange := None; url_areaRange := None;
         url_rooms := None; url_floors := None |} => None
    | _ => Some filters
    end.

(** [Object.keys(filters).length === 0] *)
Definition nothing (p : UrlFilterParams) : bool :=
  match p with
  | {| url_priceRange := None; url_areaRange := None;
       url_rooms := None; url_floors := None |} => true
  | _ => false
  end.

End Numbers.

Arguments url_priceRange {num} _.
Arguments url_areaRange {num} _.
Arguments url_rooms {num} _.
Arguments url_floors {num} _.
Arguments nothing {num} _.

(** The integers of [UrlFilters] as an instance. *)
Definition integers (p : UrlFilters.UrlFilterParams) : UrlFilterParams Z :=
  {| url_priceRange := UrlFilters.url_priceRange p;
     url_areaRange := UrlFilters.url_areaRange p;
     url_rooms := UrlFilters.url_rooms p;
     url_floors := UrlFilters.url_floors p |}.

(** A reading of numbers that knows exponents where the header's [Number]
    does not: the query [priceMin=1e3&priceMax=2000]. *)
Definition with_exponent (s : string) : option Z :=
  if String.eqb s "1e3" then Some 1000 else Number s.

Definition exponent_query : gmap string qvalue :=
  <["priceMax" := QString "2000"]> (<["priceMin" := QString "1e3"]> ∅).

End UrlNumbers.

(** ** The apartment list store ([apartmentStore]) *)

Module ApartmentStore.

Record ApartmentState : Type := {
  apartments : list Apartment;
  loading : bool;
  error : option string;
  pagination : PaginationParams;
  hasMore : bool;
  metadata : option FilterMetadata
}.

Definition set_page (p : PaginationParams) (n : Z) : PaginationParams :=
  {| page := n; limit := limit p; total := total p |}.

Definition set_total (p : PaginationParams) (n : Z) : PaginationParams :=
  {| page := page p; limit := limit p; total := n |}.

(** Getter [canLoadMore]. *)
Definition canLoadMore (s : ApartmentState) : bool :=
  hasMore s && negb (loading s).

(** The [URLSearchParams] built by [loadApartments], as its list of pairs. *)
Definition buildParams (p : PaginationParams) (filters : option FilterParams)
    : list (string * string) :=
  let params := [("page", toString (page p)); ("limit", toString (limit p))] in
  match filters with
  | None => params
  | Some filters =>
      let params :=
        (params ++ [("priceMin", toString (fst (priceRange filters)));
                    ("priceMax", toString (snd (priceRange filters)))])%list in
      let params :=
        (params ++ [("areaMin", toString (fst (areaRange filters)));
                    ("areaMax", toString (snd (areaRange filters)))])%list in
      let params :=
        if (0 <? length (rooms filters))%nat
        then (params ++ [("rooms", join "," (rooms filters))])%list
        else params in
      (params ++ [("floorMin", toString (fst (floors filters)));
                  ("floorMax", toString (snd (floors filters)))])%list
  end.

(** The network as seen by the store: how the awaited
    [measureApiCall(() => cachedFetch(...))] settles for a request.
    [measureApiCall] passes the result through and rethrows the error. *)
Definition Network : Type :=
  list (string * string) -> settled thrown ApartmentListResponse.

(** [error instanceof Error ? error.message : 'Failed to load apartments'] *)
Definition error_text (e : thrown) : string :=
  match e with
  | ErrorObject message => message
  | OtherValue _ => "Failed to load apartments"
  end.

(** [loadApartments(filters, reset)]. Its [try] has a [catch] that does not
    rethrow, so the returned promise always resolves; the settlement is
    returned with the new state so that callers can be written as in the
    source. *)
Definition loadApartments (net : Network) (s : ApartmentState)
    (filters : option FilterParams) (reset : bool)
    : ApartmentState * settled thrown unit :=
  (* this.loading = true; this.error = null *)
  let pagination0 :=
    if reset then set_page (pagination s) 1 else pagination s in
  let params := buildParams pagination0 filters in
  match net params with
  | Resolved response =>
      let apartments1 :=
        if reset then response_apartments response
        else (apartments s ++ response_apartments response)%list in
      ({| apartments := apartments1;
          loading := false;   (* finally *)
          error := None;
          pagination := set_total pagination0 (meta_total response);
          hasMore := Z.of_nat (length apartments1) <? meta_total response;
          metadata :=
            match meta_filters response with
            | Some f => Some f
            | None => metadata s
            end |},
       Resolved tt)
  | Rejected e =>
      ({| apartments := if reset then [] else apartments s;
          loading := false;   (* finally *)
          error := Some (error_text e);
          pagination := pagination0;
          hasMore := hasMore s;
          metadata := metadata s |},
       Resolved tt)
  end.

(** The request that [loadApartments] sends. *)
Definition request_of (s : ApartmentState) (filters : option FilterParams)
    (reset : bool) : list (string * string) :=
  buildParams (if reset then set_page (pagination s) 1 else pagination s)
    filters.

(** [loadMore()] *)
Definition loadMore (net : Network) (s : ApartmentState)
    : ApartmentState * settled thrown unit :=
  if negb (canLoadMore s) then (s, Resolved tt)
  else
    (* this.pagination.page += 1 *)
    let s1 :=
      {| apartments := apartments s; loading := loading s; error := error s;
         pagination := set_page (pagination s) (page (pagination s) + 1);
         hasMore := hasMore s; metadata := metadata s |} in
    match loadApartments net s1 None false with
    | (s2, Resolved _) => (s2, Resolved tt)
    | (s2, Rejected e) =>
        (* revert page increment on error *)
        ({| apartments := apartments s2; loading := loading s2;
            error := error s2;
            pagination := set_page (pagination s2) (page (pagination s2) - 1);
            hasMore := hasMore s2; metadata := metadata s2 |},
         Rejected e)
    end.

(** [filterApartments(filters)] *)
Definition filterApartments (net : Network) (s : ApartmentState)
    (filters : option FilterParams) : ApartmentState * settled thrown unit :=
  loadApartments net s filters true.

(** For the examples: a network that fails every request, and a store on
    page 1 that may load more. *)
Definition offline : Network :=
  fun _ => Rejected (ErrorObject "Network Error").

Definition can_load_more : ApartmentState :=
  {| apartments := [];
     loading := false;
     error := None;
     pagination := {| page := 1; limit := 20; total := 25 |};
     hasMore := true;
     metadata := None |}.

(** A store that holds a first page of one apartment. *)
Definition one_loaded : ApartmentState :=
  {| apartments :=
       [{| id := "apt_7"; title := "Studio"; price := 4200000; area := 28;
           apartment_rooms := 1; floor := 4; totalFloors := 12;
           address := "Lesnaya 5"; images := []; description := None;
           features := [] |}];
     loading := false;
     error := None;
     pagination := {| page := 1; limit := 20; total := 25 |};
     hasMore := true;
     metadata := None |}.

(** A network whose rejection is not an [Error] object. *)
Definition refusing : Network :=
  fun _ => Rejected (OtherValue (JStr "timeout")).

(** *** The other actions of the store *)

(** [resetApartments()] *)
Definition resetApartments (s : ApartmentState) : ApartmentState :=
  {| apartments := [];
     loading := loading s;
     error := None;
     pagination := set_total (set_page (pagination s) 1) 0;
     hasMore := true;
     metadata := metadata s |}.

(** [clearError()] *)
Definition clearError (s : ApartmentState) : ApartmentState :=
  {| apartments := apartments s; loading := loading s; error := None;
     pagination := pagination s; hasMore := hasMore s;
     metadata := metadata s |}.

(** [updatePaginationLimit(limit)] *)
Definition updatePaginationLimit (s : ApartmentState) (limit : Z)
    : ApartmentState :=
  resetApartments
    {| apartments := apartments s; loading := loading s; error := error s;
       pagination := {| page := page (pagination s); limit := limit;
                        total := total (pagination s) |};
       hasMore := hasMore s; metadata := metadata s |}.

(** The spec's scenario: a server with 25 apartments, asked for pages of
    20. *)
Definition sample_apartment : Apartment :=
  {| id := "apt_1"; title := "Flat"; price := 5000000; area := 40;
     apartment_rooms := 2; floor := 3; totalFloors := 9; address := "";
     images := []; description := None; features := [] |}.

Definition server_25 : Network :=
  fun params =>
    if bool_decide (params = [("page", "1"); ("limit", "20")])
    then Resolved {| response_apartments := replicate 20 sample_apartment;
                     meta_total := 25; meta_filters := None |}
    else Resolved {| response_apartments := replicate 5 sample_apartment;
                     meta_total := 25; meta_filters := None |}.

(** The request for one page without filters. *)
Definition page_request (p limit : Z) : list (string * string) :=
  [("page", toString p); ("limit", toString limit)].

End ApartmentStore.

(** ** Applying the filters ([applyFilters] of the filter store) *)

Module FilterActions.

Import FilterStore.

Definition finish (s : FilterState) (e : option string) : FilterState :=
  {| filters := filters s; metadata := metadata s; loading := false;
     error := e; isActive := isActive s |}.

(** [error instanceof Error ? error.message : "Failed to apply filters"] *)
Definition error_text (e : thrown) : string :=
  match e with
  | ErrorObject message => message
  | OtherValue _ => "Failed to apply filters"
  end.

(** [applyFilters()]: the filter store and the apartment store after the
    promise has settled. *)
Definition applyFilters (net : ApartmentStore.Network) (s : FilterState)
    (a : ApartmentStore.ApartmentState)
    : FilterState * ApartmentStore.ApartmentState :=
  (* this.loading = true; this.error = null *)
  let s :=
    {| filters := filters s; metadata := metadata s; loading := true;
       error := None; isActive := isActive s |} in
  let '(validation, s) := validateAllFilters s in
  if negb (isValid validation) then
    (finish s (Some (String.concat ", " (map message (errors validation)))), a)
  else
    let filtersToApply :=
      if hasActiveFilters s then Some (filters s) else None in
    match ApartmentStore.filterApartments net a filtersToApply with
    | (a', Resolved _) => (finish s (error s), a')
    | (a', Rejected e) => (finish s (Some (error_text e)), a')
    end.

End FilterActions.

(** ** The page ([ApartmentsList.vue]) *)

Module Page.

Import FilterStore.


(** [handleRetry()] *)
Definition handleRetry (net : ApartmentStore.Network)
    (a : ApartmentStore.ApartmentState) (s : FilterState)
    : ApartmentStore.ApartmentState :=
  let a := ApartmentStore.clearError a in
  fst (ApartmentStore.loadApartments net a
         (if hasActiveFilters s then Some (filters s) else None) true).

End Page.

(** ** The filter summary ([useFilters]) *)

Module Filters.

Import FilterStore.

(** [getFilterSummary()]: the value of the computed; [None] is [null]. *)
Definition getFilterSummary (s : FilterState) : option (list string) :=
  let filters := filters s in
  match metadata s with
  | None => None
  | Some metadata =>
      let summary : list string := [] in
      (* Price filter *)
      let summary :=
        if range_differs (priceRange filters) (meta_priceRange metadata)
        then (summary
              ++ ["Цена: " +:+ toLocaleString (fst (priceRange filters))
                  +:+ " - " +:+ toLocaleString (snd (priceRange filters))
                  +:+ " руб."])%list
        else summary in
      (* Area filter *)
      let summary :=
        if range_differs (areaRange filters) (meta_areaRange metadata)
        then (summary
              ++ ["Площадь: " +:+ toString (fst (areaRange filters))
                  +:+ " - " +:+ toString (snd (areaRange filters))
                  +:+ " м²"])%list
        else summary in
      (* Rooms filter *)
      let summary :=
        if (0 <? length (rooms filters))%nat
        then
          let roomsText :=
            match rooms filters with
            | [room] => toString room +:+ " комн."
            | _ => join ", " (rooms filters) +:+ " комн."
            end in
          (summary ++ ["Комнаты: " +:+ roomsText])%list
        else summary in
      (* Floors filter *)
      let summary :=
        if range_differs (floors filters) (floorsRange metadata)
        then (summary
              ++ ["Этаж: " +:+ toString (fst (floors filters))
                  +:+ " - " +:+ toString (snd (floors filters))])%list
        else summary in
      Some summary
  end.

End Filters.

(** ** Rooms that can be chosen ([useAvailableRooms]) *)

Module AvailableRooms.

(** [hasActiveNonRoomFilters] *)
Definition hasActiveNonRoomFilters (currentFilters : FilterParams)
    (metadata : option FilterMetadata) : bool :=
  match metadata with
  | None => false
  | Some metadata =>
      let priceFiltered :=
        FilterStore.range_differs (priceRange currentFilters)
          (meta_priceRange metadata) in
      let areaFiltered :=
        FilterStore.range_differs (areaRange currentFilters)
          (meta_areaRange metadata) in
      let floorFiltered :=
        FilterStore.range_differs (floors currentFilters)
          (floorsRange metadata) in
      priceFiltered || areaFiltered || floorFiltered
  end.

(** [metadata.value?.roomsAvailable || [1, 2, 3, 4]] *)
Definition allRooms (metadata : option FilterMetadata) : list Z :=
  match metadata with
  | Some metadata => roomsAvailable metadata
  | None => [1; 2; 3; 4]
  end.

(** [availableRooms]; [Array.from(new Set(xs))] keeps one copy of each
    element. *)
Definition availableRooms (apartments : list Apartment)
    (currentFilters : FilterParams) (metadata : option FilterMetadata)
    : list Z :=
  match apartments with
  | [] => allRooms metadata
  | _ =>
      if negb (hasActiveNonRoomFilters currentFilters metadata)
      then allRooms metadata
      else sort_ascending (remove_dups (map apartment_rooms apartments))
  end.

(** [isRoomAvailable(roomCount)] *)
Definition isRoomAvailable (apartments : list Apartment)
    (currentFilters : FilterParams) (metadata : option FilterMetadata)
    (roomCount : Z) : bool :=
  includes (availableRooms apartments currentFilters metadata) roomCount.

(** One entry of [roomCounts]:
    [apartments.filter(apt => apt.rooms === roomCount).length]. *)
Definition countOf (apartments : list Apartment) (roomCount : Z) : nat :=
  length (List.filter (fun apt => apartment_rooms apt =? roomCount) apartments).

(** [roomCounts] *)
Definition roomCounts (apartments : list Apartment)
    (currentFilters : FilterParams) (metadata : option FilterMetadata)
    : gmap Z nat :=
  foldl (fun counts roomCount => <[roomCount := countOf apartments roomCount]> counts)
    ∅ (availableRooms apartments currentFilters metadata).

End AvailableRooms.

(** ** The response cache ([useApiCache.ts]) *)

Module ApiCache.

Record CacheEntry : Type := {
  data : json;
  timestamp : Z;
  ttl : Z (* time to live in milliseconds *)
}.

Record CacheOptions : Type := {
  opt_ttl : option Z;
  opt_useLocalStorage : option bool;
  opt_key : option string
}.

(** [{}] *)
Definition no_options : CacheOptions :=
  {| opt_ttl := None; opt_useLocalStorage := None; opt_key := None |}.

(** What [localStorage.getItem] finds under a cache key: the serialisation
    of an entry (read back by [JSON.parse]) or a non-empty text on which
    [JSON.parse] throws. *)
Inductive stored : Type :=
| StoredEntry (e : CacheEntry)
| StoredGarbled.

(** The in-memory table of one [useApiCache()] instance together with the
    browser environment it runs in. [requests] records the URLs handed to
    [$fetch]. *)
Record CacheState : Type := {
  memoryCache : gmap string CacheEntry;
  localStorage : gmap string stored;
  hasWindow : bool;       (* typeof window !== 'undefined' *)
  storageFull : bool;     (* localStorage.setItem throws *)
  requests : list string
}.

Definition set_memoryCache (st : CacheState) (m : gmap string CacheEntry) :=
  {| memoryCache := m; localStorage := localStorage st;
     hasWindow := hasWindow st; storageFull := storageFull st;
     requests := requests st |}.

Definition set_localStorage (st : CacheState) (l : gmap string stored) :=
  {| memoryCache := memoryCache st; localStorage := l;
     hasWindow := hasWindow st; storageFull := storageFull st;
     requests := requests st |}.

Definition log_request (st : CacheState) (url : string) :=
  {| memoryCache := memoryCache st; localStorage := localStorage st;
     hasWindow := hasWindow st; storageFull := storageFull st;
     requests := (requests st ++ [url])%list |}.

(** [params ? JSON.stringify(params) : ''] *)
Definition paramString (params : option (list (string * json))) : string :=
  match params with
  | Some p => stringify (JObj p)
  | None => ""
  end.

(** [generateCacheKey(url, params)] *)
Definition generateCacheKey
    (url : string) (params : option (list (string * json))) : string :=
  "api_cache_" +:+ url +:+ "_" +:+ btoa (paramString params).

(** [Date.now() - entry.timestamp < entry.ttl] *)
Definition isCacheValid (now : Z) (entry : CacheEntry) : bool :=
  now - timestamp entry <? ttl entry.

(** The [localStorage] half of [getFromCache]. *)
Definition getFromStorage (st : CacheState) (now : Z) (key : string)
    (useLocalStorage : bool) : json * CacheState :=
  if useLocalStorage && hasWindow st then
    match localStorage st !! key with
    | Some (StoredEntry entry) =>
        if isCacheValid now entry then
          (* also store in memory cache for faster access *)
          (data entry, set_memoryCache st (<[key := entry]> (memoryCache st)))
        else
          (* remove expired entry *)
          (JNull, set_localStorage st (delete key (localStorage st)))
    | Some StoredGarbled => (JNull, st)   (* caught, warned *)
    | None => (JNull, st)
    end
  else (JNull, st).

(** [getFromCache(key, useLocalStorage)]: the data, or [null]. *)
Definition getFromCache (st : CacheState) (now : Z) (key : string)
    (useLocalStorage : bool) : json * CacheState :=
  match memoryCache st !! key with
  | Some memoryEntry =>
      if isCacheValid now memoryEntry then (data memoryEntry, st)
      else getFromStorage st now key useLocalStorage
  | None => getFromStorage st now key useLocalStorage
  end.

(** [setCache(key, data, options)] *)
Definition setCache (st : CacheState) (now : Z) (key : string) (d : json)
    (options : CacheOptions) : CacheState :=
  let ttl := default (5 * 60 * 1000) (opt_ttl options) in
  let useLocalStorage := default false (opt_useLocalStorage options) in
  let entry := {| data := d; timestamp := now; ttl := ttl |} in
  let st1 := set_memoryCache st (<[key := entry]> (memoryCache st)) in
  if useLocalStorage && hasWindow st1 then
    if storageFull st1 then st1   (* caught, warned *)
    else set_localStorage st1 (<[key := StoredEntry entry]> (localStorage st1))
  else st1.

(** The argument of [cachedFetch]: [{ cache, ...fetchOptions }]. *)
Record FetchOptions : Type := {
  cache : option CacheOptions;
  fetchOptions : list (string * json)
}.

(** [cachedFetch(url, options)]. [now] is the clock when the cache is
    consulted; [net] is how [$fetch(url, fetchOptions)] settles if it is
    called, and [later] the clock at that moment. *)
Definition cachedFetch (st : CacheState) (now later : Z) (url : string)
    (options : FetchOptions) (net : settled thrown json)
    : settled thrown json * CacheState :=
  let cacheOptions := default no_options (cache options) in
  let cacheKey := generateCacheKey url (Some (fetchOptions options)) in
  (* try to get from cache first *)
  let '(cached, st1) :=
    getFromCache st now cacheKey
      (default false (opt_useLocalStorage cacheOptions)) in
  if truthy cached then (Resolved cached, st1)
  else
    let st2 := log_request st1 url in
    match net with
    | Resolved response =>
        (Resolved response, setCache st2 later cacheKey response cacheOptions)
    | Rejected error =>
        (* if fetch fails, try to return stale cache data as fallback *)
        match memoryCache st2 !! cacheKey with
        | Some staleCache => (Resolved (data staleCache), st2)
        | None => (Rejected error, st2)
        end
    end.

(** A concrete session: one entry written at time 0 with a 100 ms TTL. *)
Definition empty_cache : CacheState :=
  {| memoryCache := ∅; localStorage := ∅; hasWindow := true;
     storageFull := false; requests := [] |}.

Definition plain_fetch : FetchOptions := {| cache := None; fetchOptions := [] |}.

Definition short_lived : CacheOptions :=
  {| opt_ttl := Some 100; opt_useLocalStorage := None; opt_key := None |}.

Definition session (d : json) : CacheState :=
  setCache empty_cache 0
    (generateCacheKey "/api/apartments" (Some [])) d short_lived.

(** *** The other operations of the cache *)

(** [clearCache(key, useLocalStorage)] *)
Definition clearCache (st : CacheState) (key : string)
    (useLocalStorage : bool) : CacheState :=
  let st1 := set_memoryCache st (delete key (memoryCache st)) in
  if useLocalStorage && hasWindow st1 then
    set_localStorage st1 (delete key (localStorage st1))
  else st1.

(** [key.startsWith(prefix)] *)
Definition startsWith (key prefix : string) : bool := String.prefix prefix key.

(** Removal from [localStorage] of every key for which [test] holds, as the
    [keys.forEach] loops of [clearAllCache] and [invalidateCache] do. *)
Definition removeKeys (test : string -> bool) (l : gmap string stored)
    : gmap string stored :=
  filter (fun kv => test (fst kv) = false) l.

(** [clearAllCache(useLocalStorage)] *)
Definition clearAllCache (st : CacheState) (useLocalStorage : bool)
    : CacheState :=
  let st1 := set_memoryCache st ∅ in
  if useLocalStorage && hasWindow st1 then
    set_localStorage st1
      (removeKeys (fun key => startsWith key "api_cache_") (localStorage st1))
  else st1.

(** [invalidateCache(pattern, useLocalStorage)]; [pattern] stands for
    [key => pattern.test(key)] of a regular expression without the global
    or sticky flag. *)
Definition invalidateCache (st : CacheState) (pattern : string -> bool)
    (useLocalStorage : bool) : CacheState :=
  let st1 :=
    set_memoryCache st
      (filter (fun kv => pattern (fst kv) = false) (memoryCache st)) in
  if useLocalStorage && hasWindow st1 then
    set_localStorage st1 (removeKeys pattern (localStorage st1))
  else st1.

(** A later call of [useApiCache()]: a new, empty in-memory table over the
    same browser. *)
Definition newInstance (st : CacheState) : CacheState :=
  set_memoryCache st ∅.

(** The time to live that [setCache] gives an entry. *)
Definition ttl_of (options : CacheOptions) : Z :=
  default (5 * 60 * 1000) (opt_ttl options).

(** An occurrence of a character in a string. *)
Fixpoint occurs (c : ascii) (s : string) : bool :=
  match s with
  | EmptyString => false
  | String c' s' => Ascii.eqb c c' || occurs c s'
  end.

End ApiCache.

(** * Properties *)

(** ** Strings and base64 *)

Example btoa_hello : btoa "hello" = "aGVsbG8=".
Proof. reflexivity. Qed.

Example btoa_braces : btoa "{}" = "e30=".
Proof. reflexivity. Qed.

Example stringify_sample :
  stringify (JObj [("a", JNum 1); ("b", JArr [JStr "x"; JNull; JBool true])])
  = String "{" (String dquote ("a" +:+ String dquote (":1," +:+
      String dquote ("b" +:+ String dquote (":[" +:+ String dquote ("x" +:+
      String dquote ",null,true]}")))))).
Proof. reflexivity. Qed.

Lemma append_cancel_l (p x y : string) : p +:+ x = p +:+ y -> x = y.
Proof.
  induction p as [| c p IH]; simpl; intros H; [exact H |].
  injection H as H. auto.
Qed.

Lemma b64_digit_inj (a5 a4 a3 a2 a1 a0 b5 b4 b3 b2 b1 b0 : bool) :
  b64_digit a5 a4 a3 a2 a1 a0 = b64_digit b5 b4 b3 b2 b1 b0 ->
  (a5, a4, a3, a2, a1, a0) = (b5, b4, b3, b2, b1, b0).
Proof.
  destruct a5, a4, a3, a2, a1, a0, b5, b4, b3, b2, b1, b0;
    intros H; try reflexivity; vm_compute in H; discriminate H.
Qed.

Lemma b64_digit_not_pad (a5 a4 a3 a2 a1 a0 : bool) :
  b64_digit a5 a4 a3 a2 a1 a0 <> "="%char.
Proof.
  destruct a5, a4, a3, a2, a1, a0; vm_compute; discriminate.
Qed.

Ltac b64_bits :=
  repeat match goal with
  | H : b64_digit _ _ _ _ _ _ = b64_digit _ _ _ _ _ _ |- _ =>
      apply b64_digit_inj in H; injection H; clear H; intros
  | H : b64_digit _ _ _ _ _ _ = "="%char |- _ =>
      exfalso; exact (b64_digit_not_pad _ _ _ _ _ _ H)
  | H : "="%char = b64_digit _ _ _ _ _ _ |- _ =>
      exfalso; exact (b64_digit_not_pad _ _ _ _ _ _ (eq_sym H))
  end.

Ltac str_inj :=
  repeat match goal with
  | H : String _ _ = String _ _ |- _ => injection H; clear H; intros
  | H : String _ _ = EmptyString |- _ => discriminate H
  | H : EmptyString = String _ _ |- _ => discriminate H
  end.

Lemma btoa_inj_bounded (n : nat) :
  forall s1 s2 : string,
    (String.length s1 <= n)%nat -> btoa s1 = btoa s2 -> s1 = s2.
Proof.
  induction n as [n IH] using lt_wf_ind.
  intros s1 s2 Hlen H.
  destruct s1 as [| [a0 a1 a2 a3 a4 a5 a6 a7]
                    [| [b0 b1 b2 b3 b4 b5 b6 b7]
                       [| [c0 c1 c2 c3 c4 c5 c6 c7] r1]]];
  destruct s2 as [| [d0 d1 d2 d3 d4 d5 d6 d7]
                    [| [e0 e1 e2 e3 e4 e5 e6 e7]
                       [| [f0 f1 f2 f3 f4 f5 f6 f7] r2]]];
  cbn [btoa] in H; try discriminate H; try reflexivity;
  str_inj; b64_bits; subst; try reflexivity.
  do 3 f_equal.
  apply (IH (String.length r1)); [simpl in Hlen; lia | lia | assumption].
Qed.

Lemma btoa_inj (s1 s2 : string) : btoa s1 = btoa s2 -> s1 = s2.
Proof. apply (btoa_inj_bounded (String.length s1)); lia. Qed.

(** ** Cache keys *)

Import ApiCache.

Example generateCacheKey_no_options :
  generateCacheKey "/api/apartments?page=1&limit=20" (Some [])
  = "api_cache_/api/apartments?page=1&limit=20_e30=".
Proof. reflexivity. Qed.

(** C2, counterexample: two parameter records with the same key/value
    pairs, inserted in a different order, get different cache keys. *)
Lemma generateCacheKey_depends_on_key_order :
  Permutation [("a", JNum 1); ("b", JNum 2)] [("b", JNum 2); ("a", JNum 1)]
  /\ generateCacheKey "/api/apartments" (Some [("a", JNum 1); ("b", JNum 2)])
     <> generateCacheKey "/api/apartments" (Some [("b", JNum 2); ("a", JNum 1)]).
Proof.
  split; [apply perm_swap |].
  vm_compute. discriminate.
Qed.

(** C2, amended: the cache key is a deterministic function of the endpoint
    URL and of the JSON serialisation of the parameter record, which lists
    the properties in the record's own enumeration order; for one URL two
    records get the same key exactly when their serialisations are equal.
    Key order is not normalised. *)
Theorem generateCacheKey_eq_iff_serialisation
    (url : string) (p1 p2 : option (list (string * json))) :
  generateCacheKey url p1 = generateCacheKey url p2
  <-> paramString p1 = paramString p2.
Proof.
  unfold generateCacheKey. split.
  - intros H.
    apply append_cancel_l, append_cancel_l, append_cancel_l in H.
    now apply btoa_inj.
  - now intros ->.
Qed.

(** ** Cache lookup and stale fallback *)

Section CachedFetch.

Variables (st : CacheState) (now later : Z) (url : string).
Variable options : FetchOptions.

Let cacheKey : string := generateCacheKey url (Some (fetchOptions options)).
Let cacheOptions : CacheOptions := default no_options (cache options).
Let durable : bool := default false (opt_useLocalStorage cacheOptions).

(** The lookup never touches the request log. *)
Lemma getFromCache_requests (key : string) (useLS : bool) :
  requests (snd (getFromCache st now key useLS)) = requests st.
Proof.
  unfold getFromCache, getFromStorage.
  repeat case_match; reflexivity.
Qed.

(** An entry of the in-memory table survives the lookup, possibly replaced
    by a valid entry promoted from [localStorage]. *)
Lemma getFromCache_keeps_memory (key : string) (useLS : bool) (e : CacheEntry) :
  memoryCache st !! key = Some e ->
  is_Some (memoryCache (snd (getFromCache st now key useLS)) !! key).
Proof.
  intros He. unfold getFromCache, getFromStorage. rewrite He.
  repeat case_match; simpl; rewrite ?lookup_insert_eq, ?He; eauto.
Qed.

(** A truthy valid in-memory entry is a hit: no request is made. *)
Lemma cachedFetch_hit (net : settled thrown json) (entry : CacheEntry) :
  memoryCache st !! cacheKey = Some entry ->
  isCacheValid now entry = true ->
  truthy (data entry) = true ->
  cachedFetch st now later url options net = (Resolved (data entry), st).
Proof.
  intros He Hv Ht. unfold cachedFetch, getFromCache.
  fold cacheKey. rewrite He, Hv, Ht. reflexivity.
Qed.

(** C5: when the lookup misses, so that the network is asked, and the
    request fails, [cachedFetch] answers from the in-memory table as it
    stands at that moment: an entry for the derived key, expired or not,
    has its data returned instead of the error; without one the error
    propagates. An entry that was in the table before the call is enough
    for the call not to throw. *)
Theorem cachedFetch_stale_on_failure (error : thrown) :
  truthy (fst (getFromCache st now cacheKey durable)) = false ->
  let table := memoryCache (snd (getFromCache st now cacheKey durable)) in
  let result := cachedFetch st now later url options (Rejected error) in
  requests (snd result) = (requests st ++ [url])%list
  /\ (forall entry : CacheEntry,
        table !! cacheKey = Some entry -> fst result = Resolved (data entry))
  /\ (table !! cacheKey = None -> fst result = Rejected error)
  /\ (is_Some (memoryCache st !! cacheKey) ->
      exists stale : json, fst result = Resolved stale).
Proof.
  intros Hmiss table result.
  assert (Hkeep : is_Some (memoryCache st !! cacheKey) ->
                  is_Some (table !! cacheKey)).
  { intros [e He]. now apply (getFromCache_keeps_memory cacheKey durable e). }
  subst table result. unfold cachedFetch.
  fold cacheOptions. fold cacheKey. fold durable.
  pose proof (getFromCache_requests cacheKey durable) as Hreq.
  destruct (getFromCache st now cacheKey durable) as [cached st1].
  simpl in *. rewrite Hmiss. simpl.
  split; [| split; [| split]].
  - destruct (memoryCache st1 !! cacheKey); simpl; now rewrite Hreq.
  - intros entry ->. reflexivity.
  - intros ->. reflexivity.
  - intros Hsome. destruct (Hkeep Hsome) as [e ->]. eauto.
Qed.

(** C10: a valid (unexpired) in-memory entry whose data is falsy is not a
    hit: the request is made all the same, and its response, not the cached
    data, is returned. *)
Theorem cachedFetch_falsy_entry_is_miss
    (net : settled thrown json) (entry : CacheEntry) :
  memoryCache st !! cacheKey = Some entry ->
  isCacheValid now entry = true ->
  truthy (data entry) = false ->
  let result := cachedFetch st now later url options net in
  requests (snd result) = (requests st ++ [url])%list
  /\ fst result = match net with
                  | Resolved response => Resolved response
                  | Rejected _ => Resolved (data entry)
                  end.
Proof.
  intros He Hv Hf result. subst result.
  unfold cachedFetch, getFromCache.
  fold cacheOptions. fold cacheKey. rewrite He, Hv, Hf.
  destruct net as [response | error]; simpl.
  - split; [| reflexivity].
    unfold setCache. repeat case_match; reflexivity.
  - rewrite He. split; reflexivity.
Qed.

(** The same holds for a valid falsy entry found in [localStorage]: it is
    promoted to the in-memory table and the request is still made. *)
Lemma cachedFetch_falsy_durable_entry_is_miss
    (net : settled thrown json) (entry : CacheEntry) :
  memoryCache st !! cacheKey = None ->
  durable = true -> hasWindow st = true ->
  localStorage st !! cacheKey = Some (StoredEntry entry) ->
  isCacheValid now entry = true ->
  truthy (data entry) = false ->
  let result := cachedFetch st now later url options net in
  requests (snd result) = (requests st ++ [url])%list
  /\ fst result = match net with
                  | Resolved response => Resolved response
                  | Rejected _ => Resolved (data entry)
                  end.
Proof.
  intros Hm Hd Hw Hl Hv Hf result. subst result.
  unfold cachedFetch, getFromCache, getFromStorage.
  fold cacheOptions. fold cacheKey. fold durable.
  rewrite Hm, Hd, Hw. simpl. rewrite Hl, Hv. simpl. rewrite Hf.
  destruct net as [response | error]; simpl.
  - split; [| reflexivity].
    unfold setCache. repeat case_match; reflexivity.
  - rewrite lookup_insert_eq. split; reflexivity.
Qed.

End CachedFetch.

Lemma cachedFetch_stale_on_failure_witness :
  truthy (fst (getFromCache (session (JStr "stale")) 150
                 (generateCacheKey "/api/apartments" (Some [])) false)) = false
  /\ fst (cachedFetch (session (JStr "stale")) 150 160 "/api/apartments"
            plain_fetch (Rejected (ErrorObject "offline")))
     = Resolved (JStr "stale").
Proof.
  split; [vm_compute; reflexivity |].
  refine (proj1 (proj2
    (cachedFetch_stale_on_failure (session (JStr "stale")) 150 160
       "/api/apartments" plain_fetch (ErrorObject "offline") _))
    {| data := JStr "stale"; timestamp := 0; ttl := 100 |} _);
    vm_compute; reflexivity.
Defined.

Lemma cachedFetch_falsy_entry_is_miss_witness :
  fst (cachedFetch (session (JNum 0)) 50 60 "/api/apartments" plain_fetch
         (Resolved (JNum 7)))
  = Resolved (JNum 7).
Proof.
  refine (proj2
    (cachedFetch_falsy_entry_is_miss (session (JNum 0)) 50 60
       "/api/apartments" plain_fetch (Resolved (JNum 7))
       {| data := JNum 0; timestamp := 0; ttl := 100 |} _ _ _));
    vm_compute; reflexivity.
Defined.

(** ** The apartment list store *)

Section ApartmentStoreProperties.

Import ApartmentStore.

(** [loadApartments] never rejects, whatever the network does. *)
Lemma loadApartments_always_resolves (net : Network) (s : ApartmentState)
    (filters : option FilterParams) (reset : bool) :
  snd (loadApartments net s filters reset) = Resolved tt.
Proof. unfold loadApartments. destruct (net _); reflexivity. Qed.

(** C6: the loading flag is cleared whatever the outcome. When the fetch
    fails a message is recorded in [error], which was cleared at the start
    of the call: the [message] of the [Error] that was thrown, or the text
    ['Failed to load apartments'] when what was thrown is not an [Error];
    a reset load empties the list and a load-more continuation leaves the
    list as it was. *)
Theorem loadApartments_failure (net : Network) (s : ApartmentState)
    (filters : option FilterParams) (reset : bool) :
  let s' := fst (loadApartments net s filters reset) in
  loading s' = false
  /\ (forall message : string,
        net (request_of s filters reset) = Rejected (ErrorObject message) ->
        error s' = Some message
        /\ apartments s' = (if reset then [] else apartments s))
  /\ (forall v : json,
        net (request_of s filters reset) = Rejected (OtherValue v) ->
        error s' = Some "Failed to load apartments"
        /\ apartments s' = (if reset then [] else apartments s)).
Proof.
  unfold request_of, loadApartments. simpl. split; [| split].
  - destruct (net _); reflexivity.
  - intros message ->. split; reflexivity.
  - intros v ->. split; reflexivity.
Qed.

(** What a failed [loadMore] leaves behind: the promise resolves and the
    page stays incremented, because the failure never reaches the [catch]
    of [loadMore]. *)
Lemma loadMore_failure_keeps_increment (net : Network) (s : ApartmentState)
    (e : thrown) :
  canLoadMore s = true ->
  net (buildParams (set_page (pagination s) (page (pagination s) + 1)) None)
    = Rejected e ->
  loadMore net s
  = ({| apartments := apartments s; loading := false;
        error := Some (error_text e);
        pagination := set_page (pagination s) (page (pagination s) + 1);
        hasMore := hasMore s; metadata := metadata s |},
     Resolved tt).
Proof.
  intros Hcan Hnet. unfold loadMore, loadApartments. rewrite Hcan.
  cbn [negb pagination]. rewrite Hnet. reflexivity.
Qed.

(** C1, at the failing input: after a [loadMore] whose fetch fails the
    promise has resolved and the page is 2, not the 1 it was before the
    call; a retry then asks for page 3. *)
Theorem loadMore_failure_page_not_rolled_back :
  page (pagination can_load_more) = 1
  /\ canLoadMore can_load_more = true
  /\ loadMore offline can_load_more
     = ({| apartments := []; loading := false;
           error := Some "Network Error";
           pagination := {| page := 2; limit := 20; total := 25 |};
           hasMore := true; metadata := None |},
        Resolved tt)
  /\ page (pagination
             (fst (loadMore offline (fst (loadMore offline can_load_more)))))
     = 3.
Proof. repeat split. Qed.

(** A continuation load and a reset load that fail on a list of one
    apartment: the first keeps the apartment and records the message of
    the error, the second empties the list and records the fixed text. *)
Lemma loadApartments_failure_witness :
  apartments one_loaded <> []
  /\ (error (fst (loadApartments offline one_loaded None false))
      = Some "Network Error"
      /\ apartments (fst (loadApartments offline one_loaded None false))
         = apartments one_loaded)
  /\ (error (fst (loadApartments refusing one_loaded None true))
      = Some "Failed to load apartments"
      /\ apartments (fst (loadApartments refusing one_loaded None true)) = []).
Proof.
  split; [discriminate |]. split.
  - exact (proj1 (proj2 (loadApartments_failure offline one_loaded None false))
             "Network Error" eq_refl).
  - exact (proj2 (proj2 (loadApartments_failure refusing one_loaded None true))
             (JStr "timeout") eq_refl).
Defined.

End ApartmentStoreProperties.

(** ** The filter store *)

Section FilterStoreProperties.

Import FilterStore.

Lemma classic_in (l : list Z) (x : Z) : In x l \/ ~ In x l.
Proof. destruct (in_dec Z.eq_dec x l); [left | right]; assumption. Qed.

Lemma set_state_same (w : World) : set_state w (state w) = w.
Proof. destruct w; reflexivity. Qed.

(** C9: while the store has no metadata each validator returns [false]
    without assigning [error], and the four setters leave the store and the
    persisted item exactly as they were. *)
Theorem update_without_metadata_is_silent
    (w : World) (now : Z) (range : Z * Z) (rooms : list Z) :
  metadata (state w) = None ->
  (validatePriceRange (state w) range = (false, state w)
   /\ validateAreaRange (state w) range = (false, state w)
   /\ validateRooms (state w) rooms = (false, state w)
   /\ validateFloorsRange (state w) range = (false, state w))
  /\ updatePriceRange w now range = w
  /\ updateAreaRange w now range = w
  /\ updateRooms w now rooms = w
  /\ updateFloorsRange w now range = w.
Proof.
  intros Hmeta.
  unfold updatePriceRange, updateAreaRange, updateRooms, updateFloorsRange,
    validatePriceRange, validateAreaRange, validateRooms, validateFloorsRange.
  rewrite Hmeta. rewrite set_state_same. repeat split.
Qed.

Lemma update_without_metadata_is_silent_witness :
  updatePriceRange uninitialised 1000 (5000000, 10000000) = uninitialised
  /\ updateRooms uninitialised 1000 [2; 3] = uninitialised.
Proof.
  pose proof (update_without_metadata_is_silent uninitialised 1000
                (5000000, 10000000) [2; 3] eq_refl) as H.
  split; apply H.
Defined.

(** C8, at the failing input: with rooms 1 to 4 available, [toggleRoom(7)]
    stores and persists room 7 and leaves [error] untouched, where
    [updateRooms([7])] refuses the same selection with a message. *)
Theorem toggleRoom_skips_validation :
  fst (validateRooms (state initialised) [7]) = false
  /\ rooms (filters (state (updateRooms initialised 1000 [7]))) = []
  /\ error (state (updateRooms initialised 1000 [7]))
     = Some "Недоступные варианты комнат: 7"
  /\ rooms (filters (state (toggleRoom initialised 1000 7))) = [7]
  /\ error (state (toggleRoom initialised 1000 7)) = None
  /\ saved (toggleRoom initialised 1000 7)
     = Some (JObj [("priceRange", JArr [JNum 0; JNum 100000000]);
                   ("areaRange", JArr [JNum 1; JNum 1000]);
                   ("rooms", JArr [JNum 7]);
                   ("floors", JArr [JNum 1; JNum 50]);
                   ("timestamp", JNum 1000)]).
Proof. vm_compute. repeat split. Qed.

(** What [toggleRoom] does do, for every store: the list it leaves is
    ascending; a room that was absent is added; one occurrence of a room
    that was present is removed (the only one when the list has no
    repetition). *)
Lemma state_saveFiltersToStorage (w : World) (now : Z) :
  state (saveFiltersToStorage w now) = state w.
Proof. unfold saveFiltersToStorage. repeat case_match; reflexivity. Qed.

Lemma indexOf_None (l : list Z) (x : Z) : indexOf l x = None <-> ~ In x l.
Proof.
  induction l as [| y l IH]; simpl; [tauto |].
  destruct (Z.eqb_spec y x) as [-> | Hne].
  - split; [discriminate | tauto].
  - destruct (indexOf l x) as [i |]; simpl.
    + split; [discriminate |].
      intros H. exfalso. apply H. right.
      destruct (classic_in l x) as [Hin | Hnin]; [exact Hin |].
      apply IH in Hnin. discriminate.
    + split; [| reflexivity].
      intros _ [Heq | Hin]; [congruence |].
      now apply (proj1 IH).
Qed.

Lemma indexOf_Some (l : list Z) (x : Z) (i : nat) :
  indexOf l x = Some i -> Permutation l (x :: splice1 l i).
Proof.
  revert i. induction l as [| y l IH]; simpl; intros i H; [discriminate |].
  destruct (Z.eqb_spec y x) as [-> | Hne].
  - injection H as <-. unfold splice1. simpl. now rewrite drop_0.
  - destruct (indexOf l x) as [j |]; [| discriminate].
    injection H as <-. unfold splice1 in *. simpl.
    rewrite perm_swap. constructor. now apply IH.
Qed.

Lemma toggleRoom_rooms (w : World) (now n : Z) :
  let before := rooms (filters (state w)) in
  let after := rooms (filters (state (toggleRoom w now n))) in
  Sorted Z.le after
  /\ (~ In n before -> Permutation after (n :: before))
  /\ (In n before -> Permutation (n :: after) before).
Proof.
  unfold toggleRoom. rewrite state_saveFiltersToStorage. simpl.
  unfold sort_ascending. split; [apply Sorted_merge_sort; apply _ |].
  split; intros Hin.
  - apply indexOf_None in Hin. rewrite Hin.
    rewrite merge_sort_Permutation. symmetry. apply Permutation_cons_append.
  - destruct (indexOf (rooms (filters (state w))) n) as [i |] eqn:Hi.
    + rewrite merge_sort_Permutation. symmetry. now apply indexOf_Some.
    + apply indexOf_None in Hi. contradiction.
Qed.

(** The spec's scenario: toggling 2, then 3, then 2 again leaves [3]. *)
Example toggleRoom_scenario :
  rooms (filters (state
    (toggleRoom (toggleRoom (toggleRoom initialised 1 2) 2 3) 3 2)))
  = [3].
Proof. vm_compute. reflexivity. Qed.

(** *** Sanitising saved filters *)

Lemma validateSavedRange_spec (sv : option json) (meta : Z * Z) :
  adopted_or_reset sv meta (validateSavedRange sv meta).
Proof.
  unfold adopted_or_reset, within, validateSavedRange. split.
  - intros min max -> (H1 & H2 & H3). simpl in *.
    replace (min >=? fst meta) with true by lia.
    replace (max <=? snd meta) with true by lia.
    replace (min <=? max) with true by lia. reflexivity.
  - intros Hno.
    destruct sv as [[| | | | [| [| | a | | |] [| [| | b | | |] [|]]] |] |];
      try reflexivity.
    specialize (Hno a b eq_refl). simpl in Hno.
    destruct (a >=? fst meta) eqn:E1, (b <=? snd meta) eqn:E2,
      (a <=? b) eqn:E3; simpl; try reflexivity.
    exfalso. apply Hno. lia.
Qed.

Lemma validRooms_spec (available : list Z) (items : list json) :
  validRooms available items = List.filter (includes available) (numbers items).
Proof.
  unfold numbers.
  induction items as [| [| | n | | |] items IH]; simpl; try assumption;
    [reflexivity |].
  destruct (includes available n); simpl; now rewrite IH.
Qed.

Lemma includes_In (l : list Z) (x : Z) : includes l x = true <-> In x l.
Proof.
  unfold includes. rewrite existsb_exists. split.
  - intros (y & Hy & Heq). apply Z.eqb_eq in Heq. now subst.
  - intros H. exists x. split; [assumption | apply Z.eqb_refl].
Qed.

(** C3, counterexample: with a price range of 0 to 100,000,000 in the
    metadata, the saved range [-5, 5,000,000] is not clamped to
    [0, 5,000,000]; the whole metadata range comes back. *)
Lemma validateSavedFilters_does_not_clamp :
  priceRange
    (validateSavedFilters
       {| saved_priceRange := Some (JArr [JNum (-5); JNum 5000000]);
          saved_areaRange := None; saved_rooms := None; saved_floors := None |}
       catalogue)
  <> clampedRange (-5, 5000000) (meta_priceRange catalogue).
Proof. vm_compute. intros H. discriminate H. Qed.

(** C3, amended: [validateSavedFilters] raises no error and never clamps a
    single bound. For each of priceRange, areaRange and floors it adopts
    the saved pair when that is a pair of numbers within the metadata range
    and in order, and otherwise returns the whole metadata range; the rooms
    it returns are the saved numbers that occur in [roomsAvailable], in
    their saved order, the others being dropped. *)
Theorem validateSavedFilters_adopts_or_resets
    (savedFilters : PartialFilters) (metadata : FilterMetadata) :
  let result := validateSavedFilters savedFilters metadata in
  adopted_or_reset (saved_priceRange savedFilters) (meta_priceRange metadata)
    (priceRange result)
  /\ adopted_or_reset (saved_areaRange savedFilters) (meta_areaRange metadata)
       (areaRange result)
  /\ adopted_or_reset (saved_floors savedFilters) (floorsRange metadata)
       (floors result)
  /\ rooms result
     = match saved_rooms savedFilters with
       | Some (JArr items) =>
           List.filter (includes (roomsAvailable metadata)) (numbers items)
       | _ => []
       end
  /\ Forall (fun room => In room (roomsAvailable metadata)) (rooms result).
Proof.
  simpl. repeat split; try apply validateSavedRange_spec.
  - destruct (saved_rooms savedFilters) as [[| | | | items |] |];
      try reflexivity.
    apply validRooms_spec.
  - destruct (saved_rooms savedFilters) as [[| | | | items |] |];
      try constructor.
    rewrite validRooms_spec. apply List.Forall_forall.
    intros room Hin. apply filter_In in Hin. now apply includes_In.
Qed.

End FilterStoreProperties.

(** ** Validation against rules *)

Section ValidationProperties.

Import Constants.

Lemma in_codes_push_if (c : string) (cond : bool) (e : ValidationError)
    (errs : list ValidationError) :
  In c (map code (push_if cond e errs))
  <-> In c (map code errs) \/ (cond = true /\ c = code e).
Proof.
  unfold push_if. destruct cond.
  - rewrite map_app, in_app_iff. simpl. intuition congruence.
  - intuition congruence.
Qed.

Lemma invalid_rooms_nonempty (rooms available : list Z) :
  (0 <? length (List.filter (fun room => negb (includes available room)) rooms))%nat
  = true
  <-> ~ rooms_allowed rooms available.
Proof.
  unfold rooms_allowed. rewrite Nat.ltb_lt. split.
  - intros Hlen Hall.
    destruct (List.filter _ rooms) as [| room rest] eqn:E; [simpl in Hlen; lia |].
    assert (Hin : In room (List.filter
                   (fun room => negb (includes available room)) rooms))
      by (rewrite E; now left).
    apply filter_In in Hin. destruct Hin as [Hin Hneg].
    rewrite List.Forall_forall in Hall. apply Hall in Hin.
    apply includes_In in Hin. rewrite Hin in Hneg. discriminate.
  - intros Hnot.
    destruct (List.filter _ rooms) as [| room rest] eqn:E; [| simpl; lia].
    exfalso. apply Hnot. apply List.Forall_forall. intros room Hin.
    destruct (includes available room) eqn:Hinc; [now apply includes_In |].
    assert (Hf : In room (List.filter
                  (fun room => negb (includes available room)) rooms))
      by (apply filter_In; split; [assumption | now rewrite Hinc]).
    rewrite E in Hf. destruct Hf.
Qed.

(** The codes of a validation, condition by condition. *)
Lemma validateFilterParams_codes_spec
    (filters : FilterParams) (rules : FilterValidationRules) (c : string) :
  In c (codes (validateFilterParams filters rules))
  <-> (c = "PRICE_MIN_INVALID"
       /\ below_minimum (priceRange filters) (rules_priceRange rules))
   \/ (c = "PRICE_MAX_INVALID"
       /\ above_maximum (priceRange filters) (rules_priceRange rules))
   \/ (c = "PRICE_RANGE_INVALID" /\ inverted (priceRange filters))
   \/ (c = "AREA_MIN_INVALID"
       /\ below_minimum (areaRange filters) (rules_areaRange rules))
   \/ (c = "AREA_MAX_INVALID"
       /\ above_maximum (areaRange filters) (rules_areaRange rules))
   \/ (c = "AREA_RANGE_INVALID" /\ inverted (areaRange filters))
   \/ (c = "ROOMS_INVALID"
       /\ ~ rooms_allowed (rooms filters) (rules_rooms_available rules))
   \/ (c = "FLOOR_MIN_INVALID"
       /\ below_minimum (floors filters) (rules_floors rules))
   \/ (c = "FLOOR_MAX_INVALID"
       /\ above_maximum (floors filters) (rules_floors rules))
   \/ (c = "FLOOR_RANGE_INVALID" /\ inverted (floors filters)).
Proof.
  unfold codes, validateFilterParams, below_minimum, above_maximum, inverted.
  cbn [errors]. rewrite !in_codes_push_if. cbn [code map In].
  rewrite invalid_rooms_nonempty, !Z.ltb_lt, !Z.gtb_gt.
  tauto.
Qed.

(** X28: [validateFilterParams(filters, rules)] of [types/constants.ts]
    checks price, area and floors independently for a lower bound below the rule minimum, an upper
    bound above the rule maximum and an inverted range, and each of the
    nine conditions has a code of its own, reported exactly when the
    condition holds. In particular an inverted range is reported under the
    range code of its own dimension, and when the other dimensions pass
    their rules no code of another dimension is reported. *)
Theorem validateFilterParams_codes
    (filters : FilterParams) (rules : FilterValidationRules) :
  let reported := codes (validateFilterParams filters rules) in
  let price := priceRange filters in
  let area := areaRange filters in
  let floor := floors filters in
  NoDup (price_codes ++ area_codes ++ floor_codes)
  /\ ((In "PRICE_MIN_INVALID" reported
       <-> below_minimum price (rules_priceRange rules))
      /\ (In "PRICE_MAX_INVALID" reported
          <-> above_maximum price (rules_priceRange rules))
      /\ (In "PRICE_RANGE_INVALID" reported <-> inverted price))
  /\ ((In "AREA_MIN_INVALID" reported
       <-> below_minimum area (rules_areaRange rules))
      /\ (In "AREA_MAX_INVALID" reported
          <-> above_maximum area (rules_areaRange rules))
      /\ (In "AREA_RANGE_INVALID" reported <-> inverted area))
  /\ ((In "FLOOR_MIN_INVALID" reported
       <-> below_minimum floor (rules_floors rules))
      /\ (In "FLOOR_MAX_INVALID" reported
          <-> above_maximum floor (rules_floors rules))
      /\ (In "FLOOR_RANGE_INVALID" reported <-> inverted floor))
  /\ (passes area (rules_areaRange rules) ->
      passes floor (rules_floors rules) ->
      rooms_allowed (rooms filters) (rules_rooms_available rules) ->
      forall c, In c reported -> In c price_codes)
  /\ (passes price (rules_priceRange rules) ->
      passes floor (rules_floors rules) ->
      rooms_allowed (rooms filters) (rules_rooms_available rules) ->
      forall c, In c reported -> In c area_codes)
  /\ (passes price (rules_priceRange rules) ->
      passes area (rules_areaRange rules) ->
      rooms_allowed (rooms filters) (rules_rooms_available rules) ->
      forall c, In c reported -> In c floor_codes).
Proof.
  intros reported price area floor. subst reported price area floor.
  split.
  { unfold price_codes, area_codes, floor_codes. compute_done. }
  pose proof (validateFilterParams_codes_spec filters rules) as Hspec.
  unfold passes, price_codes, area_codes, floor_codes.
  repeat split; try (intros H; apply Hspec in H);
    try (intros H; apply Hspec; tauto);
    try (intuition (try discriminate; try tauto)).
  all: match goal with
       | Hc : In ?c (codes _) |- _ =>
           apply Hspec in Hc; simpl; intuition (subst; tauto)
       end.
Qed.

(** An inverted price range in an otherwise valid filter set. *)
Lemma validateFilterParams_codes_witness :
  In "PRICE_RANGE_INVALID"
    (codes (validateFilterParams inverted_price scenario_rules)).
Proof.
  apply (proj2 (proj2 (proj2 (proj1 (proj2
           (validateFilterParams_codes inverted_price scenario_rules)))))).
  unfold inverted. simpl. lia.
Defined.

Example validateFilterParams_inverted_price :
  codes (validateFilterParams inverted_price scenario_rules)
  = ["PRICE_RANGE_INVALID"].
Proof. reflexivity. Qed.

(** The store's validators keep metadata and filters and only set
    [error]. *)
Lemma validatePriceRange_verdict
    (s : FilterStore.FilterState) (m : FilterMetadata) (range : Z * Z) :
  FilterStore.metadata s = Some m ->
  exists s',
    FilterStore.validatePriceRange s range
    = (negb (FilterStore.out_of_range range (meta_priceRange m)), s')
    /\ FilterStore.metadata s' = Some m
    /\ FilterStore.filters s' = FilterStore.filters s.
Proof.
  intros Hm. unfold FilterStore.validatePriceRange. rewrite Hm.
  destruct (meta_priceRange m) as [lo hi].
  destruct (FilterStore.out_of_range range (lo, hi)); eauto.
Qed.

Lemma validateAreaRange_verdict
    (s : FilterStore.FilterState) (m : FilterMetadata) (range : Z * Z) :
  FilterStore.metadata s = Some m ->
  exists s',
    FilterStore.validateAreaRange s range
    = (negb (FilterStore.out_of_range range (meta_areaRange m)), s')
    /\ FilterStore.metadata s' = Some m
    /\ FilterStore.filters s' = FilterStore.filters s.
Proof.
  intros Hm. unfold FilterStore.validateAreaRange. rewrite Hm.
  destruct (meta_areaRange m) as [lo hi].
  destruct (FilterStore.out_of_range range (lo, hi)); eauto.
Qed.

Lemma validateFloorsRange_verdict
    (s : FilterStore.FilterState) (m : FilterMetadata) (range : Z * Z) :
  FilterStore.metadata s = Some m ->
  exists s',
    FilterStore.validateFloorsRange s range
    = (negb (FilterStore.out_of_range range (floorsRange m)), s')
    /\ FilterStore.metadata s' = Some m
    /\ FilterStore.filters s' = FilterStore.filters s.
Proof.
  intros Hm. unfold FilterStore.validateFloorsRange. rewrite Hm.
  destruct (floorsRange m) as [lo hi].
  destruct (FilterStore.out_of_range range (lo, hi)); eauto.
Qed.

Lemma validateRooms_verdict
    (s : FilterStore.FilterState) (m : FilterMetadata) (rooms : list Z) :
  FilterStore.metadata s = Some m ->
  exists ok s',
    FilterStore.validateRooms s rooms = (ok, s')
    /\ (ok = false <-> ~ rooms_allowed rooms (roomsAvailable m))
    /\ FilterStore.metadata s' = Some m
    /\ FilterStore.filters s' = FilterStore.filters s.
Proof.
  intros Hm. unfold FilterStore.validateRooms. rewrite Hm.
  pose proof (invalid_rooms_nonempty rooms (roomsAvailable m)) as H.
  destruct (0 <? length _)%nat; do 2 eexists; (split; [reflexivity |]);
    (split; [| split; [exact Hm | reflexivity]]).
  - tauto.
  - split; [discriminate |]. intros Hn. apply H in Hn. discriminate.
Qed.

(** The store's own [validateAllFilters] is coarser: it has one code per
    dimension, reported when any of the three conditions holds. *)
Lemma validateAllFilters_codes
    (s : FilterStore.FilterState) (m : FilterMetadata) (c : string) :
  FilterStore.metadata s = Some m ->
  let f := FilterStore.filters s in
  In c (codes (fst (FilterStore.validateAllFilters s)))
  <-> (c = "INVALID_PRICE_RANGE"
       /\ FilterStore.out_of_range (priceRange f) (meta_priceRange m) = true)
   \/ (c = "INVALID_AREA_RANGE"
       /\ FilterStore.out_of_range (areaRange f) (meta_areaRange m) = true)
   \/ (c = "INVALID_ROOMS" /\ ~ rooms_allowed (rooms f) (roomsAvailable m))
   \/ (c = "INVALID_FLOORS_RANGE"
       /\ FilterStore.out_of_range (floors f) (floorsRange m) = true).
Proof.
  intros Hm f. subst f. unfold FilterStore.validateAllFilters, codes.
  destruct (validatePriceRange_verdict s m
              (priceRange (FilterStore.filters s)) Hm)
    as (s1 & -> & Hm1 & Hf1).
  destruct (validateAreaRange_verdict s1 m
              (areaRange (FilterStore.filters s1)) Hm1)
    as (s2 & -> & Hm2 & Hf2).
  destruct (validateRooms_verdict s2 m (rooms (FilterStore.filters s2)) Hm2)
    as (ok & s3 & -> & Hok & Hm3 & Hf3).
  destruct (validateFloorsRange_verdict s3 m
              (floors (FilterStore.filters s3)) Hm3)
    as (s4 & -> & Hm4 & Hf4).
  cbn [fst errors]. rewrite !in_codes_push_if. cbn [code map In].
  rewrite !negb_involutive, negb_true_iff, Hok.
  rewrite Hf3, Hf2, Hf1. tauto.
Qed.

(** The codes in the order in which they are pushed, each at most once. *)
Lemma validateAllFilters_codes_in_order
    (s : FilterStore.FilterState) (m : FilterMetadata) :
  FilterStore.metadata s = Some m ->
  let f := FilterStore.filters s in
  exists roomsOk : bool,
    (roomsOk = false <-> ~ rooms_allowed (rooms f) (roomsAvailable m))
    /\ codes (fst (FilterStore.validateAllFilters s))
       = ((if FilterStore.out_of_range (priceRange f) (meta_priceRange m)
           then ["INVALID_PRICE_RANGE"] else [])
          ++ (if FilterStore.out_of_range (areaRange f) (meta_areaRange m)
              then ["INVALID_AREA_RANGE"] else [])
          ++ (if roomsOk then [] else ["INVALID_ROOMS"])
          ++ (if FilterStore.out_of_range (floors f) (floorsRange m)
              then ["INVALID_FLOORS_RANGE"] else []))%list.
Proof.
  intros Hm f. subst f. unfold FilterStore.validateAllFilters, codes.
  destruct (validatePriceRange_verdict s m
              (priceRange (FilterStore.filters s)) Hm)
    as (s1 & -> & Hm1 & Hf1).
  destruct (validateAreaRange_verdict s1 m
              (areaRange (FilterStore.filters s1)) Hm1)
    as (s2 & -> & Hm2 & Hf2).
  destruct (validateRooms_verdict s2 m (rooms (FilterStore.filters s2)) Hm2)
    as (ok & s3 & -> & Hok & Hm3 & Hf3).
  destruct (validateFloorsRange_verdict s3 m
              (floors (FilterStore.filters s3)) Hm3)
    as (s4 & -> & Hm4 & Hf4).
  exists ok. rewrite Hf3, Hf2, Hf1 in *. split; [exact Hok |].
  cbn [fst errors]. rewrite !negb_involutive. unfold push_if.
  destruct (FilterStore.out_of_range (priceRange (FilterStore.filters s)) _),
    (FilterStore.out_of_range (areaRange (FilterStore.filters s)) _),
    ok,
    (FilterStore.out_of_range (floors (FilterStore.filters s)) _);
    reflexivity.
Qed.

Lemma out_of_range_true (range meta : Z * Z) :
  FilterStore.out_of_range range meta = true
  <-> fst range < fst meta \/ snd range > snd meta \/ fst range > snd range.
Proof. unfold FilterStore.out_of_range. lia. Qed.

Lemma within_not_out_of_range (range meta : Z * Z) :
  FilterStore.within range meta ->
  FilterStore.out_of_range range meta = false.
Proof. unfold FilterStore.out_of_range, FilterStore.within. lia. Qed.

(** C4, counterexample: in the store's validation the three conditions of
    a range do not have codes of their own. Against a price range of 0 to
    100,000,000, a price range whose lower bound is below the minimum, one
    whose upper bound is above the maximum and an inverted one are all
    reported under the one code [INVALID_PRICE_RANGE]. *)
Lemma validateAllFilters_conditions_share_a_code :
  codes (fst (FilterStore.validateAllFilters
                (FilterStore.with_price (-5, 10000000))))
  = ["INVALID_PRICE_RANGE"]
  /\ codes (fst (FilterStore.validateAllFilters
                   (FilterStore.with_price (5000000, 200000000))))
     = ["INVALID_PRICE_RANGE"]
  /\ codes (fst (FilterStore.validateAllFilters
                   (FilterStore.with_price (10000000, 5000000))))
     = ["INVALID_PRICE_RANGE"].
Proof. repeat split; vm_compute; reflexivity. Qed.

(** C4, amended: [validateAllFilters] checks price, area and floors
    independently against the metadata, each by one test of three
    conditions: lower bound below the metadata minimum, upper bound above
    the metadata maximum, inverted range. The three dimensions have three
    distinct codes, and the code of a dimension is reported exactly when
    one of its three conditions holds; the conditions themselves are not
    told apart. In particular an inverted range is reported under the code
    of its own dimension, and when the other dimensions and the rooms pass
    no other code is reported. *)
Theorem validateAllFilters_one_code_per_dimension
    (s : FilterStore.FilterState) (m : FilterMetadata) :
  FilterStore.metadata s = Some m ->
  let reported := codes (fst (FilterStore.validateAllFilters s)) in
  let price := priceRange (FilterStore.filters s) in
  let area := areaRange (FilterStore.filters s) in
  let floor := floors (FilterStore.filters s) in
  NoDup FilterStore.range_codes
  /\ (In "INVALID_PRICE_RANGE" reported
      <-> fst price < fst (meta_priceRange m)
          \/ snd price > snd (meta_priceRange m)
          \/ fst price > snd price)
  /\ (In "INVALID_AREA_RANGE" reported
      <-> fst area < fst (meta_areaRange m)
          \/ snd area > snd (meta_areaRange m)
          \/ fst area > snd area)
  /\ (In "INVALID_FLOORS_RANGE" reported
      <-> fst floor < fst (floorsRange m)
          \/ snd floor > snd (floorsRange m)
          \/ fst floor > snd floor)
  /\ (fst price > snd price ->
      FilterStore.within area (meta_areaRange m) ->
      FilterStore.within floor (floorsRange m) ->
      rooms_allowed (rooms (FilterStore.filters s)) (roomsAvailable m) ->
      reported = ["INVALID_PRICE_RANGE"])
  /\ (fst area > snd area ->
      FilterStore.within price (meta_priceRange m) ->
      FilterStore.within floor (floorsRange m) ->
      rooms_allowed (rooms (FilterStore.filters s)) (roomsAvailable m) ->
      reported = ["INVALID_AREA_RANGE"])
  /\ (fst floor > snd floor ->
      FilterStore.within price (meta_priceRange m) ->
      FilterStore.within area (meta_areaRange m) ->
      rooms_allowed (rooms (FilterStore.filters s)) (roomsAvailable m) ->
      reported = ["INVALID_FLOORS_RANGE"]).
Proof.
  intros Hm reported price area floor. subst reported price area floor.
  pose proof (fun c => validateAllFilters_codes s m c Hm) as Hcodes.
  cbn zeta in Hcodes.
  destruct (validateAllFilters_codes_in_order s m Hm)
    as (roomsOk & Hrooms & Hlist).
  split; [unfold FilterStore.range_codes; compute_done |].
  split; [rewrite Hcodes, <- out_of_range_true;
          intuition (try discriminate; auto) |].
  split; [rewrite Hcodes, <- out_of_range_true;
          intuition (try discriminate; auto) |].
  split; [rewrite Hcodes, <- out_of_range_true;
          intuition (try discriminate; auto) |].
  assert (Hallowed :
            rooms_allowed (rooms (FilterStore.filters s)) (roomsAvailable m) ->
            roomsOk = true).
  { intros Hr. destruct roomsOk; [reflexivity |].
    exfalso. now apply (proj1 Hrooms). }
  split; [| split].
  - intros Hinv Ha Hf Hr. rewrite Hlist.
    rewrite (within_not_out_of_range _ _ Ha),
      (within_not_out_of_range _ _ Hf), (Hallowed Hr).
    rewrite (proj2 (out_of_range_true _ _)) by tauto. reflexivity.
  - intros Hinv Hp Hf Hr. rewrite Hlist.
    rewrite (within_not_out_of_range _ _ Hp),
      (within_not_out_of_range _ _ Hf), (Hallowed Hr).
    rewrite (proj2 (out_of_range_true _ _)) by tauto. reflexivity.
  - intros Hinv Hp Ha Hr. rewrite Hlist.
    rewrite (within_not_out_of_range _ _ Hp),
      (within_not_out_of_range _ _ Ha), (Hallowed Hr).
    rewrite (proj2 (out_of_range_true _ _)) by tauto. reflexivity.
Qed.

(** The inverted price range of the counterexample, in the initialised
    store. *)
Lemma validateAllFilters_one_code_per_dimension_witness :
  codes (fst (FilterStore.validateAllFilters
                (FilterStore.with_price (10000000, 5000000))))
  = ["INVALID_PRICE_RANGE"].
Proof.
  refine (proj1 (proj2 (proj2 (proj2 (proj2
    (validateAllFilters_one_code_per_dimension
       (FilterStore.with_price (10000000, 5000000)) FilterStore.catalogue
       eq_refl))))) _ _ _ _).
  - simpl. lia.
  - unfold FilterStore.within. simpl. lia.
  - unfold FilterStore.within. simpl. lia.
  - constructor.
Defined.

End ValidationProperties.

(** ** URL synchronisation *)

Section UrlProperties.

Import UrlFilters.

Lemma to_int_not_nil (z : Z) :
  Z.to_int z <> Decimal.Pos Decimal.Nil /\ Z.to_int z <> Decimal.Neg Decimal.Nil.
Proof.
  destruct z as [| p | p]; simpl; split; try discriminate;
    intros [= H]; now apply (DecimalPos.Unsigned.to_uint_nonnil p).
Qed.

Lemma int_of_string_toString (z : Z) :
  NilZero.int_of_string (toString z) = Some (Z.to_int z).
Proof.
  unfold toString. destruct (to_int_not_nil z). now apply NilZero.isi.
Qed.

(** Printing a number and reading it back gives the number. *)
Lemma Number_toString (z : Z) : Number (toString z) = Some z.
Proof.
  pose proof (int_of_string_toString z) as H.
  unfold Number. destruct (toString z) as [| c rest] eqn:E.
  - discriminate H.
  - destruct (Ascii.eqb_spec c "+") as [-> | Hne].
    + exfalso. revert H. unfold NilZero.int_of_string. simpl.
      destruct (NilEmpty.uint_of_string rest); discriminate.
    + assert (Hgen : forall r : option Z,
                 match c with
                 | "+"%char => r
                 | _ => option_map Z.of_int
                          (NilZero.int_of_string (String c rest))
                 end = option_map Z.of_int
                          (NilZero.int_of_string (String c rest))).
      { intros r.
        destruct c as [[] [] [] [] [] [] [] []]; try reflexivity.
        now contradiction Hne. }
      rewrite Hgen, H. simpl. now rewrite DecimalZ.of_to.
Qed.

Lemma toString_truthy (z : Z) : q_truthy (QString (toString z)) = true.
Proof.
  simpl. pose proof (int_of_string_toString z) as H.
  destruct (toString z); [discriminate H | reflexivity].
Qed.

Ltac url_lookup :=
  unfold updateUrlWithFilters;
  repeat match goal with
         | E : _ = true |- _ => rewrite E; clear E
         | E : _ = false |- _ => rewrite E; clear E
         end;
  repeat case_match; simplify_map_eq; reflexivity.

Lemma parseRange_written (query : gmap string qvalue) (kmin kmax : string)
    (range : Z * Z) :
  query !! kmin = Some (QString (toString (fst range))) ->
  query !! kmax = Some (QString (toString (snd range))) ->
  ordered range ->
  parseRange query kmin kmax = Some range.
Proof.
  intros Hmin Hmax Hord. unfold parseRange. rewrite Hmin, Hmax.
  rewrite !toString_truthy. cbn [andb Number_q]. rewrite !Number_toString.
  unfold ordered in Hord. replace (fst range <=? snd range) with true by lia.
  now destruct range.
Qed.

Lemma parseRange_absent (query : gmap string qvalue) (kmin kmax : string) :
  query !! kmin = None -> parseRange query kmin kmax = None.
Proof. intros H. unfold parseRange. now rewrite H. Qed.

Lemma parseRange_price (filters defaults : FilterParams) :
  ordered (priceRange filters) ->
  parseRange (updateUrlWithFilters filters defaults) "priceMin" "priceMax"
  = changed (priceRange filters) (priceRange defaults).
Proof.
  intros Hord. unfold changed.
  destruct (FilterStore.range_differs _ _) eqn:E.
  - apply parseRange_written; [| | assumption]; url_lookup.
  - apply parseRange_absent. url_lookup.
Qed.

Lemma parseRange_area (filters defaults : FilterParams) :
  ordered (areaRange filters) ->
  parseRange (updateUrlWithFilters filters defaults) "areaMin" "areaMax"
  = changed (areaRange filters) (areaRange defaults).
Proof.
  intros Hord. unfold changed.
  destruct (FilterStore.range_differs _ _) eqn:E.
  - apply parseRange_written; [| | assumption]; url_lookup.
  - apply parseRange_absent. url_lookup.
Qed.

Lemma parseRange_floors (filters defaults : FilterParams) :
  ordered (floors filters) ->
  parseRange (updateUrlWithFilters filters defaults) "floorMin" "floorMax"
  = changed (floors filters) (floors defaults).
Proof.
  intros Hord. unfold changed.
  destruct (FilterStore.range_differs _ _) eqn:E.
  - apply parseRange_written; [| | assumption]; url_lookup.
  - apply parseRange_absent. url_lookup.
Qed.

Lemma positiveNumbers_written (rooms : list Z) :
  positiveNumbers (map (fun r => Some (toString r)) rooms)
  = List.filter (fun r => r >? 0) rooms.
Proof.
  induction rooms as [| r rooms IH]; [reflexivity |].
  cbn [map positiveNumbers Number_item List.filter].
  rewrite Number_toString, IH. reflexivity.
Qed.

Lemma parseRooms_written (filters defaults : FilterParams) :
  parseRooms (updateUrlWithFilters filters defaults)
  = positive_ascending (rooms filters).
Proof.
  unfold parseRooms, positive_ascending.
  destruct (0 <? length (rooms filters))%nat eqn:E.
  - replace (updateUrlWithFilters filters defaults !! "rooms")
      with (Some (QArray (map (fun r => Some (toString r)) (rooms filters))))
      by (symmetry; url_lookup).
    cbn [q_truthy]. now rewrite positiveNumbers_written.
  - replace (updateUrlWithFilters filters defaults !! "rooms")
      with (@None qvalue) by (symmetry; url_lookup).
    destruct (rooms filters); [reflexivity | discriminate E].
Qed.

Lemma parseRange_empty (kmin kmax : string) : parseRange ∅ kmin kmax = None.
Proof. apply parseRange_absent, lookup_empty. Qed.

(** An ascending list of positive rooms comes back as it is. *)
Lemma positive_ascending_id (rooms : list Z) :
  Sorted Z.le rooms -> Forall (fun r => 0 < r) rooms ->
  positive_ascending rooms = if (0 <? length rooms)%nat then Some rooms else None.
Proof.
  intros Hsorted Hpos. unfold positive_ascending.
  assert (Hkeep : List.filter (fun r => r >? 0) rooms = rooms).
  { clear Hsorted. induction Hpos as [| r rooms Hr _ IH]; [reflexivity |].
    simpl. replace (r >? 0) with true by lia. now rewrite IH. }
  rewrite Hkeep.
  assert (Hsame : sort_ascending rooms = rooms).
  { unfold sort_ascending. apply (Sorted_unique Z.le).
    - apply Sorted_merge_sort. apply _.
    - assumption.
    - apply merge_sort_Permutation. }
  now rewrite Hsame.
Qed.

(** C7, counterexample: rooms selected in the order 3, 1 are written to the
    URL and read back as 1, 3, so the rooms dimension is not recovered
    exactly. *)
Lemma url_round_trip_reorders_rooms :
  (forall n : Z, In n (rooms rooms_3_1) -> In n (roomsAvailable FilterStore.catalogue))
  /\ (url_rooms <$> parseFiltersFromUrl
                      (updateUrlWithFilters rooms_3_1 catalogue_defaults))
     = Some (Some [1; 3])
  /\ (url_rooms <$> parseFiltersFromUrl
                      (updateUrlWithFilters rooms_3_1 catalogue_defaults))
     <> Some (Some (rooms rooms_3_1)).
Proof.
  split; [| split].
  - simpl. intuition (subst; simpl; tauto).
  - vm_compute. reflexivity.
  - vm_compute. intros H. discriminate H.
Qed.

(** C7, amended: for filters whose ranges are in order, parsing the query
    written by [updateUrlWithFilters(filters, defaults)] recovers exactly
    the ranges that differ from their default, with their values, and no
    range equal to its default; the rooms come back as the positive room
    values in ascending order, whenever there is one, which is the rooms
    list itself when that list is ascending and positive. When nothing is
    recovered the result is [null]. *)
Theorem url_round_trip (filters defaults : FilterParams) :
  ordered (priceRange filters) ->
  ordered (areaRange filters) ->
  ordered (floors filters) ->
  parseFiltersFromUrl (updateUrlWithFilters filters defaults)
  = (if nothing (recovered filters defaults) then None
     else Some (recovered filters defaults))
  /\ (Sorted Z.le (rooms filters) ->
      Forall (fun r => 0 < r) (rooms filters) ->
      url_rooms (recovered filters defaults)
      = if (0 <? length (rooms filters))%nat then Some (rooms filters) else None).
Proof.
  intros Hp Ha Hf. split; [| apply positive_ascending_id].
  pose proof (parseRange_price filters defaults Hp) as Eprice.
  pose proof (parseRange_area filters defaults Ha) as Earea.
  pose proof (parseRange_floors filters defaults Hf) as Efloors.
  pose proof (parseRooms_written filters defaults) as Erooms.
  unfold parseFiltersFromUrl, recovered.
  case_bool_decide as Hempty.
  - rewrite Hempty in Eprice, Earea, Efloors, Erooms.
    rewrite parseRange_empty in Eprice, Earea, Efloors.
    unfold parseRooms in Erooms. rewrite lookup_empty in Erooms.
    rewrite <- Eprice, <- Earea, <- Efloors, <- Erooms. reflexivity.
  - rewrite Eprice, Earea, Efloors, Erooms.
    destruct (changed (priceRange filters) (priceRange defaults)),
      (changed (areaRange filters) (areaRange defaults)),
      (positive_ascending (rooms filters)),
      (changed (floors filters) (floors defaults)); reflexivity.
Qed.

Lemma url_round_trip_witness :
  parseFiltersFromUrl (updateUrlWithFilters narrowed catalogue_defaults)
  = Some {| url_priceRange := Some (5000000, 10000000);
            url_areaRange := None;
            url_rooms := Some [2; 3];
            url_floors := Some (2, 9) |}.
Proof.
  refine (eq_trans
            (proj1 (url_round_trip narrowed catalogue_defaults _ _ _)) _);
    [unfold ordered; simpl; lia .. | reflexivity].
Defined.

End UrlProperties.

(** ** The cache as a store: writes, reads and removals *)

Section CacheStore.

Import ApiCache.

Variables (st : CacheState) (key : string).

Lemma memoryCache_setCache (t0 : Z) (d : json) (options : CacheOptions) :
  memoryCache (setCache st t0 key d options)
  = <[key := {| data := d; timestamp := t0; ttl := ttl_of options |}]>
      (memoryCache st).
Proof. unfold setCache, ttl_of. repeat case_match; reflexivity. Qed.

(** X1: what [setCache] wrote is read back, from memory alone, until its
    time to live has run out (five minutes when none is given), and not
    after. *)
Theorem getFromCache_setCache (t0 now : Z) (d : json) (options : CacheOptions) :
  fst (getFromCache (setCache st t0 key d options) now key false)
  = if now - t0 <? ttl_of options then d else JNull.
Proof.
  unfold getFromCache. rewrite memoryCache_setCache, lookup_insert_eq.
  unfold isCacheValid. cbn [timestamp ttl data].
  destruct (now - t0 <? ttl_of options); [reflexivity |].
  unfold getFromStorage. reflexivity.
Qed.

End CacheStore.

Section CacheRemoval.

Import ApiCache.

(** What a lookup returns depends only on the two entries under the key
    and on the presence of a window. *)
Lemma getFromCache_fst_ext (st1 st2 : CacheState) (now : Z) (k : string)
    (u : bool) :
  memoryCache st1 !! k = memoryCache st2 !! k ->
  localStorage st1 !! k = localStorage st2 !! k ->
  hasWindow st1 = hasWindow st2 ->
  fst (getFromCache st1 now k u) = fst (getFromCache st2 now k u).
Proof.
  intros Hm Hl Hw. unfold getFromCache, getFromStorage.
  rewrite Hm, Hl, Hw. repeat case_match; reflexivity.
Qed.

Lemma getFromCache_absent (st : CacheState) (now : Z) (k : string) (u : bool) :
  memoryCache st !! k = None ->
  hasWindow st = false \/ localStorage st !! k = None ->
  fst (getFromCache st now k u) = JNull.
Proof.
  intros Hm [Hw | Hl]; unfold getFromCache, getFromStorage; rewrite Hm.
  - rewrite Hw, andb_false_r. reflexivity.
  - rewrite Hl. repeat case_match; reflexivity.
Qed.

Lemma hasWindow_clearCache (st : CacheState) (k : string) (b : bool) :
  hasWindow (clearCache st k b) = hasWindow st.
Proof. unfold clearCache. case_match; reflexivity. Qed.

(** X2: after [clearCache(key, true)] the key misses, in memory and in
    [localStorage], at any time; and whatever [clearCache] is asked, every
    other key reads as before. *)
Theorem getFromCache_clearCache (st : CacheState) (now : Z) (key : string) :
  (forall u : bool,
      fst (getFromCache (clearCache st key true) now key u) = JNull)
  /\ (forall (b u : bool) (other : string),
        other <> key ->
        fst (getFromCache (clearCache st key b) now other u)
        = fst (getFromCache st now other u)).
Proof.
  split.
  - intros u. apply getFromCache_absent.
    + unfold clearCache. case_match; simpl; apply lookup_delete_eq.
    + unfold clearCache. simpl. destruct (hasWindow st) eqn:Hw; simpl.
      * right. apply lookup_delete_eq.
      * left. exact Hw.
  - intros b u other Hne. apply getFromCache_fst_ext.
    + unfold clearCache. case_match; simpl; now apply lookup_delete_ne.
    + unfold clearCache. case_match; simpl;
        [now apply lookup_delete_ne | reflexivity].
    + apply hasWindow_clearCache.
Qed.

Lemma lookup_removeKeys (test : string -> bool) (l : gmap string stored)
    (k : string) :
  removeKeys test l !! k = if test k then None else l !! k.
Proof.
  unfold removeKeys. destruct (test k) eqn:E.
  - apply map_lookup_filter_None. right. intros x _. simpl. congruence.
  - destruct (l !! k) as [x |] eqn:El.
    + apply map_lookup_filter_Some. split; [assumption | exact E].
    + apply map_lookup_filter_None. now left.
Qed.

Lemma generateCacheKey_prefix (url : string)
    (params : option (list (string * json))) :
  startsWith (generateCacheKey url params) "api_cache_" = true.
Proof.
  unfold startsWith, generateCacheKey.
  generalize (url +:+ "_" +:+ btoa (paramString params)).
  generalize "api_cache_". intros p rest.
  induction p as [| c p IH]; simpl; [now destruct rest |].
  destruct (ascii_dec c c); [exact IH | contradiction].
Qed.

(** X3: [clearAllCache(true)] makes every key that starts with
    [api_cache_] miss, so every key that [generateCacheKey] produces, and it
    leaves the items of [localStorage] stored under other keys (the saved
    filters among them) as they are. *)
Theorem getFromCache_clearAllCache (st : CacheState) (now : Z) :
  (forall (k : string) (u : bool),
      startsWith k "api_cache_" = true ->
      fst (getFromCache (clearAllCache st true) now k u) = JNull)
  /\ (forall (url : string) (params : option (list (string * json))) (u : bool),
        fst (getFromCache (clearAllCache st true) now
               (generateCacheKey url params) u) = JNull)
  /\ (forall (k : string) (b : bool),
        startsWith k "api_cache_" = false ->
        localStorage (clearAllCache st b) !! k = localStorage st !! k).
Proof.
  assert (Hmiss : forall k u, startsWith k "api_cache_" = true ->
            fst (getFromCache (clearAllCache st true) now k u) = JNull).
  { intros k u Hk. apply getFromCache_absent.
    - unfold clearAllCache. case_match; simpl; apply lookup_empty.
    - unfold clearAllCache. simpl. destruct (hasWindow st) eqn:Hw; simpl.
      + right. rewrite lookup_removeKeys, Hk. reflexivity.
      + left. exact Hw. }
  split; [exact Hmiss | split].
  - intros url params u. apply Hmiss, generateCacheKey_prefix.
  - intros k b Hk. unfold clearAllCache. case_match; simpl; [| reflexivity].
    rewrite lookup_removeKeys, Hk. reflexivity.
Qed.

(** X4: [invalidateCache(pattern, true)] makes every key that the pattern
    matches miss, and whatever it is asked, a key that the pattern does not
    match reads as before. *)
Theorem getFromCache_invalidateCache (st : CacheState) (now : Z)
    (pattern : string -> bool) :
  (forall (k : string) (u : bool),
      pattern k = true ->
      fst (getFromCache (invalidateCache st pattern true) now k u) = JNull)
  /\ (forall (k : string) (b u : bool),
        pattern k = false ->
        fst (getFromCache (invalidateCache st pattern b) now k u)
        = fst (getFromCache st now k u)).
Proof.
  split.
  - intros k u Hk. apply getFromCache_absent.
    + unfold invalidateCache. case_match; simpl;
        apply map_lookup_filter_None; right; intros x _; simpl; congruence.
    + unfold invalidateCache. simpl. destruct (hasWindow st) eqn:Hw; simpl.
      * right. rewrite lookup_removeKeys, Hk. reflexivity.
      * left. exact Hw.
  - intros k b u Hk.
    assert (Hmem : filter (fun kv : string * CacheEntry => pattern (fst kv) = false)
                     (memoryCache st) !! k = memoryCache st !! k).
    { destruct (memoryCache st !! k) as [x |] eqn:E.
      - apply map_lookup_filter_Some. split; [assumption | exact Hk].
      - apply map_lookup_filter_None. now left. }
    apply getFromCache_fst_ext; unfold invalidateCache; case_match; simpl;
      try exact Hmem; try reflexivity.
    rewrite lookup_removeKeys, Hk. reflexivity.
Qed.

End CacheRemoval.

Section CacheSessions.

Import ApiCache.

(** X5: an entry written with [useLocalStorage] in a browser whose storage
    accepts it outlives the in-memory table. A later instance that reads
    with [useLocalStorage] gets the data while the entry is fresh, and from
    then on holds it in memory; once the entry has expired the read gives
    [null] and removes it from [localStorage]. A read without
    [useLocalStorage] does not see it. *)
Theorem getFromCache_across_instances
    (st : CacheState) (key : string) (t0 now : Z) (d : json)
    (options : CacheOptions) :
  hasWindow st = true ->
  storageFull st = false ->
  opt_useLocalStorage options = Some true ->
  let later := newInstance (setCache st t0 key d options) in
  let read := getFromCache later now key true in
  fst (getFromCache later now key false) = JNull
  /\ if now - t0 <? ttl_of options
     then fst read = d
          /\ fst (getFromCache (snd read) now key false) = d
     else fst read = JNull
          /\ localStorage (snd read) !! key = None.
Proof.
  intros Hw Hf Hu later read.
  set (entry := {| data := d; timestamp := t0; ttl := ttl_of options |}).
  assert (Hlater : later
            = {| memoryCache := ∅;
                 localStorage := <[key := StoredEntry entry]> (localStorage st);
                 hasWindow := true; storageFull := false;
                 requests := requests st |}).
  { subst later. unfold newInstance, setCache. fold (ttl_of options).
    rewrite Hu. simpl. rewrite Hw, Hf. simpl.
    unfold set_memoryCache. simpl. now rewrite Hw, Hf. }
  subst read. rewrite Hlater. clear Hlater later.
  unfold getFromCache, getFromStorage. simpl.
  rewrite lookup_empty. simpl. rewrite lookup_insert_eq.
  split; [reflexivity |].
  unfold isCacheValid. simpl.
  destruct (now - t0 <? ttl_of options) eqn:E; simpl.
  - split; [reflexivity |].
    rewrite lookup_insert_eq. unfold isCacheValid. simpl. now rewrite E.
  - split; [reflexivity | apply lookup_delete_eq].
Qed.

Lemma getFromCache_across_instances_witness :
  fst (getFromCache
         (newInstance
            (setCache empty_cache 0 "k" (JStr "kept")
               {| opt_ttl := Some 100; opt_useLocalStorage := Some true;
                  opt_key := None |}))
         50 "k" true)
  = JStr "kept".
Proof.
  exact (proj1 (proj2
    (getFromCache_across_instances empty_cache "k" 0 50 (JStr "kept")
       {| opt_ttl := Some 100; opt_useLocalStorage := Some true;
          opt_key := None |} eq_refl eq_refl eq_refl))).
Defined.

(** X6: a response that [cachedFetch] fetched and that is truthy is
    answered from the cache by the next call for the same URL and fetch
    options made before its time to live is over: the second call makes no
    request and changes nothing. *)
Theorem cachedFetch_caches_response
    (st : CacheState) (now later now' later' : Z) (url : string)
    (options : FetchOptions) (response : json) (net' : settled thrown json) :
  truthy (fst (getFromCache st now
                 (generateCacheKey url (Some (fetchOptions options)))
                 (default false (opt_useLocalStorage
                                   (default no_options (cache options))))))
  = false ->
  truthy response = true ->
  now' - later < ttl_of (default no_options (cache options)) ->
  let first := cachedFetch st now later url options (Resolved response) in
  fst first = Resolved response
  /\ cachedFetch (snd first) now' later' url options net'
     = (Resolved response, snd first).
Proof.
  intros Hmiss Htruthy Hfresh first.
  assert (Hfirst : first
            = (Resolved response,
               setCache
                 (log_request
                    (snd (getFromCache st now
                            (generateCacheKey url (Some (fetchOptions options)))
                            (default false
                               (opt_useLocalStorage
                                  (default no_options (cache options))))))
                    url)
                 later (generateCacheKey url (Some (fetchOptions options)))
                 response (default no_options (cache options)))).
  { subst first. unfold cachedFetch.
    destruct (getFromCache st now _ _) as [cached st1].
    simpl in Hmiss. now rewrite Hmiss. }
  rewrite Hfirst. cbn [fst snd]. split; [reflexivity |].
  apply (cachedFetch_hit _ now' later' url options net'
           {| data := response; timestamp := later;
              ttl := ttl_of (default no_options (cache options)) |}).
  - rewrite memoryCache_setCache. apply lookup_insert_eq.
  - unfold isCacheValid. simpl. lia.
  - exact Htruthy.
Qed.

Lemma cachedFetch_caches_response_witness :
  cachedFetch
    (snd (cachedFetch empty_cache 0 10 "/api/apartments" plain_fetch
            (Resolved (JStr "page 1"))))
    20 30 "/api/apartments" plain_fetch (Rejected (ErrorObject "offline"))
  = (Resolved (JStr "page 1"),
     snd (cachedFetch empty_cache 0 10 "/api/apartments" plain_fetch
            (Resolved (JStr "page 1")))).
Proof.
  refine (proj2 (cachedFetch_caches_response empty_cache 0 10 20 30
                   "/api/apartments" plain_fetch (JStr "page 1")
                   (Rejected (ErrorObject "offline")) _ _ _));
    [vm_compute; reflexivity | reflexivity | vm_compute; reflexivity].
Defined.

End CacheSessions.

Section CacheKeys.

Import ApiCache.

Lemma b64_digit_not_underscore (a5 a4 a3 a2 a1 a0 : bool) :
  Ascii.eqb "_" (b64_digit a5 a4 a3 a2 a1 a0) = false.
Proof. destruct a5, a4, a3, a2, a1, a0; reflexivity. Qed.

Lemma btoa_no_underscore_bounded (n : nat) :
  forall s : string, (String.length s <= n)%nat -> occurs "_" (btoa s) = false.
Proof.
  induction n as [n IH] using lt_wf_ind. intros s Hlen.
  destruct s as [| [a0 a1 a2 a3 a4 a5 a6 a7]
                   [| [b0 b1 b2 b3 b4 b5 b6 b7]
                      [| [c0 c1 c2 c3 c4 c5 c6 c7] rest]]];
    cbn [btoa occurs]; rewrite ?b64_digit_not_underscore; try reflexivity.
  cbn [orb]. apply (IH (String.length rest)); simpl in Hlen; lia.
Qed.

Lemma btoa_no_underscore (s : string) : occurs "_" (btoa s) = false.
Proof. apply (btoa_no_underscore_bounded (String.length s)). lia. Qed.

Lemma occurs_app (c : ascii) (s t : string) :
  occurs c (s +:+ t) = occurs c s || occurs c t.
Proof.
  induction s as [| c' s IH]; simpl; [reflexivity |].
  rewrite IH. apply orb_assoc.
Qed.

(** A string is cut in one way only at its last underscore. *)
Lemma cut_at_last_underscore (u1 u2 b1 b2 : string) :
  occurs "_" b1 = false -> occurs "_" b2 = false ->
  u1 +:+ "_" +:+ b1 = u2 +:+ "_" +:+ b2 ->
  u1 = u2 /\ b1 = b2.
Proof.
  intros H1 H2. revert u2.
  induction u1 as [| c u1 IH]; intros [| c' u2] H; simpl in H.
  - injection H as Hb. now split.
  - injection H as Hc Hb. change ("" +:+ b1) with b1 in Hb. exfalso.
    rewrite Hb, occurs_app in H1. simpl in H1.
    rewrite orb_true_r in H1. discriminate.
  - injection H as Hc Hb. change ("" +:+ b2) with b2 in Hb. exfalso.
    rewrite <- Hb, occurs_app in H2. simpl in H2.
    rewrite orb_true_r in H2. discriminate.
  - injection H as Hc Hb. destruct (IH u2 Hb) as [-> ->]. now subst.
Qed.

(** X7: cache keys do not collide: two requests get the same key only if
    they are for the same URL and their parameter records serialise to the
    same text. *)
Theorem generateCacheKey_inj
    (url1 url2 : string) (p1 p2 : option (list (string * json))) :
  generateCacheKey url1 p1 = generateCacheKey url2 p2 ->
  url1 = url2 /\ paramString p1 = paramString p2.
Proof.
  unfold generateCacheKey. intros H. apply append_cancel_l in H.
  apply cut_at_last_underscore in H; try apply btoa_no_underscore.
  destruct H as [Hurl Hb]. split; [assumption | now apply btoa_inj].
Qed.

Lemma generateCacheKey_inj_witness :
  "/api/apartments?page=2&limit=20" = "/api/apartments?page=2&limit=20"
  /\ paramString (Some []) = paramString (Some []).
Proof.
  exact (generateCacheKey_inj "/api/apartments?page=2&limit=20"
           "/api/apartments?page=2&limit=20" (Some []) (Some []) eq_refl).
Defined.

End CacheKeys.

(** ** Validity, sanitising and pagination rules *)

Section SanitiseProperties.

Import Constants.

Lemma isValid_no_codes (filters : FilterParams) (rules : FilterValidationRules) :
  isValid (validateFilterParams filters rules) = true
  <-> forall c : string, ~ In c (codes (validateFilterParams filters rules)).
Proof.
  change (isValid (validateFilterParams filters rules))
    with (length (errors (validateFilterParams filters rules)) =? 0)%nat.
  unfold codes. rewrite Nat.eqb_eq.
  destruct (errors (validateFilterParams filters rules)) as [| e l]; simpl.
  - split; [tauto | reflexivity].
  - split; [discriminate |]. intros H. exfalso. apply (H (code e)). now left.
Qed.

Lemma isValid_passes
    (filters : FilterParams) (rules : FilterValidationRules) :
  isValid (validateFilterParams filters rules) = true
  <-> passes (priceRange filters) (rules_priceRange rules)
      /\ passes (areaRange filters) (rules_areaRange rules)
      /\ passes (floors filters) (rules_floors rules)
      /\ rooms_allowed (rooms filters) (rules_rooms_available rules).
Proof.
  rewrite isValid_no_codes. unfold passes. split.
  - intros H.
    assert (Hallowed : rooms_allowed (rooms filters)
                         (rules_rooms_available rules)).
    { unfold rooms_allowed. apply List.Forall_forall. intros room Hin.
      destruct (in_dec Z.eq_dec room (rules_rooms_available rules))
        as [Hok | Hno]; [exact Hok | exfalso].
      apply (H "ROOMS_INVALID"). apply validateFilterParams_codes_spec.
      do 6 right. left. split; [reflexivity |].
      unfold rooms_allowed. rewrite List.Forall_forall. intros Hall.
      apply Hno, Hall, Hin. }
    repeat split; try exact Hallowed; intros Hbad.
    + apply (H "PRICE_MIN_INVALID"), validateFilterParams_codes_spec. tauto.
    + apply (H "PRICE_MAX_INVALID"), validateFilterParams_codes_spec. tauto.
    + apply (H "PRICE_RANGE_INVALID"), validateFilterParams_codes_spec. tauto.
    + apply (H "AREA_MIN_INVALID"), validateFilterParams_codes_spec. tauto.
    + apply (H "AREA_MAX_INVALID"), validateFilterParams_codes_spec. tauto.
    + apply (H "AREA_RANGE_INVALID"), validateFilterParams_codes_spec. tauto.
    + apply (H "FLOOR_MIN_INVALID"), validateFilterParams_codes_spec. tauto.
    + apply (H "FLOOR_MAX_INVALID"), validateFilterParams_codes_spec. tauto.
    + apply (H "FLOOR_RANGE_INVALID"), validateFilterParams_codes_spec. tauto.
  - intros H c Hc. apply validateFilterParams_codes_spec in Hc. tauto.
Qed.

(** X8: [validateFilterParams] accepts a filter set exactly when each of
    its three ranges lies within its rule, bounds included, and is in
    order, and every selected room is allowed; so a selection of no rooms
    never makes a filter set invalid. *)
Theorem validateFilterParams_isValid
    (filters : FilterParams) (rules : FilterValidationRules) :
  (isValid (validateFilterParams filters rules) = true
   <-> passes (priceRange filters) (rules_priceRange rules)
       /\ passes (areaRange filters) (rules_areaRange rules)
       /\ passes (floors filters) (rules_floors rules)
       /\ rooms_allowed (rooms filters) (rules_rooms_available rules))
  /\ (rooms filters = [] ->
      ~ In "ROOMS_INVALID" (codes (validateFilterParams filters rules))).
Proof.
  split; [apply isValid_passes |].
  intros Hempty Hin. apply validateFilterParams_codes_spec in Hin.
  rewrite Hempty in Hin.
  assert (Hok : rooms_allowed [] (rules_rooms_available rules))
    by constructor.
  intuition discriminate.
Qed.

Lemma filter_allowed (available rooms : list Z) :
  rooms_allowed rooms available ->
  List.filter (fun room => includes available room) rooms = rooms.
Proof.
  unfold rooms_allowed. induction 1 as [| room rooms Hin _ IH];
    [reflexivity |].
  simpl. apply includes_In in Hin. now rewrite Hin, IH.
Qed.

(** X9: whatever it is given, [sanitizeFilterParams] returns filters whose
    bounds and rooms the default rules accept: the only codes that
    [validateFilterParams] can still report on them are the three
    inverted-range codes. Filters that the default rules accept come back
    unchanged. *)
Theorem sanitizeFilterParams_sound (filters : PartialFilterParams) :
  (forall c : string,
      In c (codes (validateFilterParams (sanitizeFilterParams filters)
                     DEFAULT_VALIDATION_RULES)) ->
      In c ["PRICE_RANGE_INVALID"; "AREA_RANGE_INVALID"; "FLOOR_RANGE_INVALID"])
  /\ (forall f : FilterParams,
        isValid (validateFilterParams f DEFAULT_VALIDATION_RULES) = true ->
        sanitizeFilterParams (all_present f) = f).
Proof.
  split.
  - intros c Hc. apply validateFilterParams_codes_spec in Hc.
    unfold below_minimum, above_maximum, inverted, sanitizeFilterParams in Hc.
    cbn [priceRange areaRange floors rooms fst snd rules_priceRange
         rules_areaRange rules_floors rules_rooms_available rule_min rule_max
         DEFAULT_VALIDATION_RULES] in Hc.
    simpl.
    destruct Hc as [[-> H] | [[-> H] | [[-> H] | [[-> H] | [[-> H] |
      [[-> H] | [[-> H] | [[-> H] | [[-> H] | [-> H]]]]]]]]]];
      try tauto; try lia.
    exfalso. apply H. unfold rooms_allowed. apply List.Forall_forall.
    intros room Hin. apply filter_In in Hin. destruct Hin as [_ Hin].
    now apply includes_In.
  - intros f Hvalid. apply isValid_passes in Hvalid.
    destruct Hvalid as (Hp & Ha & Hf & Hr).
    unfold passes, below_minimum, above_maximum, inverted in Hp, Ha, Hf.
    destruct f as [[p0 p1] [a0 a1] rs [f0 f1]].
    cbn [priceRange areaRange floors rooms fst snd rules_priceRange
         rules_areaRange rules_floors rules_rooms_available rule_min rule_max
         DEFAULT_VALIDATION_RULES] in Hp, Ha, Hf, Hr.
    unfold sanitizeFilterParams, all_present.
    cbn [partial_priceRange partial_areaRange partial_rooms partial_floors
         lower_or upper_or default fst snd priceRange areaRange floors rooms].
    change (Datatypes.id rs) with rs.
    rewrite (filter_allowed (rules_rooms_available DEFAULT_VALIDATION_RULES) rs)
      by exact Hr.
    repeat f_equal; lia.
Qed.

Example sanitizeFilterParams_may_invert :
  codes (validateFilterParams
           (sanitizeFilterParams
              {| partial_priceRange := Some (200000000, 5);
                 partial_areaRange := None; partial_rooms := Some [2; 9];
                 partial_floors := None |})
           DEFAULT_VALIDATION_RULES)
  = ["PRICE_RANGE_INVALID"].
Proof. reflexivity. Qed.

(** X10: whatever it is given, [sanitizePaginationParams] returns
    pagination that [validatePaginationParams] accepts (page at least 1,
    limit from 1 to 100, total not negative); pagination that is already
    acceptable comes back unchanged. *)
Theorem sanitizePaginationParams_valid (pagination : PartialPaginationParams) :
  isValid (validatePaginationParams (sanitizePaginationParams pagination)) = true
  /\ (forall p : PaginationParams,
        isValid (validatePaginationParams p) = true ->
        sanitizePaginationParams (pagination_present p) = p).
Proof.
  split.
  - unfold validatePaginationParams, sanitizePaginationParams, push_if.
    cbn [page limit total].
    replace (Z.max 1 (default 1 (partial_page pagination)) <? 1)
      with false by lia.
    replace (Z.min 100 (Z.max 1 (default 20 (partial_limit pagination))) <? 1)
      with false by lia.
    replace (Z.min 100 (Z.max 1 (default 20 (partial_limit pagination))) >? 100)
      with false by lia.
    replace (Z.max 0 (default 0 (partial_total pagination)) <? 0)
      with false by lia.
    reflexivity.
  - intros [pg lm tt] H. unfold validatePaginationParams, push_if in H.
    cbn [page limit total] in H.
    destruct (pg <? 1) eqn:E1, (lm <? 1) eqn:E2, (lm >? 100) eqn:E3,
      (tt <? 0) eqn:E4; simpl in H; try discriminate H.
    unfold sanitizePaginationParams, pagination_present. simpl.
    f_equal; lia.
Qed.

End SanitiseProperties.

(** ** Invariants of the filter store *)

Section FilterStoreInvariants.

Import FilterStore.

Lemma out_of_range_false (range meta : Z * Z) :
  out_of_range range meta = false <-> within range meta.
Proof. unfold out_of_range, within. lia. Qed.

Lemma hasActiveFilters_set_error (s : FilterState) (e : option string) :
  hasActiveFilters (set_error s e) = hasActiveFilters s.
Proof. reflexivity. Qed.



Lemma validatePriceRange_cases (s : FilterState) (m : FilterMetadata)
    (range : Z * Z) :
  metadata s = Some m ->
  verdict (validatePriceRange s range) s (within range (meta_priceRange m)).
Proof.
  intros Hm. unfold verdict, validatePriceRange. rewrite Hm.
  destruct (meta_priceRange m) as [lo hi].
  destruct (out_of_range range (lo, hi)) eqn:E.
  - right. eexists. split; [reflexivity |].
    intros Hw. apply out_of_range_false in Hw. congruence.
  - left. split; [reflexivity | now apply out_of_range_false].
Qed.

Lemma validateAreaRange_cases (s : FilterState) (m : FilterMetadata)
    (range : Z * Z) :
  metadata s = Some m ->
  verdict (validateAreaRange s range) s (within range (meta_areaRange m)).
Proof.
  intros Hm. unfold verdict, validateAreaRange. rewrite Hm.
  destruct (meta_areaRange m) as [lo hi].
  destruct (out_of_range range (lo, hi)) eqn:E.
  - right. eexists. split; [reflexivity |].
    intros Hw. apply out_of_range_false in Hw. congruence.
  - left. split; [reflexivity | now apply out_of_range_false].
Qed.

Lemma validateFloorsRange_cases (s : FilterState) (m : FilterMetadata)
    (range : Z * Z) :
  metadata s = Some m ->
  verdict (validateFloorsRange s range) s (within range (floorsRange m)).
Proof.
  intros Hm. unfold verdict, validateFloorsRange. rewrite Hm.
  destruct (floorsRange m) as [lo hi].
  destruct (out_of_range range (lo, hi)) eqn:E.
  - right. eexists. split; [reflexivity |].
    intros Hw. apply out_of_range_false in Hw. congruence.
  - left. split; [reflexivity | now apply out_of_range_false].
Qed.

Lemma validateRooms_cases (s : FilterState) (m : FilterMetadata)
    (rooms : list Z) :
  metadata s = Some m ->
  verdict (validateRooms s rooms) s
    (Constants.rooms_allowed rooms (roomsAvailable m)).
Proof.
  intros Hm. unfold verdict, validateRooms. rewrite Hm.
  pose proof (invalid_rooms_nonempty rooms (roomsAvailable m)) as Hrooms.
  destruct (0 <? length _)%nat.
  - right. eexists. split; [reflexivity | now apply Hrooms].
  - left. split; [reflexivity |].
    unfold Constants.rooms_allowed.
    destruct (List.Forall_dec (fun room => In room (roomsAvailable m))
                (fun room => in_dec Z.eq_dec room (roomsAvailable m)) rooms)
      as [Hok | Hno]; [exact Hok |].
    apply Hrooms in Hno. discriminate.
Qed.





Lemma range_differs_same (r : Z * Z) : range_differs r r = false.
Proof. unfold range_differs. now rewrite !Z.eqb_refl. Qed.

Lemma hasActiveFilters_defaults (s : FilterState) (m : FilterMetadata) :
  metadata s = Some m -> filters s = defaults_of m ->
  hasActiveFilters s = false.
Proof.
  intros Hm Hf. unfold hasActiveFilters. rewrite Hm, Hf. simpl.
  now rewrite !range_differs_same.
Qed.

Lemma state_clearFilters (w : World) : state (clearFilters w) = state w.
Proof. unfold clearFilters. case_match; reflexivity. Qed.

Lemma within_self (r : Z * Z) : fst r <= snd r -> within r r.
Proof. unfold within. lia. Qed.

Lemma acceptable_defaults (m : FilterMetadata) :
  well_formed m -> acceptable (defaults_of m) m.
Proof.
  intros (Hp & Ha & Hf). unfold acceptable, defaults_of. simpl.
  repeat split; try (apply within_self; assumption); try lia.
  constructor.
Qed.



Lemma initialised_coherent : coherent (state initialised).
Proof.
  exists catalogue. split; [reflexivity | split; [| reflexivity]].
  apply acceptable_defaults. unfold well_formed. simpl. lia.
Qed.

Lemma validateSavedRange_within (sv : option json) (meta : Z * Z) :
  fst meta <= snd meta -> within (validateSavedRange sv meta) meta.
Proof.
  intros Hord. unfold validateSavedRange.
  destruct sv as [[| | | | [| [| | a | | |] [| [| | b | | |] [|]]] |] |];
    try (now apply within_self).
  destruct (a >=? fst meta) eqn:E1, (b <=? snd meta) eqn:E2,
    (a <=? b) eqn:E3; simpl; try (now apply within_self).
  unfold within. simpl. lia.
Qed.

Lemma validateSavedFilters_acceptable (sv : PartialFilters)
    (m : FilterMetadata) :
  well_formed m -> acceptable (validateSavedFilters sv m) m.
Proof.
  intros (Hp & Ha & Hf). unfold acceptable, validateSavedFilters. simpl.
  repeat split; try (apply validateSavedRange_within; assumption).
  unfold Constants.rooms_allowed.
  destruct (saved_rooms sv) as [[| | | | items |] |]; try constructor.
  rewrite validRooms_spec. apply List.Forall_forall.
  intros room Hin. apply filter_In in Hin. now apply includes_In.
Qed.

(** X12: whatever the URL or [localStorage] held, and whatever state the
    store was in, [applyUrlFilters] and [initializeFilters] leave a
    coherent store, provided the ranges of the metadata are in order. *)
Theorem external_filters_give_coherent_store
    (m : FilterMetadata) (w : World) :
  well_formed m ->
  (forall urlFilters : PartialFilters,
      metadata (state w) = Some m ->
      coherent (state (applyUrlFilters w urlFilters)))
  /\ (forall (fallbacks : Fallbacks) (now : Z),
        coherent (state (initializeFilters fallbacks w now m))).
Proof.
  intros Hwf. split.
  - intros urlFilters Hm. unfold applyUrlFilters. rewrite Hm.
    exists m. simpl. split; [exact Hm | split; [| reflexivity]].
    now apply validateSavedFilters_acceptable.
  - intros fallbacks now. unfold initializeFilters.
    destruct (loadFilters fallbacks _ now) as [savedFilters w1] eqn:Hload.
    assert (Hm1 : metadata (state w1) = Some m).
    { unfold loadFilters in Hload.
      repeat case_match; injection Hload as _ <-; reflexivity. }
    exists m. destruct savedFilters as [sf |]; simpl;
      (split; [exact Hm1 | split; [| reflexivity]]).
    + now apply validateSavedFilters_acceptable.
    + now apply acceptable_defaults.
Qed.

Lemma external_filters_give_coherent_store_witness :
  coherent (state (initializeFilters example_fallbacks uninitialised 1000
                     catalogue)).
Proof.
  refine (proj2 (external_filters_give_coherent_store catalogue uninitialised _)
            example_fallbacks 1000).
  unfold well_formed. simpl. lia.
Defined.

(** X13: [toggleRoom] keeps a coherent store coherent when the room it is
    given is one of [roomsAvailable]. *)
Theorem toggleRoom_available_coherent (w : World) (now n : Z) (m : FilterMetadata) :
  coherent (state w) ->
  metadata (state w) = Some m ->
  In n (roomsAvailable m) ->
  coherent (state (toggleRoom w now n)).
Proof.
  intros (m' & Hm' & (Hp & Ha & Hf & Hr) & Hact) Hm Hin.
  assert (m' = m) by congruence. subst m'.
  pose proof (toggleRoom_rooms w now n) as (_ & Hadd & Hdel).
  cbv zeta in Hadd, Hdel.
  assert (Hrooms : Constants.rooms_allowed
                     (rooms (filters (state (toggleRoom w now n))))
                     (roomsAvailable m)).
  { unfold Constants.rooms_allowed in *. rewrite List.Forall_forall in *.
    intros room Hroom.
    destruct (classic_in (rooms (filters (state w))) n) as [Hold | Hnew].
    - apply Hr. apply (Permutation_in room (Hdel Hold)). now right.
    - apply (Permutation_in room (Hadd Hnew)) in Hroom.
      destruct Hroom as [<- | Hroom]; [exact Hin | now apply Hr]. }
  revert Hrooms. unfold toggleRoom. rewrite state_saveFiltersToStorage.
  intros Hrooms. exists m. simpl in *. repeat split; try assumption;
    try apply Hp; try apply Ha; try apply Hf.
Qed.

Lemma toggleRoom_available_coherent_witness :
  coherent (state (toggleRoom initialised 1000 2)).
Proof.
  refine (toggleRoom_available_coherent initialised 1000 2 catalogue
            initialised_coherent eq_refl _).
  simpl. tauto.
Defined.

(** X14: the store's own validation and [validateFilterParams] under the
    rules that the getter [validationRules] derives from the metadata give
    the same verdict on the store's filters. *)
Theorem validators_agree (s : FilterState) (rules : FilterValidationRules) :
  validationRules s = Some rules ->
  isValid (fst (validateAllFilters s))
  = isValid (Constants.validateFilterParams (filters s) rules).
Proof.
  unfold validationRules. destruct (metadata s) as [m |] eqn:Hm;
    [| discriminate].
  intros [= <-].
  pose proof (validateAllFilters_codes s m) as Hstore.
  pose proof (isValid_passes (filters s)
    {| rules_priceRange :=
         {| rule_min := fst (meta_priceRange m);
            rule_max := snd (meta_priceRange m) |};
       rules_areaRange :=
         {| rule_min := fst (meta_areaRange m);
            rule_max := snd (meta_areaRange m) |};
       rules_rooms_available := roomsAvailable m;
       rules_floors :=
         {| rule_min := fst (floorsRange m);
            rule_max := snd (floorsRange m) |} |}) as Hrules.
  set (r := Constants.validateFilterParams _ _) in *.
  assert (Hlen : isValid (fst (validateAllFilters s)) = true
                 <-> forall c, ~ In c (Constants.codes (fst (validateAllFilters s)))).
  { assert (Hv : isValid (fst (validateAllFilters s))
                 = (length (errors (fst (validateAllFilters s))) =? 0)%nat).
    { unfold validateAllFilters.
      destruct (validatePriceRange s _) as [ok1 s1].
      destruct (validateAreaRange s1 _) as [ok2 s2].
      destruct (validateRooms s2 _) as [ok3 s3].
      destruct (validateFloorsRange s3 _) as [ok4 s4].
      reflexivity. }
    rewrite Hv, Nat.eqb_eq. unfold Constants.codes.
    destruct (errors (fst (validateAllFilters s))) as [| e l]; simpl.
    - split; [tauto | reflexivity].
    - split; [discriminate |]. intros H. exfalso. apply (H (code e)).
      now left. }
  assert (Hiff : isValid (fst (validateAllFilters s)) = true
                 <-> isValid r = true).
  { rewrite Hlen, Hrules.
    unfold Constants.passes, Constants.below_minimum,
      Constants.above_maximum, Constants.inverted. simpl.
    split.
    - intros H.
      assert (Hp : out_of_range (priceRange (filters s)) (meta_priceRange m)
                   = false).
      { destruct (out_of_range (priceRange (filters s)) (meta_priceRange m))
          eqn:E; [| reflexivity].
        exfalso. apply (H "INVALID_PRICE_RANGE"), (Hstore _ Hm). tauto. }
      assert (Ha : out_of_range (areaRange (filters s)) (meta_areaRange m)
                   = false).
      { destruct (out_of_range (areaRange (filters s)) (meta_areaRange m))
          eqn:E; [| reflexivity].
        exfalso. apply (H "INVALID_AREA_RANGE"), (Hstore _ Hm). tauto. }
      assert (Hf : out_of_range (floors (filters s)) (floorsRange m) = false).
      { destruct (out_of_range (floors (filters s)) (floorsRange m))
          eqn:E; [| reflexivity].
        exfalso. apply (H "INVALID_FLOORS_RANGE"), (Hstore _ Hm). tauto. }
      apply out_of_range_false in Hp, Ha, Hf. unfold within in *.
      repeat split; try lia.
      destruct (List.Forall_dec (fun room => In room (roomsAvailable m))
                  (fun room => in_dec Z.eq_dec room (roomsAvailable m))
                  (rooms (filters s))) as [Hok | Hno]; [exact Hok |].
      exfalso. apply (H "INVALID_ROOMS"), (Hstore _ Hm). tauto.
    - intros (Hp & Ha & Hf & Hr) c Hc. apply (Hstore _ Hm) in Hc.
      assert (Hp' : out_of_range (priceRange (filters s)) (meta_priceRange m)
                    = false) by (apply out_of_range_false; unfold within; lia).
      assert (Ha' : out_of_range (areaRange (filters s)) (meta_areaRange m)
                    = false) by (apply out_of_range_false; unfold within; lia).
      assert (Hf' : out_of_range (floors (filters s)) (floorsRange m)
                    = false) by (apply out_of_range_false; unfold within; lia).
      rewrite Hp', Ha', Hf' in Hc. intuition discriminate. }
  destruct (isValid (fst (validateAllFilters s))), (isValid r);
    intuition congruence.
Qed.

Lemma validators_agree_witness :
  isValid (fst (validateAllFilters (state initialised)))
  = isValid (Constants.validateFilterParams (filters (state initialised))
               Constants.DEFAULT_VALIDATION_RULES).
Proof.
  exact (validators_agree (state initialised)
           Constants.DEFAULT_VALIDATION_RULES eq_refl).
Defined.

(** X15: [resetFilters] is idempotent. On a store with metadata it restores
    the metadata ranges and an empty room selection, for which the getter
    [hasActiveFilters] is false, clears [error] and, in the browser,
    removes the saved filters; without metadata it does nothing. *)
Theorem resetFilters_idempotent (w : World) :
  resetFilters (resetFilters w) = resetFilters w
  /\ (forall m : FilterMetadata,
        metadata (state w) = Some m ->
        filters (state (resetFilters w)) = defaults_of m
        /\ hasActiveFilters (state (resetFilters w)) = false
        /\ isActive (state (resetFilters w)) = false
        /\ error (state (resetFilters w)) = None
        /\ (client w = true -> saved (resetFilters w) = None))
  /\ (metadata (state w) = None -> resetFilters w = w).
Proof.
  split; [| split].
  - destruct w as [s c full sv]. unfold resetFilters. simpl.
    destruct (metadata s) as [m |] eqn:Hm.
    + destruct c; unfold clearFilters; simpl; rewrite Hm; reflexivity.
    + simpl. now rewrite Hm.
  - intros m Hm. unfold resetFilters. rewrite Hm, state_clearFilters. simpl.
    repeat split.
    + apply (hasActiveFilters_defaults _ m); [exact Hm | reflexivity].
    + intros Hc. unfold clearFilters. simpl. now rewrite Hc.
  - intros Hm. unfold resetFilters. now rewrite Hm.
Qed.

(** X16: the two getters agree: [hasActiveFilters] holds exactly when
    [activeFiltersCount] is not zero, and the count is at most four. *)
Theorem hasActiveFilters_count (s : FilterState) :
  hasActiveFilters s = (0 <? activeFiltersCount s)%nat
  /\ (activeFiltersCount s <= 4)%nat.
Proof.
  unfold hasActiveFilters, activeFiltersCount.
  destruct (metadata s) as [m |]; [| split; [reflexivity | lia]].
  destruct (range_differs (priceRange (filters s)) (meta_priceRange m)),
    (range_differs (areaRange (filters s)) (meta_areaRange m)),
    (0 <? length (rooms (filters s)))%nat,
    (range_differs (floors (filters s)) (floorsRange m));
    split; simpl; try reflexivity; lia.
Qed.

Lemma validateSavedRange_adopts (range meta : Z * Z) :
  within range meta ->
  validateSavedRange (Some (JArr [JNum (fst range); JNum (snd range)])) meta
  = range.
Proof.
  unfold within, validateSavedRange. intros H.
  replace (fst range >=? fst meta) with true by lia.
  replace (snd range <=? snd meta) with true by lia.
  replace (fst range <=? snd range) with true by lia.
  now destruct range.
Qed.

Lemma validRooms_allowed (available rooms : list Z) :
  Constants.rooms_allowed rooms available ->
  validRooms available (map JNum rooms) = rooms.
Proof.
  unfold Constants.rooms_allowed. induction 1 as [| room rooms Hin _ IH];
    [reflexivity |].
  simpl. apply includes_In in Hin. now rewrite Hin, IH.
Qed.

(** X17: filters saved by the store are restored by [initializeFilters] in
    a later session, whatever state the new store starts in, provided the
    metadata still accepts them and they are not older than seven days (a
    timestamp of 0 never counts as old). Older filters are dropped: the
    store starts from the metadata defaults and the saved item is
    removed. *)
Theorem saved_filters_restored
    (fallbacks : Fallbacks) (w w0 : World) (t0 now : Z) (m : FilterMetadata) :
  client w = true ->
  storageFull w = false ->
  acceptable (filters (state w)) m ->
  client w0 = true ->
  saved w0 = saved (saveFiltersToStorage w t0) ->
  let w' := initializeFilters fallbacks w0 now m in
  if negb (t0 =? 0) && (now - t0 >? maxAge)
  then filters (state w') = defaults_of m /\ saved w' = None
  else filters (state w') = filters (state w) /\ saved w' = saved w0.
Proof.
  intros Hc Hfull (Hp & Ha & Hf & Hr) Hc0 Hsaved w'. subst w'.
  unfold saveFiltersToStorage in Hsaved. rewrite Hc, Hfull in Hsaved.
  cbn [negb saved] in Hsaved.
  unfold initializeFilters, loadFilters.
  cbn [client saved set_state]. rewrite Hc0. cbn [negb]. rewrite Hsaved.
  unfold tooOld. cbn [get_prop lookup_prop String.eqb Ascii.eqb Bool.eqb
    truthy toNumber].
  destruct (negb (t0 =? 0) && (now - t0 >? maxAge)) eqn:Hold.
  - split; reflexivity.
  - cbn [state set_state set_filters set_isActive set_error filters saved
         prop_or truthy].
    split; [| now rewrite Hsaved].
    unfold validateSavedFilters.
    cbn [saved_priceRange saved_areaRange saved_rooms saved_floors].
    rewrite !validateSavedRange_adopts by assumption.
    rewrite (validRooms_allowed _ _ Hr).
    now destruct (filters (state w)).
Qed.

Lemma saved_filters_restored_witness :
  filters (state (initializeFilters example_fallbacks next_session 3000
                    catalogue))
  = filters (state narrowed_store).
Proof.
  refine (proj1 (saved_filters_restored example_fallbacks narrowed_store
                   next_session 2000 3000 catalogue
                   eq_refl eq_refl _ eq_refl eq_refl)).
  unfold acceptable, within, Constants.rooms_allowed. simpl.
  repeat split; try lia. constructor.
Defined.

End FilterStoreInvariants.

(** ** The URL and the store *)

Section UrlAndStore.

Import UrlFilters.

Lemma parseRange_ordered (query : gmap string qvalue) (kmin kmax : string)
    (r : Z * Z) :
  parseRange query kmin kmax = Some r -> ordered r.
Proof.
  unfold parseRange, ordered. intros H.
  repeat case_match; try discriminate. injection H as <-. simpl. lia.
Qed.

Lemma parseRange_present (query : gmap string qvalue) (kmin kmax : string)
    (r : Z * Z) :
  parseRange query kmin kmax = Some r -> is_Some (query !! kmin).
Proof.
  unfold parseRange. intros H. destruct (query !! kmin); [eauto | discriminate].
Qed.

Lemma positiveNumbers_positive (items : list (option string)) :
  Forall (fun r => 0 < r) (positiveNumbers items).
Proof.
  induction items as [| x items IH]; simpl; [constructor |].
  destruct (Number_item x) as [r |]; [| exact IH].
  destruct (r >? 0) eqn:E; [| exact IH]. constructor; [lia | exact IH].
Qed.

Lemma parseRooms_shape (query : gmap string qvalue) (rs : list Z) :
  parseRooms query = Some rs ->
  rs <> [] /\ Sorted Z.le rs /\ Forall (fun r => 0 < r) rs
  /\ is_Some (query !! "rooms").
Proof.
  unfold parseRooms. intros H.
  destruct (query !! "rooms") as [v |]; [| discriminate].
  destruct (q_truthy v); [| discriminate].
  destruct (0 <? length _)%nat eqn:E; [| discriminate].
  injection H as <-. split; [| split; [| split]].
  - intros Hnil. rewrite Hnil in E. discriminate.
  - unfold sort_ascending. apply Sorted_merge_sort. apply _.
  - unfold sort_ascending.
    eapply Permutation_Forall;
      [symmetry; apply merge_sort_Permutation | apply positiveNumbers_positive].
  - eauto.
Qed.

Lemma hasUrlFilters_present (query : gmap string qvalue) (param : string) :
  In param filterParams -> is_Some (query !! param) ->
  hasUrlFilters query = true.
Proof.
  intros Hin Hsome. unfold hasUrlFilters. apply existsb_exists.
  exists param. split; [exact Hin | now apply bool_decide_eq_true].
Qed.

Lemma numbers_parseRange_ordered (num : Type) (Number : string -> option num)
    (zero : num) (leb : num -> num -> bool)
    (query : gmap string qvalue) (kmin kmax : string) (r : num * num) :
  UrlNumbers.parseRange num Number zero leb query kmin kmax = Some r ->
  leb (fst r) (snd r) = true /\ is_Some (query !! kmin).
Proof.
  unfold UrlNumbers.parseRange. intros H.
  destruct (query !! kmin) as [vmin |]; [| discriminate].
  destruct (query !! kmax) as [vmax |]; [| discriminate].
  destruct (q_truthy vmin && q_truthy vmax); [| discriminate].
  destruct (UrlNumbers.Number_q num Number zero vmin) as [min |];
    [| discriminate].
  destruct (UrlNumbers.Number_q num Number zero vmax) as [max |];
    [| discriminate].
  destruct (leb min max) eqn:Hle; [| discriminate].
  injection H as <-. split; [exact Hle | eauto].
Qed.

Lemma numbers_positiveNumbers_positive (num : Type)
    (Number : string -> option num) (zero : num) (ltb : num -> num -> bool)
    (items : list (option string)) :
  Forall (fun r => ltb zero r = true)
    (UrlNumbers.positiveNumbers num Number zero ltb items).
Proof.
  induction items as [| x items IH]; simpl; [constructor |].
  destruct (UrlNumbers.Number_item num Number zero x) as [r |]; [| exact IH].
  destruct (ltb zero r) eqn:E; [| exact IH]. constructor; [exact E | exact IH].
Qed.

Lemma numbers_parseRooms_shape (num : Type) (Number : string -> option num)
    (zero : num) (leb ltb : num -> num -> bool)
    (query : gmap string qvalue) (rs : list num) :
  (forall a b : num, leb a b = true \/ leb b a = true) ->
  UrlNumbers.parseRooms num Number zero leb ltb query = Some rs ->
  rs <> []
  /\ Sorted (fun a b => leb a b = true) rs
  /\ Forall (fun r => ltb zero r = true) rs
  /\ is_Some (query !! "rooms").
Proof.
  intros Htotal. unfold UrlNumbers.parseRooms. intros H.
  destruct (query !! "rooms") as [v |]; [| discriminate].
  destruct (q_truthy v); [| discriminate].
  destruct (0 <? length _)%nat eqn:E; [| discriminate].
  injection H as <-. split; [| split; [| split]].
  - intros Hnil. rewrite Hnil in E. discriminate.
  - unfold UrlNumbers.sort_ascending. apply Sorted_merge_sort.
    intros a b. apply Htotal.
  - unfold UrlNumbers.sort_ascending.
    eapply Permutation_Forall;
      [symmetry; apply merge_sort_Permutation
      | apply numbers_positiveNumbers_positive].
  - eauto.
Qed.

(** At the integers the reading over every number is the reading of
    [UrlFilters]. *)
Lemma numbers_sort_ascending_integers (l : list Z) :
  UrlNumbers.sort_ascending Z Z.leb l = sort_ascending l.
Proof.
  unfold UrlNumbers.sort_ascending, sort_ascending.
  apply (Sorted_unique Z.le).
  - eapply Sorted.Sorted_ind with (P := Sorted Z.le);
      [constructor | | apply Sorted_merge_sort; intros a b;
                       rewrite !Z.leb_le; lia].
    intros a l' _ IH Hhd. constructor; [exact IH |].
    destruct Hhd as [| b l'' Hab]; constructor. now apply Z.leb_le.
  - apply Sorted_merge_sort. apply _.
  - now rewrite !merge_sort_Permutation.
Qed.

Lemma numbers_positiveNumbers_integers (items : list (option string)) :
  UrlNumbers.positiveNumbers Z Number 0 Z.ltb items = positiveNumbers items.
Proof.
  induction items as [| x items IH]; [reflexivity |].
  cbn [UrlNumbers.positiveNumbers positiveNumbers]. rewrite IH.
  change (UrlNumbers.Number_item Z Number 0 x) with (Number_item x).
  destruct (Number_item x) as [r |]; [| reflexivity].
  now rewrite Z.gtb_ltb.
Qed.

Lemma numbers_parseFiltersFromUrl_integers (query : gmap string qvalue) :
  UrlNumbers.parseFiltersFromUrl Z Number 0 Z.leb Z.ltb query
  = UrlNumbers.integers <$> parseFiltersFromUrl query.
Proof.
  unfold UrlNumbers.parseFiltersFromUrl, parseFiltersFromUrl.
  case_bool_decide; [reflexivity |].
  assert (Hrooms : UrlNumbers.parseRooms Z Number 0 Z.leb Z.ltb query
                   = parseRooms query).
  { unfold UrlNumbers.parseRooms, parseRooms.
    destruct (query !! "rooms") as [v |]; [| reflexivity].
    destruct (q_truthy v); [| reflexivity].
    now rewrite numbers_positiveNumbers_integers,
      numbers_sort_ascending_integers. }
  rewrite Hrooms.
  change (UrlNumbers.parseRange Z Number 0 Z.leb query "priceMin" "priceMax")
    with (parseRange query "priceMin" "priceMax").
  change (UrlNumbers.parseRange Z Number 0 Z.leb query "areaMin" "areaMax")
    with (parseRange query "areaMin" "areaMax").
  change (UrlNumbers.parseRange Z Number 0 Z.leb query "floorMin" "floorMax")
    with (parseRange query "floorMin" "floorMax").
  destruct (parseRange query "priceMin" "priceMax"),
    (parseRange query "areaMin" "areaMax"), (parseRooms query),
    (parseRange query "floorMin" "floorMax"); reflexivity.
Qed.

(** X18: whatever the query holds and however the engine reads a string
    as a number, with an order [<=] on the numbers that is total, the
    filters that [parseFiltersFromUrl] returns are never empty; their
    ranges are in order; their rooms, if any, are a non-empty ascending
    list of numbers above zero; and [hasUrlFilters] holds of the query. *)
Theorem parseFiltersFromUrl_shape
    (num : Type) (Number : string -> option num) (zero : num)
    (leb ltb : num -> num -> bool)
    (query : gmap string qvalue) (p : UrlNumbers.UrlFilterParams num) :
  (forall a b : num, leb a b = true \/ leb b a = true) ->
  UrlNumbers.parseFiltersFromUrl num Number zero leb ltb query = Some p ->
  UrlNumbers.nothing p = false
  /\ (forall r, UrlNumbers.url_priceRange p = Some r ->
        leb (fst r) (snd r) = true)
  /\ (forall r, UrlNumbers.url_areaRange p = Some r ->
        leb (fst r) (snd r) = true)
  /\ (forall r, UrlNumbers.url_floors p = Some r ->
        leb (fst r) (snd r) = true)
  /\ (forall rs, UrlNumbers.url_rooms p = Some rs ->
        rs <> []
        /\ Sorted (fun a b => leb a b = true) rs
        /\ Forall (fun r => ltb zero r = true) rs)
  /\ hasUrlFilters query = true.
Proof.
  intros Htotal.
  unfold UrlNumbers.parseFiltersFromUrl.
  case_bool_decide as Hempty; [discriminate |].
  intros H.
  destruct (UrlNumbers.parseRange num Number zero leb query
              "priceMin" "priceMax") as [pr |] eqn:Ep,
    (UrlNumbers.parseRange num Number zero leb query
       "areaMin" "areaMax") as [ar |] eqn:Ea,
    (UrlNumbers.parseRooms num Number zero leb ltb query) as [rs |] eqn:Er,
    (UrlNumbers.parseRange num Number zero leb query
       "floorMin" "floorMax") as [fr |] eqn:Ef;
    try discriminate; injection H as <-;
    cbn [UrlNumbers.nothing UrlNumbers.url_priceRange
         UrlNumbers.url_areaRange UrlNumbers.url_rooms
         UrlNumbers.url_floors];
    (split; [reflexivity |]);
    (split; [intros r [= <-];
             eapply numbers_parseRange_ordered; eassumption |]);
    (split; [intros r [= <-];
             eapply numbers_parseRange_ordered; eassumption |]);
    (split; [intros r [= <-];
             eapply numbers_parseRange_ordered; eassumption |]);
    (split; [intros rs' [= <-];
             apply (numbers_parseRooms_shape _ _ _ _ _ _ _ Htotal) in Er;
             tauto |]).
  all: first
    [ apply (hasUrlFilters_present query "priceMin");
      [unfold filterParams; simpl; tauto
      | eapply numbers_parseRange_ordered; eassumption]
    | apply (hasUrlFilters_present query "areaMin");
      [unfold filterParams; simpl; tauto
      | eapply numbers_parseRange_ordered; eassumption]
    | apply (hasUrlFilters_present query "floorMin");
      [unfold filterParams; simpl; tauto
      | eapply numbers_parseRange_ordered; eassumption]
    | apply (hasUrlFilters_present query "rooms");
      [unfold filterParams; simpl; tauto
      | apply (numbers_parseRooms_shape _ _ _ _ _ _ _ Htotal) in Er;
        tauto] ].
Qed.

(** The query [priceMin=1e3&priceMax=2000], read by a conversion that
    knows the exponent. *)
Lemma parseFiltersFromUrl_shape_witness :
  UrlNumbers.parseFiltersFromUrl Z UrlNumbers.with_exponent 0 Z.leb Z.ltb
    UrlNumbers.exponent_query
  = Some {| UrlNumbers.url_priceRange := Some (1000, 2000);
            UrlNumbers.url_areaRange := None;
            UrlNumbers.url_rooms := None;
            UrlNumbers.url_floors := None |}
  /\ hasUrlFilters UrlNumbers.exponent_query = true.
Proof.
  assert (Hparse :
    UrlNumbers.parseFiltersFromUrl Z UrlNumbers.with_exponent 0 Z.leb Z.ltb
      UrlNumbers.exponent_query
    = Some {| UrlNumbers.url_priceRange := Some (1000, 2000);
              UrlNumbers.url_areaRange := None;
              UrlNumbers.url_rooms := None;
              UrlNumbers.url_floors := None |}) by (vm_compute; reflexivity).
  assert (Htotal : forall a b : Z, Z.leb a b = true \/ Z.leb b a = true)
    by (intros a b; rewrite !Z.leb_le; lia).
  split; [exact Hparse |].
  exact (proj2 (proj2 (proj2 (proj2 (proj2
    (parseFiltersFromUrl_shape Z UrlNumbers.with_exponent 0 Z.leb Z.ltb
       UrlNumbers.exponent_query _ Htotal Hparse)))))).
Defined.

Lemma lookup_written (filters defaults : FilterParams) (param : string) :
  is_Some (updateUrlWithFilters filters defaults !! param) ->
  FilterStore.range_differs (priceRange filters) (priceRange defaults) = true
  \/ FilterStore.range_differs (areaRange filters) (areaRange defaults) = true
  \/ (0 <? length (rooms filters))%nat = true
  \/ FilterStore.range_differs (floors filters) (floors defaults) = true.
Proof.
  unfold updateUrlWithFilters.
  destruct (FilterStore.range_differs (priceRange filters) _); [tauto |].
  destruct (FilterStore.range_differs (areaRange filters) _); [tauto |].
  destruct (0 <? length (rooms filters))%nat; [tauto |].
  destruct (FilterStore.range_differs (floors filters) _); [tauto |].
  rewrite lookup_empty. intros [x Hx]. discriminate.
Qed.

(** X19: the query that the page writes for the store's filters, with the
    metadata defaults as defaults, holds a filter parameter exactly when
    the store's getter [hasActiveFilters] is true. *)
Theorem hasUrlFilters_iff_active (s : FilterStore.FilterState)
    (m : FilterMetadata) :
  FilterStore.metadata s = Some m ->
  hasUrlFilters
    (updateUrlWithFilters (FilterStore.filters s) (FilterStore.defaults_of m))
  = FilterStore.hasActiveFilters s.
Proof.
  intros Hm. unfold FilterStore.hasActiveFilters. rewrite Hm.
  set (f := FilterStore.filters s).
  destruct (hasUrlFilters _) eqn:Hurl.
  - unfold hasUrlFilters in Hurl. apply existsb_exists in Hurl.
    destruct Hurl as (param & _ & Hsome).
    apply bool_decide_eq_true in Hsome. apply lookup_written in Hsome.
    simpl in Hsome. symmetry.
    destruct Hsome as [-> | [-> | [-> | ->]]];
      rewrite ?orb_true_r; reflexivity.
  - symmetry. apply not_true_is_false. intros Hactive.
    apply not_true_iff_false in Hurl. apply Hurl.
    apply orb_true_iff in Hactive. destruct Hactive as [Hactive | Hfl].
    + apply orb_true_iff in Hactive. destruct Hactive as [Hactive | Hrooms].
      * apply orb_true_iff in Hactive. destruct Hactive as [Hpr | Har].
        -- apply (hasUrlFilters_present _ "priceMin");
             [simpl; tauto |].
           unfold updateUrlWithFilters. simpl. fold f. rewrite Hpr.
           repeat case_match; simplify_map_eq; eauto.
        -- apply (hasUrlFilters_present _ "areaMin");
             [simpl; tauto |].
           unfold updateUrlWithFilters. simpl. fold f. rewrite Har.
           repeat case_match; simplify_map_eq; eauto.
      * apply (hasUrlFilters_present _ "rooms"); [simpl; tauto |].
        unfold updateUrlWithFilters. fold f. rewrite Hrooms.
        repeat case_match; simplify_map_eq; eauto.
    + apply (hasUrlFilters_present _ "floorMin"); [simpl; tauto |].
      unfold updateUrlWithFilters. simpl. fold f. rewrite Hfl.
      repeat case_match; simplify_map_eq; eauto.
Qed.

Lemma hasUrlFilters_iff_active_witness :
  hasUrlFilters
    (updateUrlWithFilters (FilterStore.filters (FilterStore.state FilterStore.narrowed_store))
       (FilterStore.defaults_of FilterStore.catalogue))
  = FilterStore.hasActiveFilters (FilterStore.state FilterStore.narrowed_store).
Proof.
  exact (hasUrlFilters_iff_active (FilterStore.state FilterStore.narrowed_store)
           FilterStore.catalogue eq_refl).
Defined.

Lemma parseFiltersFromUrl_written (filters defaults : FilterParams) :
  ordered (priceRange filters) ->
  ordered (areaRange filters) ->
  ordered (floors filters) ->
  parseFiltersFromUrl (updateUrlWithFilters filters defaults)
  = if nothing (recovered filters defaults) then None
    else Some (recovered filters defaults).
Proof.
  intros Hp Ha Hf.
  pose proof (parseRange_price filters defaults Hp) as Eprice.
  pose proof (parseRange_area filters defaults Ha) as Earea.
  pose proof (parseRange_floors filters defaults Hf) as Efloors.
  pose proof (parseRooms_written filters defaults) as Erooms.
  unfold parseFiltersFromUrl, recovered.
  case_bool_decide as Hempty.
  - rewrite Hempty in Eprice, Earea, Efloors, Erooms.
    rewrite parseRange_empty in Eprice, Earea, Efloors.
    unfold parseRooms in Erooms. rewrite lookup_empty in Erooms.
    rewrite <- Eprice, <- Earea, <- Efloors, <- Erooms. reflexivity.
  - rewrite Eprice, Earea, Efloors, Erooms.
    destruct (changed (priceRange filters) (priceRange defaults)),
      (changed (areaRange filters) (areaRange defaults)),
      (positive_ascending (rooms filters)),
      (changed (floors filters) (floors defaults)); reflexivity.
Qed.

Lemma range_differs_false (a b : Z * Z) :
  FilterStore.range_differs a b = false -> a = b.
Proof.
  unfold FilterStore.range_differs. destruct a, b. simpl. intros H.
  f_equal; lia.
Qed.

(** What [validateSavedFilters] makes of a range that came back from the
    URL, or did not because it was the default. *)
Lemma restored_range (range meta : Z * Z) :
  FilterStore.within range meta ->
  FilterStore.validateSavedRange
    ((fun r => JArr [JNum (fst r); JNum (snd r)]) <$> changed range meta) meta
  = range.
Proof.
  intros Hw. unfold changed.
  destruct (FilterStore.range_differs range meta) eqn:E; simpl.
  - now apply validateSavedRange_adopts.
  - symmetry. now apply range_differs_false.
Qed.

(** X20: a shared URL restores the filters. Take a store whose filters its
    metadata accepts, with the rooms positive and ascending, and the query
    that the page writes for it. In any store that has the same metadata,
    applying what [parseFiltersFromUrl] reads from that query gives the
    same filters again; and when nothing is read, the filters were the
    metadata defaults. *)
Theorem shared_url_restores_filters
    (w visitor : FilterStore.World) (m : FilterMetadata) :
  FilterStore.metadata (FilterStore.state w) = Some m ->
  FilterStore.acceptable (FilterStore.filters (FilterStore.state w)) m ->
  Sorted Z.le (rooms (FilterStore.filters (FilterStore.state w))) ->
  Forall (fun r => 0 < r) (rooms (FilterStore.filters (FilterStore.state w))) ->
  FilterStore.metadata (FilterStore.state visitor) = Some m ->
  match parseFiltersFromUrl
          (updateUrlWithFilters (FilterStore.filters (FilterStore.state w))
             (FilterStore.defaults_of m)) with
  | Some urlFilters =>
      FilterStore.filters
        (FilterStore.state
           (FilterStore.applyUrlFilters visitor (as_saved urlFilters)))
      = FilterStore.filters (FilterStore.state w)
  | None =>
      FilterStore.filters (FilterStore.state w) = FilterStore.defaults_of m
  end.
Proof.
  intros Hm (Hp & Ha & Hf & Hr) Hsorted Hpos Hvisitor.
  set (f := FilterStore.filters (FilterStore.state w)) in *.
  rewrite parseFiltersFromUrl_written;
    try (unfold ordered; unfold FilterStore.within in *; simpl; lia).
  pose proof (positive_ascending_id (rooms f) Hsorted Hpos) as Hrooms.
  destruct (nothing (recovered f (FilterStore.defaults_of m))) eqn:Hnothing.
  - unfold recovered, nothing, changed in Hnothing. simpl in Hnothing.
    rewrite Hrooms in Hnothing.
    destruct (FilterStore.range_differs (priceRange f) (meta_priceRange m))
      eqn:E1; [discriminate |].
    destruct (FilterStore.range_differs (areaRange f) (meta_areaRange m))
      eqn:E2; [discriminate |].
    destruct (rooms f) as [| r rs] eqn:E3; [| discriminate].
    destruct (FilterStore.range_differs (floors f) (floorsRange m))
      eqn:E4; [discriminate |].
    apply range_differs_false in E1, E2, E4.
    unfold FilterStore.defaults_of. destruct f as [pr ar rms fl].
    simpl in *. congruence.
  - unfold FilterStore.applyUrlFilters. rewrite Hvisitor.
    cbn [FilterStore.state FilterStore.set_state FilterStore.set_error
         FilterStore.set_isActive FilterStore.set_filters FilterStore.filters].
    unfold FilterStore.validateSavedFilters, as_saved, recovered.
    cbn [FilterStore.saved_priceRange FilterStore.saved_areaRange
         FilterStore.saved_rooms FilterStore.saved_floors
         url_priceRange url_areaRange url_rooms url_floors
         FilterStore.defaults_of priceRange areaRange floors rooms].
    rewrite !restored_range by assumption.
    rewrite Hrooms.
    destruct f as [pr ar rms fl]. simpl in *. f_equal.
    destruct rms as [| r rs]; [reflexivity |]. simpl.
    change (FilterStore.validRooms (roomsAvailable m) (map JNum (r :: rs))
            = r :: rs).
    now apply validRooms_allowed.
Qed.

Lemma shared_url_restores_filters_witness :
  FilterStore.filters
    (FilterStore.state
       (FilterStore.applyUrlFilters FilterStore.initialised
          (as_saved {| url_priceRange := Some (5000000, 10000000);
                       url_areaRange := None; url_rooms := None;
                       url_floors := None |})))
  = FilterStore.filters (FilterStore.state FilterStore.narrowed_store).
Proof.
  refine (shared_url_restores_filters FilterStore.narrowed_store
            FilterStore.initialised FilterStore.catalogue eq_refl _ _ _ eq_refl).
  - unfold FilterStore.acceptable, FilterStore.within,
      Constants.rooms_allowed. simpl. repeat split; try lia. constructor.
  - constructor.
  - constructor.
Defined.

End UrlAndStore.

(** ** Paging *)

Section Paging.

Import ApartmentStore.

(** X21: [loadMore] asks the network for one request at most, the next page
    with the current limit and no filter parameter, whatever filters the
    list was loaded with: two networks that answer this request alike give
    the same result, and a store that cannot load more is left as it is
    whatever the network. *)
Theorem loadMore_request (s : ApartmentState) (net1 net2 : Network) :
  (net1 (page_request (page (pagination s) + 1) (limit (pagination s)))
   = net2 (page_request (page (pagination s) + 1) (limit (pagination s))) ->
   loadMore net1 s = loadMore net2 s)
  /\ (canLoadMore s = false -> loadMore net1 s = (s, Resolved tt)).
Proof.
  unfold loadMore, loadApartments, page_request. split.
  - intros H. destruct (canLoadMore s); [| reflexivity].
    cbn [negb pagination buildParams set_page page limit]. now rewrite H.
  - intros ->. reflexivity.
Qed.

(** X22: paging through a list. When the first load is answered with
    fewer apartments than the total it reports, [loadMore] is possible,
    and once it is answered the list is the first page followed by the
    second, the page is 2, and [hasMore] tells whether the list is still
    short of the total just reported. When the first answer already holds
    the total, [loadMore] does nothing. *)
Theorem load_then_loadMore
    (net : Network) (s : ApartmentState) (filters : option FilterParams)
    (first second : ApartmentListResponse) :
  net (request_of s filters true) = Resolved first ->
  net (page_request 2 (limit (pagination s))) = Resolved second ->
  let loaded := fst (loadApartments net s filters true) in
  let more := fst (loadMore net loaded) in
  apartments loaded = response_apartments first
  /\ if Z.of_nat (length (response_apartments first)) <? meta_total first
     then apartments more
          = (response_apartments first ++ response_apartments second)%list
          /\ page (pagination more) = 2
          /\ hasMore more
             = (Z.of_nat (length (response_apartments first
                                  ++ response_apartments second)%list)
                <? meta_total second)
     else more = loaded.
Proof.
  intros Hfirst Hsecond loaded more.
  assert (Hloaded : loaded
            = {| apartments := response_apartments first;
                 loading := false; error := None;
                 pagination := {| page := 1; limit := limit (pagination s);
                                  total := meta_total first |};
                 hasMore := Z.of_nat (length (response_apartments first))
                            <? meta_total first;
                 metadata := match meta_filters first with
                             | Some f => Some f
                             | None => metadata s
                             end |}).
  { subst loaded. unfold loadApartments. unfold request_of in Hfirst.
    now rewrite Hfirst. }
  subst more. rewrite Hloaded. clear Hloaded loaded.
  split; [reflexivity |].
  unfold loadMore, canLoadMore. cbn [hasMore loading negb andb].
  destruct (Z.of_nat (length (response_apartments first)) <? meta_total first)
    eqn:E; cbn [andb negb]; [| reflexivity].
  unfold loadApartments, page_request in *.
  cbn [pagination set_page set_total page limit buildParams].
  change (1 + 1) with 2. rewrite Hsecond. cbn. repeat split.
Qed.

Lemma load_then_loadMore_witness :
  length (apartments
            (fst (loadMore server_25
                    (fst (loadApartments server_25 can_load_more None true)))))
  = 25%nat
  /\ hasMore (fst (loadMore server_25
                     (fst (loadApartments server_25 can_load_more None true))))
     = false.
Proof.
  pose proof (load_then_loadMore server_25 can_load_more None
                {| response_apartments := replicate 20 sample_apartment;
                   meta_total := 25; meta_filters := None |}
                {| response_apartments := replicate 5 sample_apartment;
                   meta_total := 25; meta_filters := None |}
                eq_refl eq_refl) as [_ (Happ & _ & Hmore)].
  split; [now rewrite Happ | exact Hmore].
Defined.

End Paging.

(** ** Applying filters and handling a filter change *)

Section Applying.

Import FilterStore.

Lemma validateAllFilters_accepts (s : FilterState) (m : FilterMetadata) :
  metadata s = Some m -> acceptable (filters s) m ->
  validateAllFilters s = ({| isValid := true; errors := [] |}, s).
Proof.
  intros Hm (Hp & Ha & Hf & Hr). unfold validateAllFilters.
  destruct (validatePriceRange_cases s m (priceRange (filters s)) Hm)
    as [[-> _] | (e & _ & Hno)]; [| contradiction].
  destruct (validateAreaRange_cases s m (areaRange (filters s)) Hm)
    as [[-> _] | (e & _ & Hno)]; [| contradiction].
  destruct (validateRooms_cases s m (rooms (filters s)) Hm)
    as [[-> _] | (e & _ & Hno)]; [| contradiction].
  destruct (validateFloorsRange_cases s m (floors (filters s)) Hm)
    as [[-> _] | (e & _ & Hno)]; [| contradiction].
  reflexivity.
Qed.

Lemma validateAllFilters_isValid_length (s : FilterState) :
  isValid (fst (validateAllFilters s))
  = (length (errors (fst (validateAllFilters s))) =? 0)%nat.
Proof.
  unfold validateAllFilters.
  destruct (validatePriceRange s _) as [ok1 s1].
  destruct (validateAreaRange s1 _) as [ok2 s2].
  destruct (validateRooms s2 _) as [ok3 s3].
  destruct (validateFloorsRange s3 _) as [ok4 s4].
  reflexivity.
Qed.

Lemma validateAllFilters_refuses (s : FilterState) :
  (forall m, metadata s = Some m -> ~ acceptable (filters s) m) ->
  isValid (fst (validateAllFilters s)) = false.
Proof.
  intros Hno. rewrite validateAllFilters_isValid_length.
  destruct (metadata s) as [m |] eqn:Hm.
  - specialize (Hno m eq_refl).
    pose proof (validateAllFilters_codes s m) as Hcodes.
    assert (Hsome : exists c, In c (Constants.codes (fst (validateAllFilters s)))).
    { destruct (out_of_range (priceRange (filters s)) (meta_priceRange m))
        eqn:E1; [exists "INVALID_PRICE_RANGE"; apply (Hcodes _ Hm); tauto |].
      destruct (out_of_range (areaRange (filters s)) (meta_areaRange m))
        eqn:E2; [exists "INVALID_AREA_RANGE"; apply (Hcodes _ Hm); tauto |].
      destruct (out_of_range (floors (filters s)) (floorsRange m))
        eqn:E3; [exists "INVALID_FLOORS_RANGE"; apply (Hcodes _ Hm); tauto |].
      exists "INVALID_ROOMS". apply (Hcodes _ Hm). do 2 right. left.
      split; [reflexivity |]. intros Hr. apply Hno.
      apply out_of_range_false in E1, E2, E3. unfold acceptable. tauto. }
    destruct Hsome as [c Hc]. unfold Constants.codes in Hc.
    destruct (errors (fst (validateAllFilters s))); [destruct Hc | reflexivity].
  - unfold validateAllFilters, validatePriceRange, validateAreaRange,
      validateRooms, validateFloorsRange.
    repeat (first [rewrite Hm | progress cbn]). reflexivity.
Qed.

(** X23: [applyFilters] lets nothing reach the apartment store unless the
    store's filters are acceptable to its metadata: otherwise, and always
    while there is no metadata, the apartment store is left as it is and a
    message is put in [error]. With acceptable filters the list is
    reloaded from page 1, with the filters when [hasActiveFilters] holds
    and without any filter parameter when it does not; the filter store's
    own [error] stays empty even if that load fails. In every case
    [loading] ends cleared. *)
Theorem applyFilters_gate (net : ApartmentStore.Network) (s : FilterState)
    (a : ApartmentStore.ApartmentState) :
  let s' := fst (FilterActions.applyFilters net s a) in
  let a' := snd (FilterActions.applyFilters net s a) in
  loading s' = false
  /\ (forall m, metadata s = Some m -> acceptable (filters s) m ->
      error s' = None
      /\ filters s' = filters s
      /\ a' = fst (ApartmentStore.loadApartments net a
                     (if hasActiveFilters s then Some (filters s) else None)
                     true))
  /\ ((forall m, metadata s = Some m -> ~ acceptable (filters s) m) ->
      a' = a /\ error s' <> None).
Proof.
  cbv zeta. unfold FilterActions.applyFilters.
  set (s1 := {| filters := filters s; metadata := metadata s;
                loading := true; error := None; isActive := isActive s |}).
  split; [| split].
  - destruct (validateAllFilters s1) as [validation s2].
    destruct (isValid validation); cbn [negb]; [| reflexivity].
    destruct (ApartmentStore.filterApartments net a _) as [a' [u | e]];
      reflexivity.
  - intros m Hm Hacc.
    rewrite (validateAllFilters_accepts s1 m Hm Hacc). cbn [negb isValid].
    unfold ApartmentStore.filterApartments.
    change (hasActiveFilters s1) with (hasActiveFilters s).
    change (filters s1) with (filters s).
    pose proof (loadApartments_always_resolves net a
                  (if hasActiveFilters s then Some (filters s) else None)
                  true) as Hres.
    destruct (ApartmentStore.loadApartments net a _ true) as [a' r].
    simpl in Hres. subst r. repeat split.
  - intros Hno.
    assert (Hno1 : forall m, metadata s1 = Some m -> ~ acceptable (filters s1) m)
      by exact Hno.
    pose proof (validateAllFilters_refuses s1 Hno1) as Hinvalid.
    destruct (validateAllFilters s1) as [validation s2].
    cbn [fst] in Hinvalid. rewrite Hinvalid. cbn [negb fst snd].
    split; [reflexivity | discriminate].
Qed.

(** The spec's scenario: price narrowed to 5,000,000-10,000,000, no rooms. *)
Example applyFilters_request :
  ApartmentStore.request_of ApartmentStore.can_load_more
    (Some (filters (state narrowed_store))) true
  = [("page", "1"); ("limit", "20");
     ("priceMin", "5000000"); ("priceMax", "10000000");
     ("areaMin", "1"); ("areaMax", "1000");
     ("floorMin", "1"); ("floorMax", "50")].
Proof. reflexivity. Qed.








End Applying.

(** ** Room types offered by the filter panel *)

Section Offered.

Import AvailableRooms.

Lemma StronglySorted_le_lt (l : list Z) :
  StronglySorted Z.le l -> NoDup l -> StronglySorted Z.lt l.
Proof.
  induction 1 as [| x l Hs IH Hall]; intros Hnd.
  - constructor.
  - apply NoDup_cons in Hnd as [Hx Hnd]. constructor; [now apply IH |].
    rewrite List.Forall_forall in *. intros y Hy.
    pose proof (Hall y Hy). assert (x <> y).
    { intros ->. apply Hx. now apply list_elem_of_In. }
    lia.
Qed.

Lemma lookup_foldl_insert (count : Z -> nat) (l : list Z) (acc : gmap Z nat)
    (n : Z) :
  foldl (fun counts roomCount => <[roomCount := count roomCount]> counts)
    acc l !! n
  = if includes l n then Some (count n) else acc !! n.
Proof.
  revert acc. induction l as [| x l IH]; intros acc; [reflexivity |].
  cbn [foldl]. rewrite IH. unfold includes. cbn [existsb].
  fold (includes l n). destruct (includes l n).
  - now rewrite orb_true_r.
  - rewrite orb_false_r. destruct (Z.eqb_spec n x) as [-> | Hne].
    + now rewrite lookup_insert_eq.
    + rewrite lookup_insert_ne by congruence. reflexivity.
Qed.

Lemma countOf_pos (apartments : list Apartment) (n : Z) :
  (exists apt, In apt apartments /\ apartment_rooms apt = n) ->
  (0 < countOf apartments n)%nat.
Proof.
  intros (apt & Hin & Hn). unfold countOf.
  assert (Hf : In apt (List.filter (fun apt => apartment_rooms apt =? n)
                         apartments)).
  { apply List.filter_In. split; [assumption | now apply Z.eqb_eq]. }
  destruct (List.filter _ apartments); [destruct Hf | simpl; lia].
Qed.

(** X25: with apartments on the page and a price, area or floor filter
    away from the metadata, the room types offered are exactly the room
    counts of the apartments loaded, in strictly ascending order; the
    counts table has an entry for exactly those types and every entry is
    the number of loaded apartments of that type, which is positive. *)
Theorem availableRooms_narrowed (apartments : list Apartment)
    (currentFilters : FilterParams) (metadata : option FilterMetadata) :
  apartments <> [] ->
  hasActiveNonRoomFilters currentFilters metadata = true ->
  StronglySorted Z.lt (availableRooms apartments currentFilters metadata)
  /\ (forall n : Z,
        isRoomAvailable apartments currentFilters metadata n = true
        <-> exists apt, In apt apartments /\ apartment_rooms apt = n)
  /\ (forall n : Z,
        roomCounts apartments currentFilters metadata !! n
        = if isRoomAvailable apartments currentFilters metadata n
          then Some (countOf apartments n) else None)
  /\ (forall (n : Z) (k : nat),
        roomCounts apartments currentFilters metadata !! n = Some k ->
        (0 < k)%nat).
Proof.
  intros Hne Hact.
  assert (Hrooms : availableRooms apartments currentFilters metadata
                   = sort_ascending
                       (remove_dups (map apartment_rooms apartments))).
  { unfold availableRooms. rewrite Hact.
    destruct apartments; [contradiction | reflexivity]. }
  assert (Hin : forall n : Z,
             isRoomAvailable apartments currentFilters metadata n = true
             <-> exists apt, In apt apartments /\ apartment_rooms apt = n).
  { intros n. unfold isRoomAvailable. rewrite Hrooms, includes_In.
    unfold sort_ascending. rewrite <- list_elem_of_In.
    rewrite merge_sort_Permutation, elem_of_remove_dups, list_elem_of_In.
    rewrite List.in_map_iff. split; intros (apt & H1 & H2); exists apt; auto. }
  assert (Hcount : forall n : Z,
             roomCounts apartments currentFilters metadata !! n
             = if isRoomAvailable apartments currentFilters metadata n
               then Some (countOf apartments n) else None).
  { intros n. unfold roomCounts, isRoomAvailable.
    rewrite lookup_foldl_insert.
    destruct (includes _ n); [reflexivity | apply lookup_empty]. }
  split; [| split; [exact Hin | split; [exact Hcount |]]].
  - rewrite Hrooms. unfold sort_ascending. apply StronglySorted_le_lt.
    + apply StronglySorted_merge_sort; [| apply _].
      intros x y z; apply Z.le_trans.
    + rewrite merge_sort_Permutation. apply NoDup_remove_dups.
  - intros n k Hk. rewrite Hcount in Hk.
    destruct (isRoomAvailable apartments currentFilters metadata n) eqn:Hav;
      [| discriminate].
    injection Hk as <-. apply countOf_pos. now apply Hin.
Qed.

Lemma availableRooms_narrowed_witness :
  [ApartmentStore.sample_apartment] <> []
  /\ hasActiveNonRoomFilters UrlFilters.narrowed (Some FilterStore.catalogue)
     = true
  /\ StronglySorted Z.lt
       (availableRooms [ApartmentStore.sample_apartment] UrlFilters.narrowed
          (Some FilterStore.catalogue))
  /\ (isRoomAvailable [ApartmentStore.sample_apartment] UrlFilters.narrowed
         (Some FilterStore.catalogue) 2 = true
       <-> exists apt, In apt [ApartmentStore.sample_apartment]
                       /\ apartment_rooms apt = 2).
Proof.
  assert (Hne : [ApartmentStore.sample_apartment] <> []) by discriminate.
  assert (Hact : hasActiveNonRoomFilters UrlFilters.narrowed
                   (Some FilterStore.catalogue) = true) by reflexivity.
  pose proof (availableRooms_narrowed [ApartmentStore.sample_apartment]
                UrlFilters.narrowed (Some FilterStore.catalogue) Hne Hact)
    as (Hsorted & Hin & _).
  split; [exact Hne |]. split; [exact Hact |].
  split; [exact Hsorted | exact (Hin 2)].
Defined.

End Offered.

(** ** Retrying and summarising *)

Section RetryAndSummary.

Import FilterStore.

Lemma loadApartments_clearError (net : ApartmentStore.Network)
    (a : ApartmentStore.ApartmentState) (f : option FilterParams)
    (reset : bool) :
  ApartmentStore.loadApartments net (ApartmentStore.clearError a) f reset
  = ApartmentStore.loadApartments net a f reset.
Proof. reflexivity. Qed.

(** X26: the retry button reloads what applying the filters would load,
    but without the validation that [applyFilters] runs first. For a store
    whose metadata accepts its filters, [handleRetry] leaves the apartment
    store exactly as [applyFilters] does. Whether or not the filters are
    acceptable, [handleRetry] sends the request and takes over the
    answer, whereas [applyFilters] leaves the list alone when they are
    not. *)
Theorem handleRetry_skips_validation (net : ApartmentStore.Network)
    (a : ApartmentStore.ApartmentState) (s : FilterState) :
  (forall m, metadata s = Some m -> acceptable (filters s) m ->
     Page.handleRetry net a s = snd (FilterActions.applyFilters net s a))
  /\ (forall response,
        net (ApartmentStore.request_of a
               (if hasActiveFilters s then Some (filters s) else None) true)
        = Resolved response ->
        ApartmentStore.apartments (Page.handleRetry net a s)
        = response_apartments response
        /\ ((forall m, metadata s = Some m -> ~ acceptable (filters s) m) ->
            snd (FilterActions.applyFilters net s a) = a)).
Proof.
  split.
  - intros m Hm Hacc. unfold Page.handleRetry, FilterActions.applyFilters.
    rewrite loadApartments_clearError.
    set (s1 := {| filters := filters s; metadata := metadata s;
                  loading := true; error := None; isActive := isActive s |}).
    assert (Hm1 : metadata s1 = Some m) by exact Hm.
    assert (Hacc1 : acceptable (filters s1) m) by exact Hacc.
    rewrite (validateAllFilters_accepts s1 m Hm1 Hacc1). cbn [negb isValid].
    unfold ApartmentStore.filterApartments.
    change (hasActiveFilters s1) with (hasActiveFilters s).
    change (filters s1) with (filters s).
    pose proof (loadApartments_always_resolves net a
                  (if hasActiveFilters s then Some (filters s) else None)
                  true) as Hres.
    destruct (ApartmentStore.loadApartments net a _ true) as [a' r].
    simpl in Hres. subst r. reflexivity.
  - intros response Hnet. split.
    + unfold Page.handleRetry. rewrite loadApartments_clearError.
      unfold ApartmentStore.loadApartments.
      unfold ApartmentStore.request_of in Hnet. rewrite Hnet. reflexivity.
    + intros Hno. unfold FilterActions.applyFilters.
      set (s1 := {| filters := filters s; metadata := metadata s;
                    loading := true; error := None; isActive := isActive s |}).
      assert (Hno1 : forall m, metadata s1 = Some m ->
                               ~ acceptable (filters s1) m) by exact Hno.
      pose proof (validateAllFilters_refuses s1 Hno1) as Hinvalid.
      destruct (validateAllFilters s1) as [validation s2].
      cbn [fst] in Hinvalid. rewrite Hinvalid. reflexivity.
Qed.

(** X27: the summary shown for the filters has one line for each filter
    that the badge counts: with metadata, [getFilterSummary] returns
    exactly [activeFiltersCount] lines, none exactly when
    [hasActiveFilters] is false; the rooms line, present whenever rooms
    are selected, is the rooms joined by a comma and a space, for one room
    as for several. The summary is [null] exactly when the store has no
    metadata. *)
Theorem getFilterSummary_count (s : FilterState) :
  (Filters.getFilterSummary s = None <-> metadata s = None)
  /\ match Filters.getFilterSummary s with
  | None => metadata s = None
  | Some summary =>
      length summary = activeFiltersCount s
      /\ (summary = [] <-> hasActiveFilters s = false)
      /\ (rooms (filters s) <> [] <->
          In ("Комнаты: " +:+ join ", " (rooms (filters s)) +:+ " комн.")
            summary)
  end.
Proof.
  unfold Filters.getFilterSummary, activeFiltersCount, hasActiveFilters.
  destruct (metadata s) as [m |]; [| now split].
  split; [split; discriminate |].
  assert (Hrooms : match rooms (filters s) with
                   | [room] => toString room +:+ " комн."
                   | _ => join ", " (rooms (filters s)) +:+ " комн."
                   end
                   = join ", " (rooms (filters s)) +:+ " комн.").
  { destruct (rooms (filters s)) as [| r [| r' l]]; reflexivity. }
  rewrite Hrooms. clear Hrooms.
  destruct (range_differs (priceRange (filters s)) (meta_priceRange m)),
    (range_differs (areaRange (filters s)) (meta_areaRange m)),
    (range_differs (floors (filters s)) (floorsRange m)),
    (rooms (filters s)) as [| r l];
    cbn [length Nat.ltb Nat.leb app orb];
    (split; [reflexivity |]);
    (split; [split; intros H; first [discriminate H | reflexivity] |]);
    (split;
     [ intros H; first [now contradiction H | cbn [In]; tauto]
     | intros H; first [discriminate | exfalso; cbn [In] in H ] ]).
  all: repeat match goal with
         | H : _ \/ _ |- _ => destruct H as [H | H]
         | H : False |- _ => destruct H
         | H : _ +:+ _ = _ |- _ => cbn [append] in H; discriminate H
         end.
Qed.

End RetryAndSummary.

(** ** The setters and [NaN] *)

Section NumberStoreProperties.

Import FilterStore.



















End NumberStoreProperties.
